(** * DNC Checker: authentication, request validation and log masking

    A shallow embedding of the server side of the DNC Checker web
    application (lib/logger.ts, lib/db.ts, lib/auth.ts, middleware.ts and
    the four API route handlers), with the properties the specification
    states about them.

    Conventions.
    - A JavaScript string is a sequence of UTF-16 code units, modelled as
      [list N].  Source literals are written [lit "..."].
    - The route handlers are written in a small state-and-exception monad;
      every call to a collaborator (logger, connection pool, SQL request,
      bcrypt) leaves an event in the trace, and effects performed before an
      exception survive it, as in JavaScript.
    - What the JavaScript engine and the libraries provide ([Date] parsing,
      [toLowerCase], bcrypt, the clock, the SQL Server instance) is a field
      of the [Runtime] record the handlers are run against. *)

From Stdlib Require Import ZArith NArith List String Ascii Bool Lia DecimalString.
Import ListNotations.

Local Open Scope N_scope.

(* ================================================================== *)
(** ** JavaScript strings                                              *)
(* ================================================================== *)

Module Js.

Definition jsstring := list N.

(** A source literal (ASCII) as a sequence of code units. *)
Definition lit (s : string) : jsstring :=
  List.map N_of_ascii (list_ascii_of_string s).

Definition chr (c : ascii) : N := N_of_ascii c.

Fixpoint eqb (a b : jsstring) : bool :=
  match a, b with
  | [], [] => true
  | x :: a', y :: b' => N.eqb x y && eqb a' b'
  | _, _ => false
  end.

(** Character classes of ECMAScript regular expressions (no [u], no [i]
    flag): [\d] is [0-9], [\w] is [A-Za-z0-9_], [\s] is WhiteSpace and
    LineTerminator. *)
Definition is_digit (c : N) : bool := (48 <=? c) && (c <=? 57).

Definition is_word (c : N) : bool :=
  is_digit c || ((65 <=? c) && (c <=? 90)) || ((97 <=? c) && (c <=? 122))
  || (c =? 95).

Definition is_space (c : N) : bool :=
  ((9 <=? c) && (c <=? 13)) || (c =? 32) || (c =? 160) || (c =? 5760)
  || ((8192 <=? c) && (c <=? 8202)) || (c =? 8232) || (c =? 8233)
  || (c =? 8239) || (c =? 8287) || (c =? 12288) || (c =? 65279).

Definition is_char (k : N) (c : N) : bool := c =? k.

(** [\D] *)
Definition not_digit (c : N) : bool := negb (is_digit c).

(** [[-.\s]] *)
Definition is_sep (c : N) : bool :=
  (c =? 45) || (c =? 46) || is_space c.

(** *** A matcher for the regular expressions the sources use

    A pattern is a sequence of items: one character of a class, a greedy
    star over a class, the word-boundary assertion, and the parentheses
    of capture group 1. *)
Inductive Item : Type :=
| One (cls : N -> bool)
| Many (cls : N -> bool)
| Boundary
| GroupOpen
| GroupClose.

Definition Pattern := list Item.

(** [x{n}] *)
Definition times (n : nat) (it : Item) : Pattern := List.repeat it n.

Definition word_at (c : option N) : bool :=
  match c with Some x => is_word x | None => false end.

(** [match_here pat prev s ing grp n]: match [pat] at the start of [s],
    [prev] being the code unit just before; [ing] tells whether group 1
    is open, [grp] is what it has captured so far (reversed) and [n] the
    number of code units consumed.  The result is the text of group 1
    and the length of the match.  The star is greedy and backtracks. *)
Fixpoint match_here (pat : Pattern)
  : option N -> jsstring -> bool -> list N -> nat -> option (jsstring * nat) :=
  match pat with
  | [] => fun _ _ _ grp n => Some (List.rev grp, n)
  | One cls :: pat' =>
      fun _ s ing grp n =>
        match s with
        | x :: s' =>
            if cls x
            then match_here pat' (Some x) s' ing
                            (if ing then x :: grp else grp) (S n)
            else None
        | [] => None
        end
  | Many cls :: pat' =>
      fix many (prev : option N) (s : jsstring) (ing : bool)
               (grp : list N) (n : nat) {struct s} :=
        match s with
        | x :: s' =>
            if cls x
            then match many (Some x) s' ing
                            (if ing then x :: grp else grp) (S n) with
                 | Some r => Some r
                 | None => match_here pat' prev s ing grp n
                 end
            else match_here pat' prev s ing grp n
        | [] => match_here pat' prev s ing grp n
        end
  | Boundary :: pat' =>
      fun prev s ing grp n =>
        if xorb (word_at prev) (word_at (List.hd_error s))
        then match_here pat' prev s ing grp n
        else None
  | GroupOpen :: pat' => fun prev s _ grp n => match_here pat' prev s true grp n
  | GroupClose :: pat' => fun prev s _ grp n => match_here pat' prev s false grp n
  end.

Definition exec (pat : Pattern) (prev : option N) (s : jsstring)
  : option (jsstring * nat) :=
  match_here pat prev s false [] 0%nat.

(** [s.replace(/pat/g, repl)]: scan from the left; at a match emit the
    replacement (a function of group 1) and resume after the match; an
    empty match advances by one code unit.  [skip] counts the code units
    of the current match still to be dropped. *)
Fixpoint replace_from (pat : Pattern) (repl : jsstring -> jsstring)
         (prev : option N) (s : jsstring) (skip : nat) : jsstring :=
  match s with
  | [] =>
      match skip with
      | O => match exec pat prev [] with
             | Some (g, _) => repl g
             | None => []
             end
      | S _ => []
      end
  | x :: s' =>
      match skip with
      | S k => replace_from pat repl (Some x) s' k
      | O =>
          match exec pat prev s with
          | Some (g, O) => repl g ++ x :: replace_from pat repl (Some x) s' 0
          | Some (g, S k) => repl g ++ replace_from pat repl (Some x) s' k
          | None => x :: replace_from pat repl (Some x) s' 0
          end
      end
  end.

Definition replace_all (pat : Pattern) (repl : jsstring -> jsstring)
           (s : jsstring) : jsstring :=
  replace_from pat repl None s 0.

(** [s.slice(-k)] *)
Definition slice_last (k : nat) (s : jsstring) : jsstring :=
  List.skipn (List.length s - k) s.

(** [s.trim()] *)
Fixpoint trim_start (s : jsstring) : jsstring :=
  match s with
  | x :: s' => if is_space x then trim_start s' else s
  | [] => []
  end.

Definition trim (s : jsstring) : jsstring :=
  List.rev (trim_start (List.rev (trim_start s))).

(** [s.includes(c)] for a one-character needle *)
Definition includes (c : N) (s : jsstring) : bool :=
  List.existsb (N.eqb c) s.

(** [s.split(c)] for a one-character separator: never empty. *)
Fixpoint split (c : N) (s : jsstring) : list jsstring :=
  match s with
  | [] => [[]]
  | x :: s' =>
      if x =? c then [] :: split c s'
      else match split c s' with
           | p :: ps => (x :: p) :: ps
           | [] => [[x]]
           end
  end.

(** Truthiness of an optional string: [undefined] and [""] are falsy. *)
Definition truthy (s : option jsstring) : bool :=
  match s with
  | Some (_ :: _) => true
  | _ => false
  end.

(** A value interpolated in a template literal: [${x}] with [x]
    possibly [undefined]. *)
Definition interpolate (s : option jsstring) : jsstring :=
  match s with
  | Some v => v
  | None => lit "undefined"
  end.

(** [String(z)] for an integer. *)
Definition of_Z (z : Z) : jsstring :=
  lit (NilZero.string_of_int (Z.to_int z)).

(** A Number that holds an integer, an infinity or NaN (the sign of a
    zero is not kept). *)
Inductive Num : Type :=
| NaN
| Infinity (negative : bool)
| Int (z : Z).

(** The double nearest to the integer [m >= 0], ties to even: exact up
    to 53 bits; above that the low bits are rounded away. *)
Definition round_53 (m : Z) : Z :=
  let bits := (Z.log2 m + 1)%Z in
  if (bits <=? 53)%Z then m
  else
    let e := (bits - 53)%Z in
    let q := Z.shiftr m e in
    let r := (m - Z.shiftl q e)%Z in
    let half := Z.shiftl 1 (e - 1) in
    let q' := if (r <? half)%Z then q
              else if (half <? r)%Z then (q + 1)%Z
              else if Z.even q then q else (q + 1)%Z in
    Z.shiftl q' e.

(** The Number value of a mathematical integer. *)
Definition to_double (z : Z) : Num :=
  let m := round_53 (Z.abs z) in
  if (Z.shiftl 1 1024 <=? m)%Z then Infinity (z <? 0)%Z
  else Int (Z.sgn z * m).

(** [parseInt(s, 10)]: leading white space, an optional sign, then the
    longest run of decimal digits, read as an integer and rounded to a
    double as V8 does; without a digit the result is NaN. *)
Fixpoint digits_value (acc : Z) (any : bool) (s : jsstring) : option Z :=
  match s with
  | x :: s' =>
      if is_digit x
      then digits_value (10 * acc + Z.of_N (x - 48))%Z true s'
      else if any then Some acc else None
  | [] => if any then Some acc else None
  end.

Definition parseInt (s : jsstring) : Num :=
  let number (negative : bool) (r : jsstring) : Num :=
    match digits_value 0%Z false r with
    | Some m => to_double (if negative then (- m)%Z else m)
    | None => NaN
    end in
  match trim_start s with
  | 45 :: r => number true r
  | 43 :: r => number false r
  | r => number false r
  end.

(** The values a log record or a result row holds. *)
Inductive Value : Type :=
| VString (s : jsstring)
| VNumber (z : Z)
| VBoolean (b : bool)
| VUndefined.

(** A thrown [Error]: [number] is set by the SQL Server driver only.
    Of [stack] the first line is kept, the name and the message; the
    frames that follow it name files of the build. *)
Record JsError : Type := {
  err_number : option Z;
  err_message : jsstring;
  err_stack : option jsstring
}.

(** [new Error(message)] *)
Definition Error (message : jsstring) : JsError :=
  {| err_number := None; err_message := message;
     err_stack := Some (lit "Error: " ++ message) |}.

(** The [TypeError] the engine throws for a property read on [null] or
    a call of something that is no function. *)
Definition TypeError (message : jsstring) : JsError :=
  {| err_number := None; err_message := message;
     err_stack := Some (lit "TypeError: " ++ message) |}.

(** A property of a parsed JSON value as a handler reads it: [undefined]
    when the key is absent, [null], a string, or another value (a
    number, a boolean, an array, an object), of which the handlers test
    the truthiness only. *)
Inductive Field : Type :=
| Absent
| Null
| Text (s : jsstring)
| Other (truthy : bool).


End Js.

Import Js.

(* ================================================================== *)
(** ** lib/logger.ts                                                   *)
(* ================================================================== *)

Module Logger.

(** *** The masking function [mask] of [maskPhoneNumbers] *)

(** [/\(\d{3}\)\s*\d{3}-(\d{4})/g] *)
Definition re_formatted : Pattern :=
  [One (is_char 40)] ++ times 3 (One is_digit) ++ [One (is_char 41)]
  ++ [Many is_space] ++ times 3 (One is_digit) ++ [One (is_char 45)]
  ++ [GroupOpen] ++ times 4 (One is_digit) ++ [GroupClose].

(** [/\d{3}[-.\s]\d{3}[-.\s](\d{4})/g] *)
Definition re_separated : Pattern :=
  times 3 (One is_digit) ++ [One is_sep] ++ times 3 (One is_digit)
  ++ [One is_sep] ++ [GroupOpen] ++ times 4 (One is_digit) ++ [GroupClose].

(** [/\b\d{6}(\d{4})\b/g] *)
Definition re_raw : Pattern :=
  [Boundary] ++ times 6 (One is_digit)
  ++ [GroupOpen] ++ times 4 (One is_digit) ++ [GroupClose] ++ [Boundary].

(** The replacement ["***-***-$1"]. *)
Definition stars (g1 : jsstring) : jsstring := lit "***-***-" ++ g1.

Definition mask (text : jsstring) : jsstring :=
  replace_all re_raw stars
    (replace_all re_separated stars
       (replace_all re_formatted stars text)).

(** *** Log records

    A winston [info] object: its own enumerable string-keyed properties
    in insertion order ([level], [message], then the metadata). *)
Definition Info := list (string * Value).

Fixpoint get (key : string) (info : Info) : option Value :=
  match info with
  | [] => None
  | (k, v) :: rest => if String.eqb k key then Some v else get key rest
  end.

(** Assignment to a property the object already has. *)
Fixpoint set (key : string) (v : Value) (info : Info) : Info :=
  match info with
  | [] => []
  | (k, w) :: rest =>
      if String.eqb k key then (k, v) :: rest else (k, w) :: set key v rest
  end.

Definition keys (info : Info) : list string := List.map fst info.

(** The body of the format: the message first, then every other key
    whose value is a string. *)
Definition maskPhoneNumbers (info : Info) : Info :=
  let info1 :=
    match get "message" info with
    | Some (VString m) => set "message" (VString (mask m)) info
    | _ => info
    end in
  List.fold_left
    (fun acc key =>
       if negb (String.eqb key "message")
       then match get key acc with
            | Some (VString s) => set key (VString (mask s)) acc
            | _ => acc
            end
       else acc)
    (keys info1) info1.

(** *** Transports *)
Inductive Format : Type :=
| FMaskPhoneNumbers
| FTimestamp
| FColorize
| FJson
| FPrintf.

Inductive Sink : Type :=
| Console
| DailyRotateFile (filename : string).

Record Transport : Type := {
  sink : Sink;
  format : list Format   (* winston.format.combine(...), [] when absent *)
}.

(** What a format does to the fields of a record.  [timestamp] adds a
    field of its own, [colorize] only touches [level], [json] and
    [printf] serialise: none of them changes [message] or the metadata,
    so here they leave the record as it is. *)
Definition apply_format (f : Format) (info : Info) : Info :=
  match f with
  | FMaskPhoneNumbers => maskPhoneNumbers info
  | _ => info
  end.

(** The record a transport writes for [info]. *)
Definition transform (t : Transport) (info : Info) : Info :=
  List.fold_left (fun acc f => apply_format f acc) (format t) info.

Definition fileTransport : Transport :=
  {| sink := DailyRotateFile "app-%DATE%.log";
     format := [FMaskPhoneNumbers; FTimestamp; FJson] |}.

Definition consoleTransport : Transport :=
  {| sink := Console;
     format := [FMaskPhoneNumbers; FColorize; FTimestamp; FPrintf] |}.

Record LoggerOptions : Type := {
  transports : list Transport;
  exceptionHandlers : list Transport;
  rejectionHandlers : list Transport;
  exitOnError : bool
}.

Definition logger : LoggerOptions :=
  {| transports := [consoleTransport; fileTransport];
     exceptionHandlers :=
       [ {| sink := Console; format := [] |};
         {| sink := DailyRotateFile "exceptions-%DATE%.log"; format := [] |} ];
     rejectionHandlers :=
       [ {| sink := Console; format := [] |};
         {| sink := DailyRotateFile "rejections-%DATE%.log"; format := [] |} ];
     exitOnError := false |}.

(** Every sink the logger writes to. *)
Definition sinks (l : LoggerOptions) : list Transport :=
  transports l ++ exceptionHandlers l ++ rejectionHandlers l.

(** What reaches the sinks: a record logged through [logger.info],
    [logger.warn] or [logger.error] goes to the transports; an uncaught
    exception or unhandled rejection goes to the respective handlers.
    These are the sinks lib/logger.ts names for such a record; a release
    of winston that hands it to [transports] as well masks it there like
    any logged record. *)
Inductive Origin : Type := Logged | UncaughtException | UnhandledRejection.

Definition route (l : LoggerOptions) (o : Origin) : list Transport :=
  match o with
  | Logged => transports l
  | UncaughtException => exceptionHandlers l
  | UnhandledRejection => rejectionHandlers l
  end.

Definition write (l : LoggerOptions) (o : Origin) (info : Info)
  : list (Sink * Info) :=
  List.map (fun t => (sink t, transform t info)) (route l o).

End Logger.

(* ================================================================== *)
(** ** Effects: state, exceptions and the trace of collaborator calls  *)
(* ================================================================== *)

Module Effects.

Inductive Level : Type := LInfo | LWarn | LError.

(** [sql.config] as [buildConfig] fills it. *)
Record Config : Type := {
  cfg_server : jsstring;
  cfg_port : Num;
  cfg_database : jsstring;
  cfg_user : jsstring;
  cfg_password : jsstring;
  cfg_encrypt : bool;
  cfg_trustServerCertificate : bool;
  cfg_enableArithAbort : bool;
  cfg_pool_max : Z;
  cfg_pool_min : Z;
  cfg_idleTimeoutMillis : Z;
  cfg_connectionTimeout : Z;
  cfg_requestTimeout : Z
}.

Record ConnectionPool : Type := {
  connected : bool;
  pool_config : Config
}.

Inductive SqlType : Type := NVarChar (n : Z) | SqlDate.
Inductive SqlValue : Type := SString (s : jsstring) | STime (ms : Z).

Record Param : Type := {
  p_name : string;
  p_type : SqlType;
  p_value : SqlValue
}.

(** The three statements the application sends as text. *)
Inductive Statement : Type :=
| SelectUserByUsername      (* SELECT ... FROM users WHERE username = @username *)
| SelectActiveUserByEmail   (* SELECT ... WHERE email = @email AND is_active = 1 *)
| InsertUser.               (* INSERT INTO users (username, email, password_hash) *)

Inductive Event : Type :=
| EvLog (level : Level) (message : jsstring) (meta : list (string * Value))
| EvConsoleLog (message : jsstring)
| EvGetPool
| EvConnect (cfg : Config)
| EvQuery (stmt : Statement) (inputs : list Param)
| EvExecute (procedure : string) (inputs : list Param)
| EvBcryptHash (rounds : Z)
| EvBcryptCompare.

(** A row of [dbo].[users]. *)
Record User : Type := {
  id : Z;
  username : jsstring;
  email : jsstring;
  password_hash : jsstring;
  is_active : bool
}.

Record State : Type := {
  prodPool : option ConnectionPool;     (* [_prodPool] *)
  globalPool : option ConnectionPool;   (* [global._mssqlPool] *)
  users : list User;                    (* the rows of [dbo].[users] *)
  clock : nat;                          (* readings of [Date.now()] so far *)
  trace : list Event                    (* oldest first *)
}.

Definition M (A : Type) : Type := State -> (JsError + A) * State.

Definition ret {A} (a : A) : M A := fun st => (inr a, st).

Definition bind {A B} (m : M A) (k : A -> M B) : M B :=
  fun st =>
    match m st with
    | (inr a, st') => k a st'
    | (inl e, st') => (inl e, st')
    end.

Definition throw {A} (e : JsError) : M A := fun st => (inl e, st).

(** [try { body } catch (err) { handler }] *)
Definition try_catch {A} (body : M A) (handler : JsError -> M A) : M A :=
  fun st =>
    match body st with
    | (inr a, st') => (inr a, st')
    | (inl e, st') => handler e st'
    end.

Definition emit (ev : Event) : M unit :=
  fun st =>
    (inr tt,
     {| prodPool := prodPool st; globalPool := globalPool st;
        users := users st; clock := clock st;
        trace := trace st ++ [ev] |}).

Definition get_state : M State := fun st => (inr st, st).

Definition set_prodPool (p : option ConnectionPool) : M unit :=
  fun st =>
    (inr tt,
     {| prodPool := p; globalPool := globalPool st;
        users := users st; clock := clock st; trace := trace st |}).

Definition set_globalPool (p : option ConnectionPool) : M unit :=
  fun st =>
    (inr tt,
     {| prodPool := prodPool st; globalPool := p;
        users := users st; clock := clock st; trace := trace st |}).

Definition set_users (us : list User) : M unit :=
  fun st =>
    (inr tt,
     {| prodPool := prodPool st; globalPool := globalPool st;
        users := us; clock := clock st; trace := trace st |}).

Definition tick : M nat :=
  fun st =>
    (inr (clock st),
     {| prodPool := prodPool st; globalPool := globalPool st;
        users := users st; clock := S (clock st); trace := trace st |}).

End Effects.

Import Effects.

Declare Scope js_scope.
Delimit Scope js_scope with js.
Notation "x <- m ;; k" := (bind m (fun x => k))
  (at level 61, m at next level, right associativity) : js_scope.
Notation "m ;;; k" := (bind m (fun _ => k))
  (at level 61, right associativity) : js_scope.

Local Open Scope string_scope.
Local Open Scope list_scope.
Local Open Scope js_scope.

(* ================================================================== *)
(** ** What the engine, the libraries and the SQL Server provide       *)
(* ================================================================== *)

Module Platform.

(** [process.env] *)
Record Env : Type := {
  DB_SERVER : option jsstring;
  DB_PORT : option jsstring;
  DB_DATABASE : option jsstring;
  DB_USER : option jsstring;
  DB_PASSWORD : option jsstring;
  NODE_ENV : option jsstring;
  LOG_LEVEL : option jsstring
}.

(** A result row: column name and value, as the procedure returns it. *)
Definition Row := list (string * Value).

Record Runtime : Type := {
  env : Env;
  (** [Date.now()] at its n-th reading *)
  now : nat -> Z;
  (** [new Date(s).getTime()]; [None] is NaN (Invalid Date) *)
  Date_parse : jsstring -> option Z;
  (** [String.prototype.toLowerCase] *)
  toLowerCase : jsstring -> jsstring;
  (** [bcrypt.hash(plain, rounds)] and [bcrypt.compare(plain, digest)] *)
  bcrypt_hash : jsstring -> Z -> jsstring;
  bcrypt_compare : jsstring -> jsstring -> JsError + bool;
  (** [sql.connect(config)]: [None] when the promise resolves *)
  sql_connect : Config -> option JsError;
  (** a fault that makes a request on the pool reject (time-out, dropped
      connection), if any *)
  sql_fault : option JsError;
  (** string equality under the collation of [dbo].[users] *)
  sql_equal : jsstring -> jsstring -> bool;
  (** the error numbers the two unique indexes raise *)
  username_dup_number : Z;
  email_dup_number : Z;
  (** the stored procedures (the decision service) *)
  sp_dnc_lookup : jsstring -> Z -> list Row;
  sp_dnc_history : jsstring -> list Row
}.

(** [logger.info / warn / error]: here a call is recorded; what each
    sink writes for it is [Logger.write]. *)
Definition logger_log (lvl : Level) (message : jsstring)
           (meta : list (string * Value)) : M unit :=
  emit (EvLog lvl message meta).

Definition logger_info (message : jsstring) : M unit :=
  logger_log LInfo message [].
Definition logger_warn (message : jsstring) : M unit :=
  logger_log LWarn message [].
Definition logger_error (message : jsstring) (meta : list (string * Value))
  : M unit :=
  logger_log LError message meta.

Definition Date_now (rt : Runtime) : M Z :=
  n <- tick ;; ret (now rt n).

(** [err instanceof Error ? err.message : String(err)] and
    [err instanceof Error ? err.stack : undefined] *)
Definition err_meta (err : JsError) : list (string * Value) :=
  [ ("err", VString (err_message err));
    ("stack", match err_stack err with
              | Some s => VString s
              | None => VUndefined
              end) ].

(** The em dash of the log messages. *)
Definition dash : jsstring := [8212%N].

End Platform.

Import Platform.

(* ================================================================== *)
(** ** lib/db.ts                                                       *)
(* ================================================================== *)

Module Db.

Definition buildConfig (e : Env) : JsError + Config :=
  let server := DB_SERVER e in
  let database := DB_DATABASE e in
  let user := DB_USER e in
  let password := DB_PASSWORD e in
  match server, database, user, password with
  | Some ((_ :: _) as server), Some ((_ :: _) as database),
    Some ((_ :: _) as user), Some ((_ :: _) as password) =>
      inr {| cfg_server := server;
             cfg_port := parseInt (if truthy (DB_PORT e)
                                   then interpolate (DB_PORT e)
                                   else lit "1433");
             cfg_database := database;
             cfg_user := user;
             cfg_password := password;
             cfg_encrypt := false;
             cfg_trustServerCertificate := true;
             cfg_enableArithAbort := true;
             cfg_pool_max := 10;
             cfg_pool_min := 0;
             cfg_idleTimeoutMillis := 30000;
             cfg_connectionTimeout := 15000;
             cfg_requestTimeout := 30000 |}
  | _, _, _, _ =>
      inl (Error (lit "Missing required database environment variables. "
                  ++ lit "Ensure DB_SERVER, DB_DATABASE, DB_USER, and DB_PASSWORD are set in .env.local"))
  end.

(** [await sql.connect(buildConfig())] *)
Definition connect (rt : Runtime) : M ConnectionPool :=
  match buildConfig (env rt) with
  | inl e => throw e
  | inr cfg =>
      emit (EvConnect cfg) ;;;
      match sql_connect rt cfg with
      | Some e => throw e
      | None => ret {| connected := true; pool_config := cfg |}
      end
  end.

Definition usable (p : option ConnectionPool) : bool :=
  match p with
  | Some pool => connected pool
  | None => false
  end.

(** [process.env.NODE_ENV === "development"] *)
Definition development (e : Env) : bool :=
  match NODE_ENV e with
  | Some v => Js.eqb v (lit "development")
  | None => false
  end.

Definition getPool (rt : Runtime) : M ConnectionPool :=
  emit EvGetPool ;;;
  st <- get_state ;;
  if development (env rt)
  then
    match globalPool st with
    | Some pool =>
        if connected pool then ret pool
        else
          logger_info (lit "Creating new MSSQL connection pool (development)") ;;;
          pool' <- connect rt ;;
          set_globalPool (Some pool') ;;;
          ret pool'
    | None =>
        logger_info (lit "Creating new MSSQL connection pool (development)") ;;;
        pool' <- connect rt ;;
        set_globalPool (Some pool') ;;;
        ret pool'
    end
  else
    match prodPool st with
    | Some pool =>
        if connected pool then ret pool
        else
          logger_info (lit "Creating new MSSQL connection pool (production)") ;;;
          pool' <- connect rt ;;
          set_prodPool (Some pool') ;;;
          ret pool'
    | None =>
        logger_info (lit "Creating new MSSQL connection pool (production)") ;;;
        pool' <- connect rt ;;
        set_prodPool (Some pool') ;;;
        ret pool'
    end.

(** The ["error"] listener [getPool] registers on a pool it creates:
    it logs, and in production it clears [_prodPool] so that the next
    call reconnects. *)
Definition on_pool_error (rt : Runtime) (err : JsError) : M unit :=
  logger_error (lit "MSSQL pool error")
               [("err", VString (err_message err))] ;;;
  if development (env rt) then ret tt else set_prodPool None.

(** The module-level statements of lib/db.ts: the pool variable is
    declared, nothing is read from the environment. *)
Definition module_init (e : Env) : JsError + option ConnectionPool :=
  inr None.

(** *** Requests on the pool, answered by the SQL Server *)

Definition fault_check (rt : Runtime) : M unit :=
  match sql_fault rt with
  | Some e => throw e
  | None => ret tt
  end.

(** [pool.request().input(...).query(text)] *)
Definition query_user_by_username (rt : Runtime) (pool : ConnectionPool)
           (name : jsstring) : M (list User) :=
  emit (EvQuery SelectUserByUsername
          [ {| p_name := "username"; p_type := NVarChar 100;
               p_value := SString name |} ]) ;;;
  fault_check rt ;;;
  st <- get_state ;;
  ret (List.filter (fun u => sql_equal rt (username u) name) (users st)).

Definition query_active_user_by_email (rt : Runtime) (pool : ConnectionPool)
           (mail : jsstring) : M (list User) :=
  emit (EvQuery SelectActiveUserByEmail
          [ {| p_name := "email"; p_type := NVarChar 255;
               p_value := SString mail |} ]) ;;;
  fault_check rt ;;;
  st <- get_state ;;
  ret (List.filter (fun u => sql_equal rt (email u) mail && is_active u)
                   (users st)).

(** The unique indexes [UX_users_username] and [UX_users_email] of
    sql/setup.sql reject a duplicate with an error that carries the
    index's error number. *)
Definition duplicate (number : Z) : JsError :=
  {| err_number := Some number;
     err_message := lit "Cannot insert duplicate key row in object 'dbo.users'";
     err_stack := None |}.

Definition query_insert_user (rt : Runtime) (pool : ConnectionPool)
           (name mail digest : jsstring) : M unit :=
  emit (EvQuery InsertUser
          [ {| p_name := "username"; p_type := NVarChar 100;
               p_value := SString name |};
            {| p_name := "email"; p_type := NVarChar 255;
               p_value := SString mail |};
            {| p_name := "password_hash"; p_type := NVarChar 255;
               p_value := SString digest |} ]) ;;;
  fault_check rt ;;;
  st <- get_state ;;
  if List.existsb (fun u => sql_equal rt (username u) name) (users st)
  then throw (duplicate (username_dup_number rt))
  else if List.existsb (fun u => sql_equal rt (email u) mail) (users st)
  then throw (duplicate (email_dup_number rt))
  else
    set_users (users st ++
               [ {| id := Z.of_nat (List.length (users st)) + 1;
                    username := name; email := mail;
                    password_hash := digest; is_active := true |} ]).

(** [pool.request().input(...).execute(procedure)] *)
Definition execute_sp_dnc_history (rt : Runtime) (pool : ConnectionPool)
           (phone : jsstring) : M (list Row) :=
  emit (EvExecute "dbo.sp_dnc_history"
          [ {| p_name := "PhoneNumber"; p_type := NVarChar 20;
               p_value := SString phone |} ]) ;;;
  fault_check rt ;;;
  ret (sp_dnc_history rt phone).

Definition execute_sp_dnc_lookup (rt : Runtime) (pool : ConnectionPool)
           (phone : jsstring) (date : Z) : M (list Row) :=
  emit (EvExecute "dbo.sp_dnc_lookup"
          [ {| p_name := "PhoneNumber"; p_type := NVarChar 20;
               p_value := SString phone |};
            {| p_name := "LookupDate"; p_type := SqlDate;
               p_value := STime date |} ]) ;;;
  fault_check rt ;;;
  ret (sp_dnc_lookup rt phone date).

End Db.

(* ================================================================== *)
(** ** Requests and responses                                          *)
(* ================================================================== *)

Module Http.

(** What [getServerSession(authOptions)] resolved to, when not [null]. *)
Record Session : Type := { session_user_id : jsstring }.

(** An inbound request as a handler sees it: the session NextAuth
    decodes from it ([None] when there is no valid one) and the result
    of [req.json()] ([None] when it rejects). *)
Record Request (B : Type) : Type := {
  req_session : option Session;
  req_json : option B
}.
Arguments req_session {B} _.
Arguments req_json {B} _.

Inductive Data : Type :=
| Rows (rows : list Row)
| Message (message : string).

(** [ApiResponse<T>] of types/index.ts *)
Record ApiResponse : Type := {
  success : bool;
  data : option Data;
  error : option string
}.

Record Response : Type := {
  status : Z;
  body : ApiResponse
}.

(** [NextResponse.json({ success: false, error }, { status })] *)
Definition failure (code : Z) (msg : string) : Response :=
  {| status := code;
     body := {| success := false; data := None; error := Some msg |} |}.

(** [NextResponse.json({ success: true, data })], status 200 by default *)
Definition ok (d : Data) : Response :=
  {| status := 200;
     body := {| success := true; data := Some d; error := None |} |}.

(** [/\D/g] *)
Definition re_non_digit : Pattern := [One not_digit].

(** [(phoneNumber ?? "").replace(/\D/g, "")] *)
Definition rawPhone_of (phoneNumber : option jsstring) : jsstring :=
  replace_all re_non_digit (fun _ => [])
              (match phoneNumber with Some p => p | None => [] end).

(** The same expression on a property of the parsed body: a value that
    is neither nullish nor a string has no [replace], and the call throws
    (the message as V8 words it for the source text). *)
Definition rawPhone_from (phoneNumber : Field) : M jsstring :=
  match phoneNumber with
  | Absent | Null => ret (rawPhone_of None)
  | Text p => ret (rawPhone_of (Some p))
  | Other _ =>
      throw (TypeError (lit "(phoneNumber ?? " ++ [34%N; 34%N]
                        ++ lit ").replace is not a function"))
  end.

(** [const { ... } = body] when [body] is [null]. *)
Definition destructure_null (first_key : string) : JsError :=
  TypeError (lit "Cannot destructure property '" ++ lit first_key
             ++ lit "' of 'body' as it is null.").

(** [`***-***-${rawPhone.slice(-4)}`] *)
Definition maskedPhone_of (rawPhone : jsstring) : jsstring :=
  lit "***-***-" ++ slice_last 4 rawPhone.

End Http.

Import Http.

(* ================================================================== *)
(** ** app/api/dnc-history/route.ts                                    *)
(* ================================================================== *)

Module DncHistory.

(** What [req.json()] resolved to: [null], or a value of which
    [phoneNumber] can be read (every property of a number, a string, a
    boolean or an array is absent). *)
Inductive Body : Type :=
| JsonNull
| Json (phoneNumber : Field).

Definition POST (rt : Runtime) (req : Request Body) : M Response :=
  startTime <- Date_now rt ;;
  (* ---- Auth guard ---- *)
  match req_session req with
  | None => ret (failure 401 "Unauthorized")
  | Some _ =>
      try_catch
        (match req_json req with
         | None => ret (failure 400 "Invalid request body")
         | Some JsonNull => throw (destructure_null "phoneNumber")
         | Some (Json phoneNumber) =>
             (* ---- Validation ---- *)
             rawPhone <- rawPhone_from phoneNumber ;;
             if negb (Nat.eqb (List.length rawPhone) 10)
             then ret (failure 400 "A valid 10-digit US phone number is required")
             else
               let maskedPhone := maskedPhone_of rawPhone in
               logger_info (lit "POST /api/dnc-history " ++ dash
                            ++ lit " phone: " ++ maskedPhone) ;;;
               (* ---- Execute stored procedure ---- *)
               pool <- Db.getPool rt ;;
               rows <- Db.execute_sp_dnc_history rt pool rawPhone ;;
               t <- Date_now rt ;;
               let elapsed := (t - startTime)%Z in
               logger_info (lit "POST /api/dnc-history " ++ dash
                            ++ lit " phone: " ++ maskedPhone
                            ++ lit " " ++ dash ++ lit " "
                            ++ of_Z (Z.of_nat (List.length rows))
                            ++ lit " row(s) returned ("
                            ++ of_Z elapsed ++ lit "ms)") ;;;
               ret (ok (Rows rows))
         end)
        (fun err =>
           t <- Date_now rt ;;
           let elapsed := (t - startTime)%Z in
           logger_error (lit "POST /api/dnc-history " ++ dash
                         ++ lit " unhandled error")
                        (err_meta err ++ [("elapsed", VNumber elapsed)]) ;;;
           ret (failure 500 "History lookup failed. Please try again."))
  end.

End DncHistory.

(* ================================================================== *)
(** ** app/api/dnc-lookup/route.ts                                     *)
(* ================================================================== *)

Module DncLookup.

(** What [req.json()] resolved to: [null], or a value of which
    [phoneNumber] and [lookupDate] can be read. *)
Inductive Body : Type :=
| JsonNull
| Json (phoneNumber lookupDate : Field).

(** [const [month, day, year] = lookupDate.split("/")] and
    [`${year}-${month}-${day}`] *)
Definition date_text (lookupDate : jsstring) : jsstring :=
  let parts := split 47 lookupDate in
  let month := List.nth_error parts 0 in
  let day := List.nth_error parts 1 in
  let year := List.nth_error parts 2 in
  interpolate year ++ lit "-" ++ interpolate month ++ lit "-"
              ++ interpolate day.

Definition POST (rt : Runtime) (req : Request Body) : M Response :=
  startTime <- Date_now rt ;;
  (* ---- Auth guard ---- *)
  match req_session req with
  | None => ret (failure 401 "Unauthorized")
  | Some _ =>
      try_catch
        (match req_json req with
         | None => ret (failure 400 "Invalid request body")
         | Some JsonNull => throw (destructure_null "phoneNumber")
         | Some (Json phoneNumber lookupDate) =>
             (* ---- Validation ---- *)
             rawPhone <- rawPhone_from phoneNumber ;;
             if negb (Nat.eqb (List.length rawPhone) 10)
             then ret (failure 400 "A valid 10-digit US phone number is required")
             else
               match lookupDate with
               | Absent | Null | Text [] | Other false =>
                   ret (failure 400 "Lookup date is required")
               | Other true =>
                   throw (TypeError (lit "lookupDate.split is not a function"))
               | Text date =>
                   match Date_parse rt (date_text date) with
                   | None =>
                       ret (failure 400 "Lookup date must be in MM/DD/YYYY format")
                   | Some parsedDate =>
                       let maskedPhone := maskedPhone_of rawPhone in
                       logger_info (lit "POST /api/dnc-lookup " ++ dash
                                    ++ lit " phone: " ++ maskedPhone
                                    ++ lit ", date: " ++ date) ;;;
                       (* ---- Execute stored procedure ---- *)
                       pool <- Db.getPool rt ;;
                       rows <- Db.execute_sp_dnc_lookup rt pool rawPhone parsedDate ;;
                       t <- Date_now rt ;;
                       let elapsed := (t - startTime)%Z in
                       logger_info (lit "POST /api/dnc-lookup " ++ dash
                                    ++ lit " phone: " ++ maskedPhone
                                    ++ lit " " ++ dash ++ lit " "
                                    ++ of_Z (Z.of_nat (List.length rows))
                                    ++ lit " row(s) returned ("
                                    ++ of_Z elapsed ++ lit "ms)") ;;;
                       ret (ok (Rows rows))
                   end
               end
         end)
        (fun err =>
           t <- Date_now rt ;;
           let elapsed := (t - startTime)%Z in
           logger_error (lit "POST /api/dnc-lookup " ++ dash
                         ++ lit " unhandled error")
                        (err_meta err ++ [("elapsed", VNumber elapsed)]) ;;;
           ret (failure 500 "Lookup failed. Please try again."))
  end.

End DncLookup.

(* ================================================================== *)
(** ** app/api/register/route.ts                                       *)
(* ================================================================== *)

Module Register.

Record Body : Type := {
  username : option jsstring;
  email : option jsstring;
  password : option jsstring
}.

Definition MIN_USERNAME_LENGTH : nat := 3.
Definition MAX_USERNAME_LENGTH : nat := 100.
Definition MIN_PASSWORD_LENGTH : nat := 8.

Definition POST (rt : Runtime) (req : Request Body) : M Response :=
  startTime <- Date_now rt ;;
  try_catch
    (match req_json req with
     | None => ret (failure 400 "Invalid request body")
     | Some body =>
         (* ---- Server-side validation ---- *)
         match username body, email body, password body with
         | Some ((_ :: _) as username), Some ((_ :: _) as email),
           Some ((_ :: _) as password) =>
             let trimmedUsername := trim username in
             let trimmedEmail := toLowerCase rt (trim email) in
             if Nat.ltb (List.length trimmedUsername) MIN_USERNAME_LENGTH
             then ret (failure 400 "Username must be at least 3 characters")
             else if Nat.ltb MAX_USERNAME_LENGTH (List.length trimmedUsername)
             then ret (failure 400 "Username is too long")
             else if negb (includes 64 trimmedEmail)
                     || negb (includes 46 trimmedEmail)
             then ret (failure 400 "Please enter a valid email address")
             else if Nat.ltb (List.length password) MIN_PASSWORD_LENGTH
             then ret (failure 400 "Password must be at least 8 characters")
             else
               (* ---- Hash password ---- *)
               emit (EvBcryptHash 12) ;;;
               let passwordHash := bcrypt_hash rt password 12 in
               (* ---- Insert user ---- *)
               pool <- Db.getPool rt ;;
               Db.query_insert_user rt pool trimmedUsername trimmedEmail
                                    passwordHash ;;;
               t <- Date_now rt ;;
               let elapsed := (t - startTime)%Z in
               logger_info (lit "POST /api/register " ++ dash
                            ++ lit " user created: " ++ trimmedUsername
                            ++ lit " (" ++ of_Z elapsed ++ lit "ms)") ;;;
               ret {| status := 201;
                      body := {| success := true; data := None;
                                 error := None |} |}
         | _, _, _ =>
             ret (failure 400 "Username, email, and password are required")
         end
     end)
    (fun err =>
       t <- Date_now rt ;;
       let elapsed := (t - startTime)%Z in
       (* SQL Server unique constraint violation: number 2627 or 2601 *)
       if match err_number err with
          | Some n => Z.eqb n 2627 || Z.eqb n 2601
          | None => false
          end
       then
         logger_warn (lit "POST /api/register " ++ dash
                      ++ lit " duplicate user (" ++ of_Z elapsed
                      ++ lit "ms)") ;;;
         ret (failure 409 "Username or email already exists")
       else
         logger_error (lit "POST /api/register " ++ dash
                       ++ lit " unhandled error")
                      (err_meta err ++ [("elapsed", VNumber elapsed)]) ;;;
         ret (failure 500 "Registration failed. Please try again.")).

End Register.

(* ================================================================== *)
(** ** app/api/forgot-password/route.ts                                *)
(* ================================================================== *)

Module ForgotPassword.

Record Body : Type := { email : option jsstring }.

Definition confirmation : string :=
  "If an account with that email exists, you will receive a password reset link shortly.".

Definition POST (rt : Runtime) (req : Request Body) : M Response :=
  startTime <- Date_now rt ;;
  try_catch
    (match req_json req with
     | None => ret (failure 400 "Invalid request body")
     | Some body =>
         (* body.email?.trim().toLowerCase() *)
         match option_map (fun e => toLowerCase rt (trim e)) (email body) with
         | None | Some [] => ret (failure 400 "Email address is required")
         | Some email =>
             if negb (includes 64 email) || negb (includes 46 email)
             then ret (failure 400 "Please enter a valid email address")
             else
               (* ---- Look up account ---- *)
               try_catch
                 (pool <- Db.getPool rt ;;
                  recordset <- Db.query_active_user_by_email rt pool email ;;
                  match List.hd_error recordset with
                  | Some user =>
                      emit (EvConsoleLog
                              (lit "[TODO] Password reset requested for: "
                               ++ Effects.email user ++ lit " (userId: "
                               ++ of_Z (id user) ++ lit ")")) ;;;
                      logger_info (lit "Password reset requested for account: "
                                   ++ Effects.username user)
                  | None =>
                      logger_info
                        (lit "Password reset requested for unknown email (suppressed)")
                  end)
                 (fun dbErr =>
                    logger_error (lit "POST /api/forgot-password " ++ dash
                                  ++ lit " DB error during user lookup")
                                 [("err", VString (err_message dbErr))]) ;;;
               t <- Date_now rt ;;
               let elapsed := (t - startTime)%Z in
               logger_info (lit "POST /api/forgot-password " ++ dash
                            ++ lit " completed (" ++ of_Z elapsed
                            ++ lit "ms)") ;;;
               (* Always return the same success message *)
               ret (ok (Message confirmation))
         end
     end)
    (fun err =>
       logger_error (lit "POST /api/forgot-password " ++ dash
                     ++ lit " unhandled error") (err_meta err) ;;;
       ret (failure 500 "Request failed. Please try again.")).

End ForgotPassword.

(* ================================================================== *)
(** ** lib/auth.ts, middleware.ts and app/login/page.tsx               *)
(* ================================================================== *)

Module Auth.

Record SessionOptions : Type := {
  strategy : string;
  maxAge : Z              (* seconds *)
}.

Record AuthOptions : Type := {
  session : SessionOptions;
  pages_signIn : string;
  pages_error : string
}.

Definition authOptions : AuthOptions :=
  {| session := {| strategy := "jwt"; maxAge := 8 * 60 * 60 |};
     pages_signIn := "/login";
     pages_error := "/login" |}.

(** middleware.ts: [config.matcher] *)
Definition matcher : list string := ["/dnc-lookup"; "/dnc-history"].

Record Credentials : Type := {
  username : option jsstring;
  password : option jsstring
}.

(** The object [authorize] hands to NextAuth on success. *)
Record Identity : Type := {
  identity_id : jsstring;
  identity_name : jsstring;
  identity_email : jsstring
}.

Definition authorize (rt : Runtime) (credentials : option Credentials)
  : M (option Identity) :=
  match credentials with
  | Some {| username := Some ((_ :: _) as username);
            password := Some ((_ :: _) as password) |} =>
      try_catch
        (pool <- Db.getPool rt ;;
         recordset <- Db.query_user_by_username rt pool (trim username) ;;
         match List.hd_error recordset with
         | None =>
             logger_warn (lit "Login failed: user not found " ++ dash
                          ++ lit " " ++ username) ;;;
             ret None
         | Some user =>
             if negb (is_active user)
             then
               logger_warn (lit "Login failed: account inactive " ++ dash
                            ++ lit " " ++ username) ;;;
               ret None
             else
               emit EvBcryptCompare ;;;
               match bcrypt_compare rt password (password_hash user) with
               | inl e => throw e
               | inr false =>
                   logger_warn (lit "Login failed: wrong password " ++ dash
                                ++ lit " " ++ username) ;;;
                   ret None
               | inr true =>
                   logger_info (lit "Login success " ++ dash ++ lit " "
                                ++ Effects.username user) ;;;
                   ret (Some {| identity_id := of_Z (id user);
                                identity_name := Effects.username user;
                                identity_email := Effects.email user |})
               end
         end)
        (fun err =>
           logger_error (lit "Database error during authentication")
                        (err_meta err) ;;;
           ret None)
  | _ =>
      logger_warn (lit "Login attempt with missing credentials") ;;;
      ret None
  end.

End Auth.

Module LoginPage.

(** What [signIn("credentials", { redirect: false })] resolves to. *)
Record SignInResponse : Type := {
  si_error : option jsstring;
  si_status : Z;
  si_ok : bool
}.

(** The part of the page's state [handleSubmit] writes. *)
Record View : Type := {
  error : string;
  loading : bool;
  pushed : option string      (* [router.push] target, if any *)
}.

(** [handleSubmit]: [nextauth] is how NextAuth turns the outcome of
    [authorize] into the response of [signIn]. *)
Definition handleSubmit (rt : Runtime)
           (nextauth : option Auth.Identity -> option SignInResponse)
           (username password : jsstring) : M View :=
  (* setError("") *)
  match trim username with
  | [] => ret {| error := "Username is required"; loading := false;
                 pushed := None |}
  | _ :: _ =>
      match password with
      | [] => ret {| error := "Password is required"; loading := false;
                     pushed := None |}
      | _ :: _ =>
          (* setLoading(true); try { ... } finally { setLoading(false) } *)
          outcome <- Auth.authorize rt
                       (Some {| Auth.username := Some (trim username);
                                Auth.password := Some password |}) ;;
          match nextauth outcome with
          | Some {| si_error := Some (_ :: _) |} =>
              ret {| error := "Invalid username or password. Please try again.";
                     loading := false; pushed := None |}
          | _ =>
              ret {| error := ""; loading := false;
                     pushed := Some "/dnc-lookup" |}
          end
      end
  end.

End LoginPage.

(* ================================================================== *)
(** ** Process start-up                                                *)
(* ================================================================== *)

Module Startup.

Record App : Type := {
  log_level : jsstring;
  initial : State
}.

(** What runs when the server modules are loaded: lib/logger.ts builds
    the logger ([level: process.env.LOG_LEVEL || "info"]), lib/db.ts
    declares [_prodPool], lib/auth.ts builds [authOptions].  None of
    them reads the database variables. *)
Definition start (e : Env) (rows : list User) : JsError + App :=
  match Db.module_init e with
  | inl err => inl err
  | inr pool =>
      inr {| log_level := if truthy (LOG_LEVEL e)
                          then interpolate (LOG_LEVEL e) else lit "info";
             initial := {| prodPool := pool; globalPool := None;
                           users := rows; clock := 0; trace := [] |} |}
  end.

End Startup.

(* ================================================================== *)
(** ** Observations on a run                                           *)
(* ================================================================== *)

Module Observe.

(** The stored-procedure calls in a trace. *)
Definition executions (tr : list Event) : list (string * list Param) :=
  List.flat_map (fun ev => match ev with
                           | EvExecute p i => [(p, i)]
                           | _ => []
                           end) tr.

(** The logger calls in a trace. *)
Definition logs (tr : list Event) : list (Level * jsstring) :=
  List.flat_map (fun ev => match ev with
                           | EvLog l m _ => [(l, m)]
                           | _ => []
                           end) tr.

(** The state after one reading of the clock and nothing else. *)
Definition ticked (st : State) : State :=
  {| prodPool := prodPool st; globalPool := globalPool st;
     users := users st; clock := S (clock st); trace := trace st |}.

(** [sql.connect(buildConfig())] would resolve. *)
Definition can_connect (rt : Runtime) : bool :=
  match Db.buildConfig (env rt) with
  | inr cfg => match sql_connect rt cfg with
               | None => true
               | Some _ => false
               end
  | inl _ => false
  end.

(** The error a call of [getPool] that has to connect ends with, if
    any: the one [buildConfig] throws or the one [sql.connect] rejects
    with. *)
Definition connect_error (rt : Runtime) : option JsError :=
  match Db.buildConfig (env rt) with
  | inl e => Some e
  | inr cfg => sql_connect rt cfg
  end.

(** [getPool()] would return a pool. *)
Definition pool_ready (rt : Runtime) (st : State) : bool :=
  Db.usable (if Db.development (env rt) then globalPool st else prodPool st)
  || can_connect rt.

(** A required database variable is unset or empty. *)
Definition missing_config (e : Env) : bool :=
  negb (truthy (DB_SERVER e) && truthy (DB_DATABASE e)
        && truthy (DB_USER e) && truthy (DB_PASSWORD e)).

(** The digits of a string, in order. *)
Definition digits (s : jsstring) : jsstring := List.filter is_digit s.

Definition or_empty (s : option jsstring) : jsstring :=
  match s with Some v => v | None => [] end.

End Observe.

Import Observe.

(* ================================================================== *)
(** ** A concrete platform, for running the handlers                   *)
(* ================================================================== *)

Module Sample.

Definition ascii_lower (s : jsstring) : jsstring :=
  List.map (fun c => if (65 <=? c)%N && (c <=? 90)%N then (c + 32)%N else c) s.

(** A date parser that accepts [YYYY-MM-DD] with a month 01..12 and a
    day 01..31 and answers the day count [372 * y + 31 * m + d]. *)
Definition date_parse (s : jsstring) : option Z :=
  match s with
  | [y1; y2; y3; y4; 45; m1; m2; 45; d1; d2]%N =>
      if List.forallb is_digit [y1; y2; y3; y4; m1; m2; d1; d2]
      then
        let y := Z.of_N ((y1 - 48) * 1000 + (y2 - 48) * 100
                         + (y3 - 48) * 10 + (y4 - 48)) in
        let m := Z.of_N ((m1 - 48) * 10 + (m2 - 48)) in
        let d := Z.of_N ((d1 - 48) * 10 + (d2 - 48)) in
        if (1 <=? m)%Z && (m <=? 12)%Z && (1 <=? d)%Z && (d <=? 31)%Z
        then Some (372 * y + 31 * m + d)%Z
        else None
      else None
  | _ => None
  end.

(** The stub procedures of sql/setup.sql. *)
Definition sp_dnc_lookup_stub (phone : jsstring) (date : Z) : list Row :=
  [ [ ("PhoneNumber", VString phone);
      ("LookupDate", VNumber date);
      ("Status", VString (lit "STUB - Not Implemented"));
      ("CheckedAt", VNumber 0);
      ("Notes", VString (lit "Replace this stored procedure with real DNC query logic.")) ] ].

Definition sp_dnc_history_stub (phone : jsstring) : list Row :=
  [ [ ("PhoneNumber", VString phone);
      ("LookupDate", VNumber 0);
      ("Status", VString (lit "STUB - Not Implemented"));
      ("Notes", VString (lit "Replace this stored procedure with real DNC history query logic.")) ] ].

Definition environment : Env :=
  {| DB_SERVER := Some (lit "sql01"); DB_PORT := None;
     DB_DATABASE := Some (lit "DNC"); DB_USER := Some (lit "app");
     DB_PASSWORD := Some (lit "secret"); NODE_ENV := Some (lit "production");
     LOG_LEVEL := None |}.

Definition no_environment : Env :=
  {| DB_SERVER := None; DB_PORT := None; DB_DATABASE := None;
     DB_USER := None; DB_PASSWORD := None;
     NODE_ENV := Some (lit "production"); LOG_LEVEL := None |}.

Definition digest (plain : jsstring) : jsstring := lit "$2a$12$" ++ plain.

Definition platform (e : Env) : Runtime :=
  {| env := e;
     now := fun n => (1000 + 7 * Z.of_nat n)%Z;
     Date_parse := date_parse;
     toLowerCase := ascii_lower;
     bcrypt_hash := fun plain _ => digest plain;
     bcrypt_compare := fun plain d => inr (Js.eqb (digest plain) d);
     sql_connect := fun _ => None;
     sql_fault := None;
     sql_equal := Js.eqb;
     username_dup_number := 2601;
     email_dup_number := 2601;
     sp_dnc_lookup := sp_dnc_lookup_stub;
     sp_dnc_history := sp_dnc_history_stub |}.

Definition rt : Runtime := platform environment.

Definition alice : User :=
  {| id := 1; username := lit "alice"; email := lit "alice@x.com";
     password_hash := digest (lit "password123"); is_active := true |}.

Definition carol : User :=
  {| id := 2; username := lit "carol"; email := lit "carol@x.com";
     password_hash := digest (lit "letmein99"); is_active := false |}.

Definition fresh : State :=
  {| prodPool := None; globalPool := None; users := [alice; carol];
     clock := 0; trace := [] |}.

Definition session : Session := {| session_user_id := lit "1" |}.

(** NextAuth's answer to [signIn]: [null] from [authorize] is reported
    as the error [CredentialsSignin], as the comment on [authorize]
    says. *)
Definition nextauth (r : option Auth.Identity)
  : option LoginPage.SignInResponse :=
  match r with
  | Some _ => Some {| LoginPage.si_error := None;
                      LoginPage.si_status := 200;
                      LoginPage.si_ok := true |}
  | None => Some {| LoginPage.si_error := Some (lit "CredentialsSignin");
                    LoginPage.si_status := 401;
                    LoginPage.si_ok := false |}
  end.

(** The record of an uncaught exception whose message holds a number. *)
Definition crash : Logger.Info :=
  [ ("level", VString (lit "error"));
    ("message", VString (lit "uncaughtException: cannot dial 2125551234"));
    ("exception", VBoolean true) ].

(** The warning [authorize] logs for the unknown user name
    [user_2125551234]. *)
Definition unknown_user_warning : Logger.Info :=
  [ ("level", VString (lit "warn"));
    ("message", VString (lit "Login failed: user not found " ++ dash
                         ++ lit " user_2125551234")) ].

End Sample.

(* ================================================================== *)
(** ** Vocabulary of the properties                                    *)
(* ================================================================== *)

Module Terms.

Import Logger.


Definition history_request (s : Session) (phone : jsstring)
  : Request DncHistory.Body :=
  {| req_session := Some s;
     req_json := Some (DncHistory.Json (Text phone)) |}.

Definition lookup_request (s : Session) (phone date : jsstring)
  : Request DncLookup.Body :=
  {| req_session := Some s;
     req_json := Some (DncLookup.Json (Text phone) (Text date)) |}.

(** A history or lookup request whose body parsed to the given value. *)
Definition history_body (o : option Session) (b : DncHistory.Body)
  : Request DncHistory.Body :=
  {| req_session := o; req_json := Some b |}.

Definition lookup_body (o : option Session) (b : DncLookup.Body)
  : Request DncLookup.Body :=
  {| req_session := o; req_json := Some b |}.


(** How a protected handler refuses: 401 before the guard is passed,
    400 with the given message after it. *)
Definition refusal (o : option Session) (msg : string) : Response :=
  match o with
  | Some _ => failure 400 msg
  | None => failure 401 "Unauthorized"
  end.







Definition history_call (phone : jsstring) : string * list Param :=
  ("dbo.sp_dnc_history",
   [ {| p_name := "PhoneNumber"; p_type := NVarChar 20;
        p_value := SString phone |} ]).

Definition lookup_call (phone : jsstring) (date : Z) : string * list Param :=
  ("dbo.sp_dnc_lookup",
   [ {| p_name := "PhoneNumber"; p_type := NVarChar 20;
        p_value := SString phone |};
     {| p_name := "LookupDate"; p_type := SqlDate;
        p_value := STime date |} ]).

Definition register_request (o : option Session) (u e p : jsstring)
  : Request Register.Body :=
  {| req_session := o;
     req_json := Some {| Register.username := Some u;
                         Register.email := Some e;
                         Register.password := Some p |} |}.

Definition forgot_request (o : option Session) (e : jsstring)
  : Request ForgotPassword.Body :=
  {| req_session := o;
     req_json := Some {| ForgotPassword.email := Some e |} |}.

Definition login (u p : jsstring) : option Auth.Credentials :=
  Some {| Auth.username := Some u; Auth.password := Some p |}.

(** The error [buildConfig] throws. *)
Definition missing_variables : JsError :=
  Error (lit "Missing required database environment variables. "
         ++ lit "Ensure DB_SERVER, DB_DATABASE, DB_USER, and DB_PASSWORD are set in .env.local").

(** A step that appends events which are no stored-procedure call and
    leaves table and clock alone. *)
Definition quiet_step (st st' : State) : Prop :=
  exists evs : list Event,
    trace st' = trace st ++ evs
    /\ executions evs = []
    /\ users st' = users st
    /\ clock st' = clock st.

(** A registration that passes the handler's validation. *)
Definition acceptable (rt : Runtime) (u e p : jsstring) : Prop :=
  u <> [] /\ e <> [] /\ p <> []
  /\ (3 <= List.length (trim u) <= 100)%nat
  /\ includes 64 (toLowerCase rt (trim e)) = true
  /\ includes 46 (toLowerCase rt (trim e)) = true
  /\ (8 <= List.length p)%nat.

(** The user name or the e-mail address is already in [dbo].[users]. *)
Definition username_taken (rt : Runtime) (st : State) (u : jsstring) : bool :=
  List.existsb (fun r => sql_equal rt (username r) (trim u)) (users st).

Definition email_taken (rt : Runtime) (st : State) (e : jsstring) : bool :=
  List.existsb (fun r => sql_equal rt (email r) (toLowerCase rt (trim e)))
               (users st).



(** An e-mail address the forgot-password handler lets through. *)
Definition plausible_email (rt : Runtime) (e : jsstring) : Prop :=
  includes 64 (toLowerCase rt (trim e)) = true
  /\ includes 46 (toLowerCase rt (trim e)) = true.

(** The row [SELECT ... WHERE username = @username] returns first. *)
Definition user_named (rt : Runtime) (st : State) (u : jsstring)
  : option User :=
  List.hd_error
    (List.filter (fun r => sql_equal rt (username r) (trim u)) (users st)).

(** A string that does not start with white space. *)
Definition clean (s : jsstring) : Prop :=
  match s with
  | x :: _ => is_space x = false
  | [] => True
  end.

(** What the page shows is a function of what [authorize] returned. *)
Definition view_of (r : option LoginPage.SignInResponse) : LoginPage.View :=
  match r with
  | Some {| LoginPage.si_error := Some (_ :: _) |} =>
      {| LoginPage.error := "Invalid username or password. Please try again.";
         LoginPage.loading := false; LoginPage.pushed := None |}
  | _ =>
      {| LoginPage.error := ""; LoginPage.loading := false;
         LoginPage.pushed := Some "/dnc-lookup" |}
  end.

(** The last logger call of a run, once the database answers. *)
Definition last_log (r : (JsError + option Auth.Identity) * State)
  : Level * jsstring :=
  List.last (logs (trace (snd r))) (LInfo, []).

(** [place ds] puts the digits [ds] in a template: the digit character
    [k] becomes the k-th element of [ds]; other characters stay. *)
Definition place (ds : list N) (x : N) : N :=
  if is_digit x then List.nth (N.to_nat (x - 48)) ds x else x.

(** A string value masked, any other value as it is. *)
Definition mask_value (v : Value) : Value :=
  match v with
  | VString s => VString (mask s)
  | _ => v
  end.

Definition respects (phi : N -> N) (cls : N -> bool) : Prop :=
  forall x : N, cls (phi x) = cls x.

Definition item_respects (phi : N -> N) (it : Item) : Prop :=
  match it with
  | One cls | Many cls => respects phi cls
  | _ => True
  end.

Definition renamed (phi : N -> N) (r : option (jsstring * nat))
  : option (jsstring * nat) :=
  option_map (fun gk => (List.map phi (fst gk), snd gk)) r.

(** The specification's reading of start-up: a process whose required
    database configuration is missing does not come up. *)
Definition fatal_at_startup : Prop :=
  forall (e : Env) (rows : list User),
    missing_config e = true -> exists err, Startup.start e rows = inl err.

End Terms.

Import Terms.

(* ================================================================== *)
(** ** lib/auth.ts: the [jwt] and [session] callbacks                  *)
(* ================================================================== *)

Module Callbacks.

(** The JWT NextAuth keeps in the cookie: the [id] claim the callbacks
    add, and the claims NextAuth manages itself. *)
Record JWT : Type := {
  token_id : option jsstring;
  token_name : option jsstring;
  token_email : option jsstring
}.

(** [session.user] and the session object handed to the client. *)
Record SessionUser : Type := {
  user_id : option jsstring;
  user_name : option jsstring;
  user_email : option jsstring
}.

Record ClientSession : Type := {
  user : SessionUser;
  expires : jsstring
}.

(** [jwt({ token, user })]: [user] is defined on sign-in only. *)
Definition jwt (token : JWT) (user : option Auth.Identity) : JWT :=
  match user with
  | Some u =>
      if truthy (Some (Auth.identity_id u))
      then {| token_id := Some (Auth.identity_id u);
              token_name := token_name token;
              token_email := token_email token |}
      else token
  | None => token
  end.

(** [session({ session, token })] *)
Definition session (s : ClientSession) (token : JWT) : ClientSession :=
  if truthy (token_id token)
  then {| user := {| user_id := token_id token;
                     user_name := user_name (user s);
                     user_email := user_email (user s) |};
          expires := expires s |}
  else s.

(** The [jwt] callback run once with the signed-in user and then [n]
    more times without one, as on every later read of the session. *)
Fixpoint refreshed (n : nat) (token : JWT) : JWT :=
  match n with
  | O => token
  | S k => refreshed k (jwt token None)
  end.

End Callbacks.

(* ================================================================== *)
(** ** The client pages that post to the handlers                      *)
(* ================================================================== *)

(** The browser's engine, as far as the pages use it. *)
Record Browser : Type := {
  (** [String.prototype.toLowerCase] *)
  b_toLowerCase : jsstring -> jsstring;
  (** [new Date(s).getTime()]; [None] is NaN (Invalid Date) *)
  b_Date_parse : jsstring -> option Z
}.

(** What [await res.json()] yields for the handler's response; [None]
    when [fetch] or [res.json()] rejects. *)
Definition Wire : Type := Response -> option ApiResponse.

(** [data.error ?? fallback] *)
Definition error_or (fallback : string) (data : ApiResponse) : string :=
  match error data with
  | Some e => e
  | None => fallback
  end.

Definition network_error : string :=
  "A network error occurred. Please try again.".

(** *** app/dnc-history/page.tsx *)

Module HistoryPage.

(** The part of the page's state [handleSubmit] writes. *)
Record View : Type := {
  phoneError : string;
  error : string;
  results : option Data;
  loading : bool
}.

(** [validate()]: the result and the value given to [setPhoneError]. *)
Definition validate (phone : jsstring) : bool * string :=
  let rawPhone := rawPhone_of (Some phone) in
  if negb (Nat.eqb (List.length rawPhone) 10)
  then (false, "Please enter a complete 10-digit US phone number")
  else (true, "").

(** The body of the request: [JSON.stringify({ phoneNumber: rawPhone })],
    as the handler's [req.json()] reads it back. *)
Definition payload (phone : jsstring) : DncHistory.Body :=
  let rawPhone := rawPhone_of (Some phone) in
  DncHistory.Json (Text rawPhone).

(** [handleSubmit]: [o] is the session the request's cookie stands for. *)
Definition handleSubmit (rt : Runtime) (wire : Wire) (o : option Session)
           (phone : jsstring) : M View :=
  (* setError(""); setResults(null) *)
  let (valid, phoneError) := validate phone in
  if negb valid
  then ret {| phoneError := phoneError; error := ""; results := None;
              loading := false |}
  else
    (* setLoading(true); try { ... } finally { setLoading(false) } *)
    res <- DncHistory.POST rt
             {| req_session := o; req_json := Some (payload phone) |} ;;
    match wire res with
    | Some data =>
        if negb (success data)
        then ret {| phoneError := phoneError;
                    error := error_or "History lookup failed. Please try again." data;
                    results := None; loading := false |}
        else ret {| phoneError := phoneError; error := "";
                    (* data.data ?? [] *)
                    results := Some (match Http.data data with
                                     | Some d => d
                                     | None => Rows []
                                     end);
                    loading := false |}
    | None =>
        ret {| phoneError := phoneError; error := network_error;
               results := None; loading := false |}
    end.

End HistoryPage.

(** *** app/dnc-lookup/page.tsx *)

Module LookupPage.

Record View : Type := {
  phoneError : string;
  dateError : string;
  error : string;
  results : option Data;
  loading : bool
}.

(** [validate()]: the result and the values given to [setPhoneError] and
    [setDateError].  The date is re-assembled by the expression the
    handler uses, [DncLookup.date_text]. *)
Definition validate (browser : Browser) (phone date : jsstring)
  : bool * string * string :=
  let rawPhone := rawPhone_of (Some phone) in
  let (valid1, phoneError) :=
    if negb (Nat.eqb (List.length rawPhone) 10)
    then (false, "Please enter a complete 10-digit US phone number")
    else (true, "") in
  let (valid2, dateError) :=
    if negb (truthy (Some date))
       || Nat.ltb (List.length (replace_all re_non_digit (fun _ => []) date)) 8
    then (false, "Please enter a complete date (MM/DD/YYYY)")
    else
      match b_Date_parse browser (DncLookup.date_text date) with
      | None => (false, "Please enter a valid date")
      | Some _ => (valid1, "")
      end in
  (valid2, phoneError, dateError).

(** The body of the request:
    [JSON.stringify({ phoneNumber: rawPhone, lookupDate: date })]. *)
Definition payload (phone date : jsstring) : DncLookup.Body :=
  let rawPhone := rawPhone_of (Some phone) in
  DncLookup.Json (Text rawPhone) (Text date).

Definition handleSubmit (browser : Browser) (rt : Runtime) (wire : Wire)
           (o : option Session) (phone date : jsstring) : M View :=
  (* setError(""); setResults(null) *)
  let '(valid, phoneError, dateError) := validate browser phone date in
  if negb valid
  then ret {| phoneError := phoneError; dateError := dateError; error := "";
              results := None; loading := false |}
  else
    res <- DncLookup.POST rt
             {| req_session := o; req_json := Some (payload phone date) |} ;;
    match wire res with
    | Some data =>
        if negb (success data)
        then ret {| phoneError := phoneError; dateError := dateError;
                    error := error_or "Lookup failed. Please try again." data;
                    results := None; loading := false |}
        else ret {| phoneError := phoneError; dateError := dateError;
                    error := "";
                    results := Some (match Http.data data with
                                     | Some d => d
                                     | None => Rows []
                                     end);
                    loading := false |}
    | None =>
        ret {| phoneError := phoneError; dateError := dateError;
               error := network_error; results := None; loading := false |}
    end.

End LookupPage.

(** *** app/register/page.tsx *)

Module RegisterPage.

Record FormErrors : Type := {
  username : option string;
  email : option string;
  password : option string;
  confirmPassword : option string
}.

Record View : Type := {
  errors : FormErrors;
  serverError : string;
  loading : bool;
  pushed : option string      (* [router.push] target, if any *)
}.

Definition validate (username email password confirmPassword : jsstring)
  : FormErrors :=
  {| username :=
       match trim username with
       | [] => Some "Username is required"
       | t =>
           if Nat.ltb (List.length t) 3
           then Some "Username must be at least 3 characters"
           else if Nat.ltb 100 (List.length t)
           then Some "Username must be 100 characters or fewer"
           else None
       end;
     email :=
       match trim email with
       | [] => Some "Email is required"
       | _ :: _ =>
           if negb (includes 64 email) || negb (includes 46 email)
           then Some "Please enter a valid email address"
           else None
       end;
     password :=
       match password with
       | [] => Some "Password is required"
       | _ :: _ =>
           if Nat.ltb (List.length password) 8
           then Some "Password must be at least 8 characters"
           else None
       end;
     confirmPassword :=
       match confirmPassword with
       | [] => Some "Please confirm your password"
       | _ :: _ =>
           if negb (Js.eqb password confirmPassword)
           then Some "Passwords do not match"
           else None
       end |}.

(** [Object.keys(validationErrors).length > 0] *)
Definition has_keys (errs : FormErrors) : bool :=
  match username errs, email errs, password errs, confirmPassword errs with
  | None, None, None, None => false
  | _, _, _, _ => true
  end.

Definition handleSubmit (browser : Browser) (rt : Runtime) (wire : Wire)
           (o : option Session)
           (username email password confirmPassword : jsstring) : M View :=
  (* setServerError("") *)
  let validationErrors := validate username email password confirmPassword in
  if has_keys validationErrors
  then ret {| errors := validationErrors; serverError := "";
              loading := false; pushed := None |}
  else
    res <- Register.POST rt
             {| req_session := o;
                req_json :=
                  Some {| Register.username := Some (trim username);
                          Register.email :=
                            Some (b_toLowerCase browser (trim email));
                          Register.password := Some password |} |} ;;
    match wire res with
    | Some data =>
        if negb (success data)
        then ret {| errors := validationErrors;
                    serverError :=
                      error_or "Registration failed. Please try again." data;
                    loading := false; pushed := None |}
        else ret {| errors := validationErrors; serverError := "";
                    loading := false;
                    pushed := Some "/login?registered=1" |}
    | None =>
        ret {| errors := validationErrors; serverError := network_error;
               loading := false; pushed := None |}
    end.

End RegisterPage.

(** *** app/forgot-password/page.tsx *)

Module ForgotPasswordPage.

Inductive PageState : Type := form | submitted | error.

Record View : Type := {
  emailError : string;
  serverError : string;
  pageState : PageState;
  loading : bool
}.

Definition validate (email : jsstring) : bool * string :=
  match trim email with
  | [] => (false, "Email address is required")
  | _ :: _ =>
      if negb (includes 64 email) || negb (includes 46 email)
      then (false, "Please enter a valid email address")
      else (true, "")
  end.

(** [handleSubmit]: [before] is the page state at the time of the
    submission, which a failed validation leaves as it is. *)
Definition handleSubmit (rt : Runtime) (wire : Wire) (o : option Session)
           (before : PageState) (email : jsstring) : M View :=
  (* setServerError("") *)
  let (valid, emailError) := validate email in
  if negb valid
  then ret {| emailError := emailError; serverError := "";
              pageState := before; loading := false |}
  else
    res <- ForgotPassword.POST rt
             {| req_session := o;
                req_json := Some {| ForgotPassword.email := Some (trim email) |} |} ;;
    match wire res with
    | Some data =>
        if negb (success data)
        then ret {| emailError := emailError;
                    serverError :=
                      error_or "Request failed. Please try again." data;
                    pageState := error; loading := false |}
        else ret {| emailError := emailError; serverError := "";
                    pageState := submitted; loading := false |}
    | None =>
        ret {| emailError := emailError; serverError := network_error;
               pageState := error; loading := false |}
    end.

End ForgotPasswordPage.

(* ================================================================== *)
(** ** Vocabulary of the further properties                            *)
(* ================================================================== *)

Module Further.

Import Logger.

(** [marks] tells, item by item, which items of a pattern accept digits
    only. *)
Fixpoint digit_items (pat : Pattern) (marks : list bool) : Prop :=
  match pat, marks with
  | [], [] => True
  | it :: pat', m :: marks' =>
      (m = true ->
       exists cls, it = One cls /\ forall x, cls x = true -> is_digit x = true)
      /\ digit_items pat' marks'
  | _, _ => False
  end.

(** The number of marked items: the digits a match needs at least. *)
Definition demand (marks : list bool) : nat :=
  List.length (List.filter (fun m => m) marks).

(** The pool variable [getPool] reads and writes. *)
Definition active_pool (rt : Runtime) (st : State) : option ConnectionPool :=
  if Db.development (env rt) then globalPool st else prodPool st.

(** The connections opened in a trace. *)
Definition connections (tr : list Event) : list Config :=
  List.flat_map (fun ev => match ev with
                           | EvConnect cfg => [cfg]
                           | _ => []
                           end) tr.

(** The bcrypt comparisons in a trace. *)
Definition comparisons (tr : list Event) : nat :=
  List.length (List.filter (fun ev => match ev with
                                      | EvBcryptCompare => true
                                      | _ => false
                                      end) tr).

(** The bcrypt hashings in a trace. *)
Definition hashings (tr : list Event) : nat :=
  List.length (List.filter (fun ev => match ev with
                                      | EvBcryptHash _ => true
                                      | _ => false
                                      end) tr).

(** The SQL statements sent in a trace. *)
Definition statements (tr : list Event) : list Statement :=
  List.flat_map (fun ev => match ev with
                           | EvQuery s _ => [s]
                           | _ => []
                           end) tr.

(** The metadata of the [logger.error] calls in a trace. *)
Definition error_logs (tr : list Event) : list (list (string * Value)) :=
  List.flat_map (fun ev => match ev with
                           | EvLog LError _ meta => [meta]
                           | _ => []
                           end) tr.

(** The events [getPool] can leave: the call itself, the "Creating new
    MSSQL connection pool" line and the connection. *)
Definition pool_event (ev : Event) : Prop :=
  match ev with
  | EvGetPool | EvConnect _ | EvLog LInfo _ _ => True
  | _ => False
  end.

(** What [authorize] returns for a row. *)
Definition identity_of (row : User) : Auth.Identity :=
  {| Auth.identity_id := of_Z (id row);
     Auth.identity_name := username row;
     Auth.identity_email := email row |}.

(** The row [INSERT INTO [dbo].[users] (username, email, password_hash)]
    adds for a registration: the next identity value and the default of
    [is_active]. *)
Definition new_row (rt : Runtime) (st : State) (u e p : jsstring) : User :=
  {| id := Z.of_nat (List.length (users st)) + 1;
     username := trim u;
     email := toLowerCase rt (trim e);
     password_hash := bcrypt_hash rt p 12;
     is_active := true |}.

(** [{ success: true }] with status 201. *)
Definition created : Response :=
  {| status := 201;
     body := {| success := true; data := None; error := None |} |}.

(** The error text recorded under ["err"] by the [logger.error] calls. *)
Definition logged_errors (tr : list Event) : list Value :=
  List.flat_map (fun meta => match meta with
                             | (_, v) :: _ => [v]
                             | [] => []
                             end) (error_logs tr).

(** A case mapping that neither adds nor removes [@] or a dot. *)
Definition keeps_marks (lower : jsstring -> jsstring) : Prop :=
  forall s : jsstring,
    includes 64 (lower s) = includes 64 s
    /\ includes 46 (lower s) = includes 46 s.

(** A wire that delivers the body the handler sent. *)
Definition delivered : Wire := fun res => Some (body res).

(** A browser that runs the engine of the server. *)
Definition same_engine (rt : Runtime) : Browser :=
  {| b_toLowerCase := toLowerCase rt; b_Date_parse := Date_parse rt |}.

(** *** Log lines with telephone numbers *)

(** The last code unit of a text, if it has one. *)
Definition last_of (s : jsstring) : option N :=
  List.fold_left (fun _ x => Some x) s None.

(** The ways of writing a 10-digit number that [mask] knows: bare, as
    [2125551234]; with the area code in parentheses, [ws] being the
    white space after the closing one, as [(212) 555-1234]; with two
    separators, as [212-555-1234], [212.555.1234] or [212 555 1234]. *)
Inductive Written : Type :=
| Bare
| Paren (ws : jsstring)
| Separated (s1 s2 : N).

Definition written (w : Written) (ds : list N) : jsstring :=
  match w with
  | Bare => ds
  | Paren ws =>
      [40] ++ List.firstn 3 ds ++ [41] ++ ws
      ++ List.firstn 3 (List.skipn 3 ds) ++ [45] ++ List.skipn 6 ds
  | Separated s1 s2 =>
      List.firstn 3 ds ++ [s1] ++ List.firstn 3 (List.skipn 3 ds) ++ [s2]
      ++ List.skipn 6 ds
  end.

Definition well_written (w : Written) : bool :=
  match w with
  | Bare => true
  | Paren ws => List.forallb is_space ws
  | Separated s1 s2 => is_sep s1 && is_sep s2
  end.

(** A number of a log line and the text that precedes it. *)
Record Entry : Type := {
  before : jsstring;
  form : Written;
  number : list N
}.

Definition as_written (e : Entry) : jsstring := written (form e) (number e).

(** A number masked: the stars and its last four digits. *)
Definition as_masked (e : Entry) : jsstring :=
  stars (List.skipn 6 (number e)).

(** The line: each number, shown by [show], after the text that precedes
    it, and the text after the last number. *)
Fixpoint line (show : Entry -> jsstring) (es : list Entry) (tail : jsstring)
  : jsstring :=
  match es with
  | [] => tail
  | e :: es' => before e ++ show e ++ line show es' tail
  end.

(** A number that has ten digits and is written as its form says. *)
Definition sound (e : Entry) : bool :=
  Nat.eqb (List.length (number e)) 10
  && List.forallb is_digit (number e)
  && well_written (form e).

(** The lines the theorem is about: the text around the numbers holds no
    digit; every number has ten digits and is written in one of the
    three ways; a bare number has no word character next to it; two
    numbers are at least two code units apart. *)
Fixpoint placed (es : list Entry) (tail : jsstring) : bool :=
  match es with
  | [] => List.forallb not_digit tail
  | e :: es' =>
      let next := match es' with [] => tail | e' :: _ => before e' end in
      List.forallb not_digit (before e)
      && sound e
      && match form e with
         | Bare => negb (word_at (last_of (before e)))
                   && negb (word_at (List.hd_error next))
         | _ => true
         end
      && match es' with
         | [] => true
         | e' :: _ => Nat.leb 2 (List.length (before e'))
         end
      && placed es' tail
  end.

(** The replacement that stars a number written in a given way: the
    first for parentheses, the second for separators, the third for a
    bare number. *)
Definition pass_of (w : Written) : nat :=
  match w with
  | Paren _ => 1
  | Separated _ _ => 2
  | Bare => 3
  end.

(** A number after [k] of the three replacements. *)
Definition shown (k : nat) (e : Entry) : jsstring :=
  if Nat.leb (pass_of (form e)) k then as_masked e else as_written e.

(** The code unit before the text that follows [s], [prev] being the one
    before [s]. *)
Definition prev_after (prev : option N) (s : jsstring) : option N :=
  List.fold_left (fun _ x => Some x) s prev.

(** No match of [pat] starts inside [P] when [R] follows it. *)
Fixpoint unmatched (pat : Pattern) (P R : jsstring) : Prop :=
  match P with
  | [] => True
  | x :: P' =>
      (forall prev, exec pat prev (x :: P' ++ R) = None) /\ unmatched pat P' R
  end.

(** What follows a number: nothing, or a text that does not begin with a
    digit, nor has one in second place. *)
Definition gap (R : jsstring) : bool :=
  match R with
  | [] => true
  | [x] => not_digit x
  | x :: y :: _ => not_digit x && not_digit y
  end.

End Further.

(* ================================================================== *)
(** * Properties                                                       *)
(* ================================================================== *)

Arguments Js.lit : simpl never.
Arguments Js.of_Z : simpl never.
Arguments Http.rawPhone_of : simpl never.
Arguments Http.maskedPhone_of : simpl never.
Arguments Observe.digits : simpl never.
Arguments Db.development : simpl never.
Arguments Db.getPool : simpl never.
Arguments Js.trim : simpl never.
Arguments Js.includes : simpl never.

(** ** Digit stripping *)

Lemma replace_non_digit_filter :
  forall (s : jsstring) (prev : option N),
    replace_from re_non_digit (fun _ => []) prev s 0 = digits s.
Proof.
  induction s as [|x s IH]; intros prev.
  - reflexivity.
  - unfold digits in *.
    cbn [replace_from exec re_non_digit match_here List.filter].
    unfold not_digit. destruct (is_digit x); cbn.
    + f_equal. apply IH.
    + apply IH.
Qed.

(** [(phoneNumber ?? "").replace(/\D/g, "")] keeps exactly the digits. *)
Lemma rawPhone_of_digits :
  forall p : option jsstring, rawPhone_of p = digits (or_empty p).
Proof.
  intros p. unfold rawPhone_of, replace_all.
  rewrite replace_non_digit_filter. destruct p; reflexivity.
Qed.

(** ** The connection pool *)

Lemma executions_app :
  forall a b : list Event, executions (a ++ b) = executions a ++ executions b.
Proof. intros a b. unfold executions. apply List.flat_map_app. Qed.

Lemma buildConfig_missing :
  forall e : Env,
    missing_config e = true -> Db.buildConfig e = inl missing_variables.
Proof.
  intros e H. unfold missing_config in H. unfold Db.buildConfig.
  destruct (DB_SERVER e) as [[|? ?]|]; destruct (DB_DATABASE e) as [[|? ?]|];
    destruct (DB_USER e) as [[|? ?]|]; destruct (DB_PASSWORD e) as [[|? ?]|];
    cbn in H; try discriminate H; reflexivity.
Qed.

Lemma buildConfig_present :
  forall e : Env,
    missing_config e = false -> exists cfg, Db.buildConfig e = inr cfg.
Proof.
  intros e H. unfold missing_config in H. unfold Db.buildConfig.
  destruct (DB_SERVER e) as [[|? ?]|]; destruct (DB_DATABASE e) as [[|? ?]|];
    destruct (DB_USER e) as [[|? ?]|]; destruct (DB_PASSWORD e) as [[|? ?]|];
    cbn in H; try discriminate H; eexists; reflexivity.
Qed.

(** [parseInt] on the text of a port: the default, digits followed by
    other text, no digit at all, and more digits than a double holds. *)
Example parseInt_of_a_port :
  parseInt (lit "1433") = Int 1433%Z
  /\ parseInt (lit " 1533/tcp") = Int 1533%Z
  /\ parseInt (lit "tcp") = NaN
  /\ parseInt (lit "9007199254740993") = Int 9007199254740992%Z.
Proof. repeat split; vm_compute; reflexivity. Qed.

Ltac quiet :=
  eexists; cbn; repeat rewrite <- List.app_assoc;
  repeat split; try reflexivity.

Ltac run_getPool :=
  unfold Db.getPool, Db.connect, bind, emit, get_state, logger_info,
    logger_log, set_globalPool, set_prodPool, throw, ret; cbn.

Lemma getPool_ready :
  forall (rt : Runtime) (st : State),
    pool_ready rt st = true ->
    exists pool st',
      Db.getPool rt st = (inr pool, st') /\ quiet_step st st'.
Proof.
  intros rt st H. unfold pool_ready, can_connect in H.
  run_getPool.
  destruct (Db.development (env rt));
    [destruct (globalPool st) as [p|] | destruct (prodPool st) as [p|]];
    cbn in H; try destruct (connected p); cbn in H;
    try (destruct (Db.buildConfig (env rt)) as [e|cfg]; [discriminate H|];
         cbn; destruct (sql_connect rt cfg); [discriminate H|]);
    cbn; do 2 eexists; (split; [reflexivity|]); quiet.
Qed.

Lemma getPool_not_ready :
  forall (rt : Runtime) (st : State),
    pool_ready rt st = false ->
    exists e st',
      Db.getPool rt st = (inl e, st') /\ quiet_step st st'
      /\ (missing_config (env rt) = true -> e = missing_variables).
Proof.
  intros rt st H. unfold pool_ready, can_connect in H.
  run_getPool.
  destruct (Db.development (env rt));
    [destruct (globalPool st) as [p|] | destruct (prodPool st) as [p|]];
    cbn in H; try destruct (connected p); cbn in H; try discriminate H;
    (destruct (Db.buildConfig (env rt)) as [e|cfg] eqn:Hcfg;
     [| cbn; destruct (sql_connect rt cfg); [|discriminate H]]);
    cbn; do 2 eexists; (split; [reflexivity|]);
    (split; [quiet|]);
    intros Hm; pose proof (buildConfig_missing _ Hm) as Hb; congruence.
Qed.

(** A call of [getPool] that has to connect and cannot throws the error
    of [buildConfig] or of [sql.connect]. *)
Lemma getPool_throws :
  forall (rt : Runtime) (st : State),
    pool_ready rt st = false ->
    exists (err : JsError) (st' : State),
      connect_error rt = Some err /\ Db.getPool rt st = (inl err, st').
Proof.
  intros rt st H. unfold pool_ready, can_connect in H. unfold connect_error.
  run_getPool.
  destruct (Db.development (env rt));
    [destruct (globalPool st) as [p|] | destruct (prodPool st) as [p|]];
    cbn in H; try destruct (connected p); cbn in H; try discriminate H;
    (destruct (Db.buildConfig (env rt)) as [e|cfg];
     [| cbn; destruct (sql_connect rt cfg); [|discriminate H]]);
    cbn; do 2 eexists; split; reflexivity.
Qed.

(** ** Route guard inside the protected handlers *)

(** C2.  A history or lookup request without a valid session is answered
    401 "Unauthorized" and nothing else happens: the run leaves no event
    in the trace (no logger call, no [getPool], no connection, no
    stored-procedure call) and touches neither the pools nor the table;
    only the clock has been read once. *)
Theorem C2_no_session_is_401_and_no_work :
  forall (rt : Runtime) (st : State),
    (forall (j : option DncHistory.Body),
        DncHistory.POST rt {| req_session := None; req_json := j |} st
        = (inr (failure 401 "Unauthorized"), ticked st))
    /\ (forall (j : option DncLookup.Body),
           DncLookup.POST rt {| req_session := None; req_json := j |} st
           = (inr (failure 401 "Unauthorized"), ticked st))
    /\ trace (ticked st) = trace st
    /\ executions (trace (ticked st)) = executions (trace st)
    /\ prodPool (ticked st) = prodPool st
    /\ globalPool (ticked st) = globalPool st.
Proof.
  intros rt st. repeat split; intros; reflexivity.
Qed.

(** ** Unparseable request bodies *)

(** C10, as stated, fails for the two protected handlers: without a
    session an unparseable body is answered 401, not 400. *)
Lemma C10_unauthenticated_unparseable_is_401 :
  fst (DncHistory.POST Sample.rt {| req_session := None; req_json := None |}
                       Sample.fresh)
  = inr (failure 401 "Unauthorized")
  /\ fst (DncLookup.POST Sample.rt {| req_session := None; req_json := None |}
                         Sample.fresh)
     = inr (failure 401 "Unauthorized")
  /\ failure 401 "Unauthorized" <> failure 400 "Invalid request body".
Proof. repeat split. discriminate. Qed.

(** C10, as the code has it.  When [req.json()] rejects, register and
    forgot-password answer 400 with the envelope [{success: false, error:
    "Invalid request body"}] whatever the session; lookup and history do
    so for a request that carries a session and answer 401 for one that
    does not.  In every case the run ends there: the state is the initial
    one with the clock read once, so no validation, no bcrypt call, no
    [getPool] and no query has taken place, and the answer is never 500. *)
Theorem C10_unparseable_body_is_400_after_guard :
  forall (rt : Runtime) (st : State) (o : option Session),
    Register.POST rt {| req_session := o; req_json := None |} st
    = (inr (failure 400 "Invalid request body"), ticked st)
    /\ ForgotPassword.POST rt {| req_session := o; req_json := None |} st
       = (inr (failure 400 "Invalid request body"), ticked st)
    /\ DncLookup.POST rt {| req_session := o; req_json := None |} st
       = (inr (refusal o "Invalid request body"), ticked st)
    /\ DncHistory.POST rt {| req_session := o; req_json := None |} st
       = (inr (refusal o "Invalid request body"), ticked st)
    /\ trace (ticked st) = trace st.
Proof.
  intros rt st o. repeat split; destruct o; reflexivity.
Qed.

(** ** Validation before dispatch *)





(** ** Normalisation of the phone number *)

(** C6.  Two history requests whose phone numbers have the same digits
    run identically: same response, same final state, hence the same
    value sent downstream.  When the pool is available the one
    stored-procedure call of the run carries exactly the digits of the
    input, in order, and nothing else is done to them. *)
Theorem C6_same_digits_same_query :
  forall (rt : Runtime) (st : State) (s : Session) (p1 p2 : jsstring),
    digits p1 = digits p2 ->
    List.length (digits p1) = 10%nat ->
    DncHistory.POST rt (history_request s p1) st
    = DncHistory.POST rt (history_request s p2) st
    /\ (pool_ready rt st = true ->
        executions (trace (snd (DncHistory.POST rt (history_request s p1) st)))
        = executions (trace st) ++ [history_call (digits p1)]).
Proof.
  intros rt st s p1 p2 Hsame Hten. split.
  - unfold DncHistory.POST, history_request; cbn.
    rewrite !rawPhone_of_digits; cbn. rewrite Hsame. reflexivity.
  - intros Hready.
    unfold DncHistory.POST, history_request, Date_now, try_catch; cbn.
    rewrite rawPhone_of_digits; cbn [or_empty].
    unfold bind at 1. cbn [tick]. unfold ret at 1.
    rewrite Hten. cbn [Nat.eqb negb].
    unfold bind at 1. unfold logger_info at 1, logger_log, emit.
    unfold bind at 1.
    match goal with
    | |- context [Db.getPool rt ?st1] =>
        destruct (getPool_ready rt st1 Hready) as (pool & st2 & Hget & evs & Ht & He & Hu & Hc);
        rewrite Hget
    end.
    cbn in Ht.
    unfold Db.execute_sp_dnc_history, bind, emit, Db.fault_check, tick, ret,
      throw, logger_info, logger_error, logger_log.
    destruct (sql_fault rt); cbn; rewrite Ht;
      rewrite !executions_app, He; cbn;
      rewrite ?List.app_nil_r; reflexivity.
Qed.

(** The theorem on the bare and the parenthesised spelling of one
    number. *)
Lemma C6_same_digits_witness :
  DncHistory.POST Sample.rt (history_request Sample.session (lit "2125551234"))
                  Sample.fresh
  = DncHistory.POST Sample.rt
                    (history_request Sample.session (lit "(212) 555-1234"))
                    Sample.fresh
  /\ (pool_ready Sample.rt Sample.fresh = true ->
      executions (trace (snd (DncHistory.POST Sample.rt
                                (history_request Sample.session (lit "2125551234"))
                                Sample.fresh)))
      = executions (trace Sample.fresh)
        ++ [history_call (digits (lit "2125551234"))]).
Proof.
  apply (C6_same_digits_same_query Sample.rt Sample.fresh Sample.session
           (lit "2125551234") (lit "(212) 555-1234")).
  - vm_compute. reflexivity.
  - vm_compute. reflexivity.
Defined.

(** The three spellings of the specification reach the procedure as the
    same ten digits. *)
Example history_three_spellings :
  List.map
    (fun p => executions
                (trace (snd (DncHistory.POST Sample.rt
                               (history_request Sample.session (lit p))
                               Sample.fresh))))
    ["2125551234"; "(212) 555-1234"; "212-555-1234"]
  = List.repeat [history_call (lit "2125551234")] 3.
Proof. vm_compute. reflexivity. Qed.

(** ** Registration conflicts *)

Ltac run :=
  unfold try_catch, bind, Date_now, emit, get_state, Db.fault_check, tick,
    ret, throw, set_users, logger_info, logger_warn, logger_error,
    logger_log;
  cbn.

(** Replace the call of [getPool] in the goal by its outcome when the
    pool is available. *)
Ltac pool_is_ready rt Hready pool st2 Hstep :=
  match goal with
  | |- context [Db.getPool rt ?st1] =>
      destruct (getPool_ready rt st1 Hready) as (pool & st2 & ?Hget & Hstep);
      rewrite Hget
  end.


(** Enter [Register.POST] with fields that pass the validation. *)
Ltac validated u e p Hacc :=
  let Hu := fresh "Hu" in
  let He := fresh "He" in
  let Hp := fresh "Hp" in
  let Hmin := fresh "Hmin" in
  let Hmax := fresh "Hmax" in
  let Hat := fresh "Hat" in
  let Hdot := fresh "Hdot" in
  let Hlen := fresh "Hlen" in
  destruct Hacc as (Hu & He & Hp & [Hmin Hmax] & Hat & Hdot & Hlen);
  unfold Register.POST, register_request, Date_now, try_catch;
  cbn [req_json Register.username Register.email Register.password];
  destruct u as [|? ?]; [congruence|];
  destruct e as [|? ?]; [congruence|];
  destruct p as [|? ?]; [congruence|];
  unfold Register.MIN_USERNAME_LENGTH, Register.MAX_USERNAME_LENGTH,
    Register.MIN_PASSWORD_LENGTH;
  apply Nat.ltb_ge in Hmin, Hmax, Hlen;
  rewrite Hmin, Hmax, Hat, Hdot, Hlen; cbn [negb orb];
  run.




(** The collision of the e-mail address alone gives the same answer. *)
Example register_email_collision :
  fst (Register.POST Sample.rt
         (register_request None (lit "alice2") (lit "Alice@X.com")
                           (lit "password123"))
         Sample.fresh)
  = inr (failure 409 "Username or email already exists").
Proof. vm_compute. reflexivity. Qed.

(** ** Forgot password *)

Lemma getPool_quiet :
  forall (rt : Runtime) (st st' : State) (r : JsError + ConnectionPool),
    Db.getPool rt st = (r, st') -> quiet_step st st'.
Proof.
  intros rt st st' r H.
  destruct (pool_ready rt st) eqn:Hr.
  - destruct (getPool_ready rt st Hr) as (pool & st2 & Hget & Hq). congruence.
  - destruct (getPool_not_ready rt st Hr) as (e & st2 & Hget & Hq & _). congruence.
Qed.

Lemma includes_nonempty :
  forall (c : N) (s : jsstring), includes c s = true -> s <> [].
Proof. intros c s H ->. discriminate H. Qed.

(** C8.  A forgot-password request whose e-mail address passes the
    syntactic check is answered 200 with the one confirmation message,
    for every content of [dbo].[users] and every behaviour of the
    database: account found, account not found, connection refused,
    configuration missing or query failed. *)
Theorem C8_forgot_password_always_confirms :
  forall (rt : Runtime) (st : State) (o : option Session) (e : jsstring),
    plausible_email rt e ->
    fst (ForgotPassword.POST rt (forgot_request o e) st)
    = inr (ok (Message ForgotPassword.confirmation)).
Proof.
  intros rt st o e [Hat Hdot].
  pose proof (includes_nonempty _ _ Hat) as Hne.
  unfold ForgotPassword.POST, forgot_request.
  cbn [req_json ForgotPassword.email option_map].
  destruct (toLowerCase rt (trim e)) as [|c m] eqn:Hm; [congruence|].
  rewrite Hat, Hdot. cbn [negb orb].
  run.
  match goal with
  | |- context [Db.getPool rt ?st1] =>
      destruct (Db.getPool rt st1) as [[err|pool] st2]
  end; [reflexivity|].
  unfold Db.query_active_user_by_email. run.
  destruct (sql_fault rt); cbn; [reflexivity|].
  destruct (List.hd_error _); reflexivity.
Qed.

(** The theorem on an address that has no account. *)
Lemma C8_forgot_password_witness :
  fst (ForgotPassword.POST Sample.rt
         (forgot_request None (lit "nobody@nowhere.org")) Sample.fresh)
  = inr (ok (Message ForgotPassword.confirmation)).
Proof.
  apply C8_forgot_password_always_confirms.
  split; vm_compute; reflexivity.
Defined.

(** The same request against a database that cannot be reached, and for
    an address that has an account. *)
Example forgot_password_three_worlds :
  fst (ForgotPassword.POST (Sample.platform Sample.no_environment)
         (forgot_request None (lit "alice@x.com")) Sample.fresh)
  = fst (ForgotPassword.POST Sample.rt
           (forgot_request None (lit "alice@x.com")) Sample.fresh)
  /\ fst (ForgotPassword.POST Sample.rt
            (forgot_request None (lit "alice@x.com")) Sample.fresh)
     = fst (ForgotPassword.POST Sample.rt
              (forgot_request None (lit "nobody@nowhere.org")) Sample.fresh).
Proof. split; vm_compute; reflexivity. Qed.

(** ** Login *)

Lemma trim_start_suffix :
  forall s : jsstring, exists pre, s = pre ++ trim_start s.
Proof.
  induction s as [|x s [pre IH]].
  - exists []. reflexivity.
  - cbn. destruct (is_space x).
    + exists (x :: pre). cbn. f_equal. exact IH.
    + exists []. reflexivity.
Qed.

Lemma trim_start_clean : forall s : jsstring, clean (trim_start s).
Proof.
  induction s as [|x s IH]; cbn; [exact I|].
  destruct (is_space x) eqn:E; [exact IH|exact E].
Qed.

Lemma clean_trim_start : forall s : jsstring, clean s -> trim_start s = s.
Proof.
  intros [|x s] H; cbn in *; [reflexivity|]. rewrite H. reflexivity.
Qed.

Lemma trim_idempotent : forall s : jsstring, trim (trim s) = trim s.
Proof.
  intros s. unfold trim.
  set (w := trim_start (List.rev (trim_start s))).
  assert (Hw : clean (List.rev w)).
  { destruct (trim_start_suffix (List.rev (trim_start s))) as [pre Hpre].
    fold w in Hpre.
    assert (Hs : trim_start s = List.rev w ++ List.rev pre).
    { rewrite <- List.rev_app_distr, <- Hpre, List.rev_involutive. reflexivity. }
    pose proof (trim_start_clean s) as Hc. rewrite Hs in Hc.
    destruct (List.rev w); [exact I|exact Hc]. }
  rewrite (clean_trim_start _ Hw), List.rev_involutive.
  unfold w at 1. rewrite (clean_trim_start _ (trim_start_clean _)).
  reflexivity.
Qed.

Lemma logs_snoc :
  forall (tr : list Event) (l : Level) (m : jsstring)
         (meta : list (string * Value)),
    logs (tr ++ [EvLog l m meta]) = logs tr ++ [(l, m)].
Proof.
  intros. unfold logs. rewrite List.flat_map_app. reflexivity.
Qed.

(** [authorize] never throws, and it returns an identity only for an
    active account whose stored digest matches the password. *)
Lemma authorize_sound :
  forall (rt : Runtime) (st : State) (u p : jsstring),
    exists r : option Auth.Identity,
      fst (Auth.authorize rt (login u p) st) = inr r
      /\ (forall who, r = Some who ->
            exists row,
              user_named rt st u = Some row
              /\ is_active row = true
              /\ bcrypt_compare rt p (password_hash row) = inr true
              /\ who = {| Auth.identity_id := of_Z (id row);
                          Auth.identity_name := username row;
                          Auth.identity_email := email row |}).
Proof.
  intros rt st u p. unfold Auth.authorize, login.
  destruct u as [|u0 u']; [eexists; split; [reflexivity|discriminate]|].
  destruct p as [|p0 p']; [eexists; split; [reflexivity|discriminate]|].
  run.
  match goal with
  | |- context [Db.getPool rt ?st1] =>
      destruct (Db.getPool rt st1) as [[err|pool] st2] eqn:Hget
  end; [eexists; split; [reflexivity|discriminate]|].
  apply getPool_quiet in Hget. destruct Hget as (evs & _ & _ & Husers & _).
  cbn in Husers.
  unfold Db.query_user_by_username. run.
  destruct (sql_fault rt); cbn; [eexists; split; [reflexivity|discriminate]|].
  rewrite Husers. unfold user_named.
  destruct (List.hd_error _) as [row|]; cbn;
    [|eexists; split; [reflexivity|discriminate]].
  destruct (is_active row) eqn:Hact; cbn;
    [|eexists; split; [reflexivity|discriminate]].
  destruct (bcrypt_compare rt (p0 :: p') (password_hash row)) as [e|[|]] eqn:Hcmp;
    cbn; eexists; (split; [reflexivity|]); try discriminate.
  intros who Hwho. injection Hwho as <-. exists row. auto.
Qed.

Lemma handleSubmit_view :
  forall (rt : Runtime) (st : State) nextauth (u p : jsstring)
         (r : option Auth.Identity),
    trim u <> [] -> p <> [] ->
    fst (Auth.authorize rt (login (trim u) p) st) = inr r ->
    fst (LoginPage.handleSubmit rt nextauth u p st) = inr (view_of (nextauth r)).
Proof.
  intros rt st nextauth u p r Hu Hp Hr.
  unfold LoginPage.handleSubmit.
  destruct (trim u) as [|u0 u'] eqn:Htrim; [congruence|].
  destruct p as [|p0 p']; [congruence|].
  unfold bind. unfold login in Hr.
  destruct (Auth.authorize rt _ st) as [[e|r'] st']; cbn in Hr;
    [discriminate|]. injection Hr as ->.
  unfold view_of.
  destruct (nextauth r) as [[[[|? ?]|] ? ?]|]; reflexivity.
Qed.

Lemma user_named_trim :
  forall (rt : Runtime) (st : State) (u : jsstring),
    user_named rt st (trim u) = user_named rt st u.
Proof. intros. unfold user_named. rewrite trim_idempotent. reflexivity. Qed.

(** A rejected login: [authorize] returns [null]. *)
Lemma authorize_rejects :
  forall (rt : Runtime) (st : State) (u p : jsstring),
    (forall row, user_named rt st u = Some row ->
                 is_active row = true ->
                 bcrypt_compare rt p (password_hash row) <> inr true) ->
    fst (Auth.authorize rt (login u p) st) = inr None.
Proof.
  intros rt st u p H.
  destruct (authorize_sound rt st u p) as ([who|] & Hr & Hsound);
    [|exact Hr].
  exfalso. destruct (Hsound who eq_refl) as (row & Hn & Ha & Hc & _).
  exact (H row Hn Ha Hc).
Qed.

Lemma authorize_last_log :
  forall (rt : Runtime) (st : State) (u p : jsstring),
    u <> [] -> p <> [] ->
    pool_ready rt st = true -> sql_fault rt = None ->
    last_log (Auth.authorize rt (login u p) st)
    = match user_named rt st u with
      | None => (LWarn, lit "Login failed: user not found " ++ dash ++ lit " " ++ u)
      | Some row =>
          if negb (is_active row)
          then (LWarn, lit "Login failed: account inactive " ++ dash ++ lit " " ++ u)
          else match bcrypt_compare rt p (password_hash row) with
               | inl _ => (LError, lit "Database error during authentication")
               | inr false =>
                   (LWarn, lit "Login failed: wrong password " ++ dash ++ lit " " ++ u)
               | inr true =>
                   (LInfo, lit "Login success " ++ dash ++ lit " " ++ username row)
               end
      end.
Proof.
  intros rt st u p Hu Hp Hready Hfault.
  unfold last_log, Auth.authorize, login.
  destruct u as [|u0 u']; [congruence|].
  destruct p as [|p0 p']; [congruence|].
  run.
  pool_is_ready rt Hready pool st2 Hstep.
  destruct Hstep as (evs & _ & _ & Husers & _). cbn in Husers.
  unfold Db.query_user_by_username. run. rewrite Hfault. cbn.
  rewrite Husers. unfold user_named.
  destruct (List.hd_error _) as [row|]; cbn;
    [|rewrite logs_snoc; apply List.last_last].
  destruct (is_active row); cbn;
    [|rewrite logs_snoc; apply List.last_last].
  destruct (bcrypt_compare rt (p0 :: p') (password_hash row)) as [e|[|]];
    cbn; rewrite logs_snoc; apply List.last_last.
Qed.

(** C3.  Three rejected logins: a known user name with a wrong password,
    a user name that does not exist, an inactive account.  [authorize]
    returns [null] in all three, so whatever NextAuth builds from its
    return value (body and status of the sign-in response) is the same;
    when the form is submitted the login page shows the same view, which
    carries the one message "Invalid username or password. Please try
    again." as soon as NextAuth reports an error for [null].  The reason
    is told apart only by the last line written to the server log. *)
Theorem C3_login_failures_are_indistinguishable :
  forall (rt : Runtime) (st : State)
         (u_known p_wrong u_unknown p_any u_off p_off : jsstring)
         (row row_off : User),
    (* a known user name with a wrong password *)
    user_named rt st u_known = Some row ->
    is_active row = true ->
    bcrypt_compare rt p_wrong (password_hash row) = inr false ->
    (* a user name that does not exist *)
    user_named rt st u_unknown = None ->
    (* an inactive account *)
    user_named rt st u_off = Some row_off ->
    is_active row_off = false ->
    (* the outcome of authorize *)
    fst (Auth.authorize rt (login u_known p_wrong) st) = inr None
    /\ fst (Auth.authorize rt (login u_unknown p_any) st) = inr None
    /\ fst (Auth.authorize rt (login u_off p_off) st) = inr None
    (* what the login page shows once the form passes its own checks *)
    /\ (forall nextauth,
           trim u_known <> [] -> p_wrong <> [] ->
           trim u_unknown <> [] -> p_any <> [] ->
           trim u_off <> [] -> p_off <> [] ->
           fst (LoginPage.handleSubmit rt nextauth u_known p_wrong st)
           = inr (view_of (nextauth None))
           /\ fst (LoginPage.handleSubmit rt nextauth u_unknown p_any st)
              = inr (view_of (nextauth None))
           /\ fst (LoginPage.handleSubmit rt nextauth u_off p_off st)
              = inr (view_of (nextauth None)))
    (* the server log, when the database answers *)
    /\ (u_known <> [] -> p_wrong <> [] ->
        u_unknown <> [] -> p_any <> [] ->
        u_off <> [] -> p_off <> [] ->
        pool_ready rt st = true -> sql_fault rt = None ->
        last_log (Auth.authorize rt (login u_known p_wrong) st)
        = (LWarn, lit "Login failed: wrong password " ++ dash ++ lit " " ++ u_known)
        /\ last_log (Auth.authorize rt (login u_unknown p_any) st)
           = (LWarn, lit "Login failed: user not found " ++ dash ++ lit " " ++ u_unknown)
        /\ last_log (Auth.authorize rt (login u_off p_off) st)
           = (LWarn, lit "Login failed: account inactive " ++ dash ++ lit " " ++ u_off)).
Proof.
  intros rt st u_known p_wrong u_unknown p_any u_off p_off row row_off
         Hrow Hact Hcmp Hnone Hoff Hinact.
  assert (R1 : forall u, user_named rt st u = Some row ->
                         fst (Auth.authorize rt (login u p_wrong) st) = inr None).
  { intros u Hn. apply authorize_rejects. intros r Hr _. congruence. }
  assert (R2 : forall u, user_named rt st u = None ->
                         fst (Auth.authorize rt (login u p_any) st) = inr None).
  { intros u Hn. apply authorize_rejects. intros r Hr. congruence. }
  assert (R3 : forall u, user_named rt st u = Some row_off ->
                         fst (Auth.authorize rt (login u p_off) st) = inr None).
  { intros u Hn. apply authorize_rejects. intros r Hr Ha. congruence. }
  split; [apply R1, Hrow|].
  split; [apply R2, Hnone|].
  split; [apply R3, Hoff|].
  split.
  - intros nextauth Hu1 Hp1 Hu2 Hp2 Hu3 Hp3. repeat split.
    + apply handleSubmit_view; auto. apply R1. rewrite user_named_trim. exact Hrow.
    + apply handleSubmit_view; auto. apply R2. rewrite user_named_trim. exact Hnone.
    + apply handleSubmit_view; auto. apply R3. rewrite user_named_trim. exact Hoff.
  - intros Hu1 Hp1 Hu2 Hp2 Hu3 Hp3 Hready Hfault. repeat split.
    + rewrite authorize_last_log by auto.
      rewrite Hrow, Hact, Hcmp. reflexivity.
    + rewrite authorize_last_log by auto. rewrite Hnone. reflexivity.
    + rewrite authorize_last_log by auto. rewrite Hoff, Hinact. reflexivity.
Qed.

(** The theorem on the sample table: [alice] with a wrong password, the
    unknown [mallory], the inactive [carol] with her own password. *)
Lemma C3_login_failures_witness :
  fst (Auth.authorize Sample.rt (login (lit "alice") (lit "wrongpass"))
                      Sample.fresh) = inr None
  /\ fst (Auth.authorize Sample.rt (login (lit "mallory") (lit "password123"))
                         Sample.fresh) = inr None
  /\ fst (Auth.authorize Sample.rt (login (lit "carol") (lit "letmein99"))
                         Sample.fresh) = inr None.
Proof.
  pose proof (C3_login_failures_are_indistinguishable
                Sample.rt Sample.fresh
                (lit "alice") (lit "wrongpass")
                (lit "mallory") (lit "password123")
                (lit "carol") (lit "letmein99")
                Sample.alice Sample.carol) as H.
  destruct H as (A & B & C & _);
    try (vm_compute; discriminate); try (vm_compute; reflexivity).
  auto.
Defined.

(** With NextAuth reporting [CredentialsSignin] for [null], the page
    shows the one generic message in the three cases, and the sign-in
    response (error and status) is the same. *)
Example login_page_generic_message :
  List.map
    (fun up => fst (LoginPage.handleSubmit Sample.rt Sample.nextauth
                      (lit (fst up)) (lit (snd up)) Sample.fresh))
    [ ("alice", "wrongpass"); ("mallory", "password123");
      ("carol", "letmein99") ]
  = List.repeat
      (inr {| LoginPage.error := "Invalid username or password. Please try again.";
              LoginPage.loading := false; LoginPage.pushed := None |}) 3.
Proof. vm_compute. reflexivity. Qed.

(** ** Missing configuration *)

(** When a required variable is missing, [getPool] throws the error of
    [buildConfig] on every call made while no pool exists, and leaves the
    pool variables as they are. *)
Lemma getPool_missing_config :
  forall (rt : Runtime) (st : State),
    missing_config (env rt) = true ->
    prodPool st = None -> globalPool st = None ->
    exists st',
      Db.getPool rt st = (inl missing_variables, st')
      /\ quiet_step st st'
      /\ prodPool st' = None /\ globalPool st' = None.
Proof.
  intros rt st Hm Hp Hg.
  pose proof (buildConfig_missing _ Hm) as Hb.
  run_getPool. rewrite Hp, Hg, Hb.
  destruct (Db.development (env rt)); cbn;
    eexists; (split; [reflexivity|]); (split; [quiet|]); auto.
Qed.

Ltac pool_is_missing rt Hm st2 Hstep :=
  match goal with
  | |- context [Db.getPool rt ?st1] =>
      let Hget := fresh "Hget" in
      destruct (getPool_missing_config rt st1 Hm) as (st2 & Hget & Hstep);
      [assumption|assumption|rewrite Hget]
  end.

(** C9, as the code has it.  The process starts whatever the
    environment holds.  With a required database variable missing and no
    pool yet, every call of [getPool] throws the error of [buildConfig],
    and each handler turns it into the failure of that one request: 500
    for history, lookup and registration, a rejected login for
    [authorize].  The pool variables stay empty, so the next request
    meets the same situation. *)
Theorem C9_missing_config_fails_each_request :
  forall (rt : Runtime) (st : State) (s : Session) (o : option Session)
         (phone date u e p : jsstring) (t : Z),
    missing_config (env rt) = true ->
    prodPool st = None -> globalPool st = None ->
    List.length (digits phone) = 10%nat ->
    date <> [] -> Date_parse rt (DncLookup.date_text date) = Some t ->
    acceptable rt u e p ->
    (exists app, Startup.start (env rt) (users st) = inr app
                 /\ prodPool (Startup.initial app) = None
                 /\ globalPool (Startup.initial app) = None)
    /\ (exists st', Db.getPool rt st = (inl missing_variables, st'))
    /\ fst (DncHistory.POST rt (history_request s phone) st)
       = inr (failure 500 "History lookup failed. Please try again.")
    /\ fst (DncLookup.POST rt (lookup_request s phone date) st)
       = inr (failure 500 "Lookup failed. Please try again.")
    /\ fst (Register.POST rt (register_request o u e p) st)
       = inr (failure 500 "Registration failed. Please try again.")
    /\ fst (Auth.authorize rt (login u p) st) = inr None
    /\ prodPool (snd (DncHistory.POST rt (history_request s phone) st)) = None
    /\ globalPool (snd (DncHistory.POST rt (history_request s phone) st)) = None.
Proof.
  intros rt st s o phone date u e p t Hm Hp Hg Hten Hdate Hparse
         (Hu & He & Hpw & [Hmin Hmax] & Hat & Hdot & Hlen).
  assert (History :
            exists st',
              DncHistory.POST rt (history_request s phone) st
              = (inr (failure 500 "History lookup failed. Please try again."), st')
              /\ prodPool st' = None /\ globalPool st' = None).
  { unfold DncHistory.POST, history_request.
    run. rewrite rawPhone_of_digits. cbn [or_empty]. rewrite Hten. cbn.
    pool_is_missing rt Hm st2 Hstep. cbn.
    destruct Hstep as (_ & Hp2 & Hg2). eexists. split; [reflexivity|]. cbn. auto. }
  destruct History as (st' & Hrun & Hp' & Hg').
  repeat split.
  - eexists. repeat split; reflexivity.
  - destruct (getPool_missing_config rt st Hm Hp Hg) as (st2 & Hget & _).
    exists st2. exact Hget.
  - rewrite Hrun. reflexivity.
  - unfold DncLookup.POST, lookup_request.
    run. rewrite rawPhone_of_digits. cbn [or_empty]. rewrite Hten. cbn.
    destruct date as [|d0 d']; [congruence|]. rewrite Hparse. cbn.
    pool_is_missing rt Hm st2 Hstep. reflexivity.
  - unfold Register.POST, register_request.
    cbn [req_json Register.username Register.email Register.password].
    destruct u as [|u0 u']; [congruence|].
    destruct e as [|e0 e']; [congruence|].
    destruct p as [|p0 p']; [congruence|].
    unfold Register.MIN_USERNAME_LENGTH, Register.MAX_USERNAME_LENGTH,
      Register.MIN_PASSWORD_LENGTH.
    apply Nat.ltb_ge in Hmin, Hmax, Hlen.
    rewrite Hmin, Hmax, Hat, Hdot, Hlen. cbn [negb orb].
    run. pool_is_missing rt Hm st2 Hstep. reflexivity.
  - unfold Auth.authorize, login.
    destruct u as [|u0 u']; [congruence|].
    destruct p as [|p0 p']; [congruence|].
    run. pool_is_missing rt Hm st2 Hstep. reflexivity.
  - rewrite Hrun. exact Hp'.
  - rewrite Hrun. exact Hg'.
Qed.

(** ** Missing configuration: start-up *)

(** C9, as stated, fails: with every database variable unset the process
    starts, and the failure shows only when a request needs the pool:
    the history request is answered 500. *)
Lemma C9_startup_is_not_fatal :
  missing_config Sample.no_environment = true
  /\ (exists app,
         Startup.start Sample.no_environment [Sample.alice; Sample.carol]
         = inr app)
  /\ fst (DncHistory.POST (Sample.platform Sample.no_environment)
            (history_request Sample.session (lit "2125551234")) Sample.fresh)
     = inr (failure 500 "History lookup failed. Please try again.")
  /\ ~ fatal_at_startup.
Proof.
  repeat split.
  - eexists. reflexivity.
  - intros H.
    destruct (H Sample.no_environment [] eq_refl) as [err E]. discriminate E.
Qed.

(** The theorem on a platform with no database variable set. *)
Lemma C9_missing_config_witness :
  fst (DncHistory.POST (Sample.platform Sample.no_environment)
         (history_request Sample.session (lit "2125551234")) Sample.fresh)
  = inr (failure 500 "History lookup failed. Please try again.")
  /\ fst (Register.POST (Sample.platform Sample.no_environment)
            (register_request None (lit "dave") (lit "dave@x.com")
                              (lit "password123")) Sample.fresh)
     = inr (failure 500 "Registration failed. Please try again.").
Proof.
  pose proof (C9_missing_config_fails_each_request
                (Sample.platform Sample.no_environment) Sample.fresh
                Sample.session None
                (lit "2125551234") (lit "01/15/2024")
                (lit "dave") (lit "dave@x.com") (lit "password123")
                752974%Z) as H.
  destruct H as (_ & _ & Hh & _ & Hr & _);
    try (vm_compute; reflexivity); try (vm_compute; discriminate).
  - unfold acceptable. vm_compute.
    repeat split; try discriminate; try reflexivity; repeat constructor.
  - split; assumption.
Defined.

(** ** Phone masking *)

Import Logger.

(** *** The matcher sees characters only through the classes

    A renaming of characters that preserves the classes a pattern tests
    commutes with matching and with replacement.  Renaming the digits of
    a template therefore reduces a statement about all phone numbers of
    one format to one computation. *)

Section Renaming.

Variable phi : N -> N.
Hypothesis phi_word : respects phi is_word.

Lemma word_at_map :
  forall c : option N, word_at (option_map phi c) = word_at c.
Proof. intros [x|]; cbn; [apply phi_word|reflexivity]. Qed.

Lemma hd_error_map :
  forall s : jsstring, List.hd_error (List.map phi s) = option_map phi (List.hd_error s).
Proof. intros [|x s]; reflexivity. Qed.

Lemma capture_map :
  forall (ing : bool) (x : N) (grp : list N),
    (if ing then phi x :: List.map phi grp else List.map phi grp)
    = List.map phi (if ing then x :: grp else grp).
Proof. intros [|] x grp; reflexivity. Qed.

Lemma match_here_map :
  forall pat : Pattern,
    List.Forall (item_respects phi) pat ->
    forall (prev : option N) (s : jsstring) (ing : bool) (grp : list N) (n : nat),
      match_here pat (option_map phi prev) (List.map phi s) ing
                 (List.map phi grp) n
      = renamed phi (match_here pat prev s ing grp n).
Proof.
  induction pat as [|it pat IH]; intros Hpat prev s ing grp n.
  - cbn. rewrite List.map_rev. reflexivity.
  - inversion Hpat as [|? ? Hit Hrest]; subst.
    specialize (IH Hrest).
    destruct it as [cls|cls| | |]; cbn [item_respects] in Hit.
    + destruct s as [|x s]; cbn; [reflexivity|].
      rewrite Hit. destruct (cls x); [|reflexivity].
      rewrite capture_map. apply (IH (Some x)).
    + revert prev ing grp n.
      induction s as [|x s IHs]; intros prev ing grp n.
      * cbn. apply (IH prev []).
      * cbn [List.map]. cbn [match_here]. rewrite Hit.
        destruct (cls x).
        -- rewrite capture_map.
           specialize (IHs (Some x) ing (if ing then x :: grp else grp) (S n)).
           cbn [match_here option_map] in IHs. rewrite IHs.
           match goal with
           | |- context [renamed phi ?m] => destruct m as [[g k]|] eqn:Hm
           end.
           ++ reflexivity.
           ++ cbn [renamed option_map]. apply (IH prev (x :: s)).
        -- apply (IH prev (x :: s)).
    + cbn [match_here]. rewrite word_at_map, hd_error_map, word_at_map.
      destruct (xorb _ _); [apply IH|reflexivity].
    + cbn [match_here]. apply IH.
    + cbn [match_here]. apply IH.
Qed.

Lemma replace_from_map :
  forall (pat : Pattern) (repl : jsstring -> jsstring),
    List.Forall (item_respects phi) pat ->
    (forall g, repl (List.map phi g) = List.map phi (repl g)) ->
    forall (s : jsstring) (prev : option N) (skip : nat),
      replace_from pat repl (option_map phi prev) (List.map phi s) skip
      = List.map phi (replace_from pat repl prev s skip).
Proof.
  intros pat repl Hpat Hrepl.
  assert (E : forall prev s,
             exec pat (option_map phi prev) (List.map phi s)
             = renamed phi (exec pat prev s)).
  { intros prev s. unfold exec. apply (match_here_map pat Hpat prev s false []). }
  induction s as [|x s IH]; intros prev skip.
  - cbn [List.map replace_from]. destruct skip; [|reflexivity].
    change (@nil N) with (List.map phi []) at 1. rewrite E.
    destruct (exec pat prev []) as [[g k]|]; cbn; [apply Hrepl|reflexivity].
  - cbn [List.map replace_from]. destruct skip as [|k].
    + change (phi x :: List.map phi s) with (List.map phi (x :: s)).
      rewrite E.
      destruct (exec pat prev (x :: s)) as [[g [|k]]|]; cbn.
      * rewrite List.map_app, Hrepl. cbn. rewrite <- (IH (Some x)). reflexivity.
      * rewrite List.map_app, Hrepl. rewrite <- (IH (Some x)). reflexivity.
      * rewrite <- (IH (Some x)). reflexivity.
    + apply (IH (Some x)).
Qed.

End Renaming.

(** A decimal digit belongs to [\d] and [\w] and to none of the other
    classes the three patterns test. *)
Lemma digit_classes :
  forall x : N,
    is_digit x = true ->
    is_word x = true /\ is_space x = false /\ is_sep x = false
    /\ is_char 40 x = false /\ is_char 41 x = false /\ is_char 45 x = false.
Proof.
  intros x H. unfold is_digit in H.
  apply andb_prop in H. destruct H as [H1 H2].
  apply N.leb_le in H1, H2.
  assert (D : x = 48 \/ x = 49 \/ x = 50 \/ x = 51 \/ x = 52 \/ x = 53
              \/ x = 54 \/ x = 55 \/ x = 56 \/ x = 57) by lia.
  repeat (destruct D as [->|D]; [repeat split; reflexivity|]).
  subst x. repeat split; reflexivity.
Qed.

Section Placing_digits.

Variable ds : list N.
Hypothesis ds_digits : List.Forall (fun x => is_digit x = true) ds.

Lemma place_digit :
  forall x : N, is_digit x = true -> is_digit (place ds x) = true.
Proof.
  intros x Hx. unfold place. rewrite Hx.
  destruct (List.nth_in_or_default (N.to_nat (x - 48)) ds x) as [Hin| ->].
  - rewrite List.Forall_forall in ds_digits. apply ds_digits, Hin.
  - exact Hx.
Qed.

Lemma place_other :
  forall x : N, is_digit x = false -> place ds x = x.
Proof. intros x Hx. unfold place. rewrite Hx. reflexivity. Qed.

(** Every class of the three patterns is preserved. *)
Lemma place_respects :
  respects (place ds) is_digit /\ respects (place ds) is_word
  /\ respects (place ds) is_space /\ respects (place ds) is_sep
  /\ respects (place ds) (is_char 40) /\ respects (place ds) (is_char 41)
  /\ respects (place ds) (is_char 45).
Proof.
  assert (K : forall x,
             is_digit (place ds x) = is_digit x
             /\ is_word (place ds x) = is_word x
             /\ is_space (place ds x) = is_space x
             /\ is_sep (place ds x) = is_sep x
             /\ is_char 40 (place ds x) = is_char 40 x
             /\ is_char 41 (place ds x) = is_char 41 x
             /\ is_char 45 (place ds x) = is_char 45 x).
  { intros x. destruct (is_digit x) eqn:Hx.
    - pose proof (place_digit x Hx) as Hy.
      destruct (digit_classes x Hx) as (A & B & C & D & E & F).
      destruct (digit_classes _ Hy) as (A' & B' & C' & D' & E' & F').
      repeat split; congruence.
    - rewrite (place_other x Hx). rewrite Hx. repeat split; reflexivity. }
  repeat split; intros x; apply (K x).
Qed.

Lemma stars_place :
  forall g : jsstring,
    stars (List.map (place ds) g) = List.map (place ds) (stars g).
Proof. intros g. unfold stars. rewrite List.map_app. reflexivity. Qed.

(** Masking commutes with placing digits in a template. *)
Lemma mask_place :
  forall s : jsstring,
    mask (List.map (place ds) s) = List.map (place ds) (mask s).
Proof.
  intros s.
  destruct place_respects as (Rd & Rw & Rs & Rp & R40 & R41 & R45).
  unfold mask, replace_all.
  rewrite <- (replace_from_map (place ds) Rw re_raw stars)
    with (prev := None);
    [|repeat constructor; assumption|exact stars_place].
  rewrite <- (replace_from_map (place ds) Rw re_separated stars)
    with (prev := None);
    [|repeat constructor; assumption|exact stars_place].
  rewrite <- (replace_from_map (place ds) Rw re_formatted stars)
    with (prev := None);
    [|repeat constructor; assumption|exact stars_place].
  reflexivity.
Qed.

End Placing_digits.

(** The four spellings of a 10-digit number, on their own, are masked to
    ["***-***-"] followed by the last four digits. *)
Lemma mask_four_formats :
  forall a b c d e f g h i j : N,
    List.Forall (fun x => is_digit x = true) [a; b; c; d; e; f; g; h; i; j] ->
    mask [a; b; c; d; e; f; g; h; i; j] = stars [g; h; i; j]
    /\ mask ([40; a; b; c; 41; 32; d; e; f; 45; g; h; i; j]) = stars [g; h; i; j]
    /\ mask ([a; b; c; 45; d; e; f; 45; g; h; i; j]) = stars [g; h; i; j]
    /\ mask ([a; b; c; 46; d; e; f; 46; g; h; i; j]) = stars [g; h; i; j].
Proof.
  intros a b c d e f g h i j Hds.
  pose proof (mask_place _ Hds) as M.
  assert (T : forall t : string,
             mask (lit t) = lit "***-***-6789" ->
             mask (List.map (place [a; b; c; d; e; f; g; h; i; j]) (lit t))
             = stars [g; h; i; j]).
  { intros t Ht. rewrite M, Ht. reflexivity. }
  repeat split.
  - apply (T "0123456789"). vm_compute. reflexivity.
  - apply (T "(012) 345-6789"). vm_compute. reflexivity.
  - apply (T "012-345-6789"). vm_compute. reflexivity.
  - apply (T "012.345.6789"). vm_compute. reflexivity.
Qed.

(** *** Every string field of a record is masked *)

Lemma get_app_fresh :
  forall (k : string) (pre post : Info),
    ~ List.In k (keys pre) -> get k (pre ++ post) = get k post.
Proof.
  induction pre as [|[k' v'] pre IH]; intros post Hk; cbn; [reflexivity|].
  cbn in Hk. destruct (String.eqb_spec k' k) as [E|E].
  - exfalso. apply Hk. left. exact E.
  - apply IH. intros Hin. apply Hk. right. exact Hin.
Qed.

Lemma set_app_fresh :
  forall (k : string) (v : Value) (pre post : Info),
    ~ List.In k (keys pre) -> set k v (pre ++ post) = pre ++ set k v post.
Proof.
  induction pre as [|[k' v'] pre IH]; intros post Hk; cbn; [reflexivity|].
  cbn in Hk. destruct (String.eqb_spec k' k) as [E|E].
  - exfalso. apply Hk. left. exact E.
  - f_equal. apply IH. intros Hin. apply Hk. right. exact Hin.
Qed.

(** The loop over [Object.keys(info)], started on the keys of [post]
    with the fields of [pre] already visited. *)
Lemma mask_loop :
  forall (post pre : Info),
    List.NoDup (keys (pre ++ post)) ->
    List.fold_left
      (fun acc key =>
         if negb (String.eqb key "message")
         then match get key acc with
              | Some (VString s) => set key (VString (mask s)) acc
              | _ => acc
              end
         else acc)
      (keys post) (pre ++ post)
    = pre ++ List.map (fun kv => if String.eqb (fst kv) "message" then kv
                                 else (fst kv, mask_value (snd kv))) post.
Proof.
  induction post as [|[k v] post IH]; intros pre Hnd; [reflexivity|].
  assert (Hfresh : ~ List.In k (keys pre)).
  { unfold keys in *. rewrite List.map_app in Hnd. cbn in Hnd.
    apply List.NoDup_remove_2 in Hnd. intros Hin. apply Hnd.
    apply List.in_or_app. left. exact Hin. }
  assert (Hnext : forall w, List.NoDup (keys ((pre ++ [(k, w)]) ++ post))).
  { intros w. unfold keys in *. rewrite <- List.app_assoc.
    rewrite List.map_app in *. exact Hnd. }
  change (keys ((k, v) :: post)) with (k :: keys post).
  cbn [List.fold_left].
  assert (Hshape : forall w, pre ++ (k, w) :: post = (pre ++ [(k, w)]) ++ post).
  { intros w. rewrite <- List.app_assoc. reflexivity. }
  cbn [List.map fst snd].
  destruct (String.eqb k "message") eqn:Hmsg; cbn [negb].
  - rewrite (Hshape v). rewrite (IH _ (Hnext v)).
    rewrite <- List.app_assoc. reflexivity.
  - rewrite (get_app_fresh k pre _ Hfresh). cbn [get]. rewrite String.eqb_refl.
    destruct v as [s|z|b|]; cbn [mask_value];
      try (rewrite (Hshape _), (IH _ (Hnext _)), <- List.app_assoc; reflexivity).
    rewrite (set_app_fresh k _ pre _ Hfresh). cbn [set]. rewrite String.eqb_refl.
    rewrite (Hshape (VString (mask s))), (IH _ (Hnext _)), <- List.app_assoc.
    reflexivity.
Qed.

Lemma mask_message :
  forall info : Info,
    List.NoDup (keys info) ->
    match get "message" info with
    | Some (VString m) => set "message" (VString (mask m)) info
    | _ => info
    end
    = List.map (fun kv => if String.eqb (fst kv) "message"
                          then (fst kv, mask_value (snd kv)) else kv) info.
Proof.
  induction info as [|[k v] info IH]; intros Hnd; [reflexivity|].
  cbn [get set List.map fst snd].
  inversion Hnd as [|? ? Hk Hrest]; subst.
  destruct (String.eqb_spec k "message") as [E|E].
  - subst k.
    assert (Hid : List.map (fun kv => if String.eqb (fst kv) "message"
                                      then (fst kv, mask_value (snd kv)) else kv)
                           info = info).
    { clear IH Hnd Hrest. induction info as [|[k' v'] info IHi]; [reflexivity|].
      cbn. destruct (String.eqb_spec k' "message") as [E'|E'].
      - exfalso. apply Hk. left. exact E'.
      - f_equal. apply IHi. intros Hin. apply Hk. right. exact Hin. }
    rewrite Hid. destruct v; reflexivity.
  - specialize (IH Hrest).
    destruct (get "message" info) as [[m|z|b|]|]; rewrite <- IH; reflexivity.
Qed.

(** On a record whose keys are distinct (as the properties of an object
    are), the format masks every string-valued field. *)
Lemma maskPhoneNumbers_all_fields :
  forall info : Info,
    List.NoDup (keys info) ->
    maskPhoneNumbers info
    = List.map (fun kv => (fst kv, mask_value (snd kv))) info.
Proof.
  intros info Hnd. unfold maskPhoneNumbers. cbv zeta.
  rewrite (mask_message info Hnd).
  set (info1 := List.map _ info).
  assert (Hkeys : keys info1 = keys info).
  { unfold info1, keys. rewrite List.map_map. apply List.map_ext.
    intros [k v]. cbn. destruct (String.eqb k "message"); reflexivity. }
  assert (Hnd1 : List.NoDup (keys ([] ++ info1))) by (change ([] ++ info1) with info1; rewrite Hkeys; exact Hnd).
  pose proof (mask_loop info1 [] Hnd1) as L. cbn [List.app] in L. rewrite L.
  unfold info1. rewrite List.map_map. apply List.map_ext.
  intros [k v]. cbn [fst snd].
  destruct (String.eqb k "message") eqn:E; cbn [fst snd]; rewrite E; reflexivity.
Qed.

(** Both transports of the logger apply the format; none of the handler
    transports does. *)
Lemma transports_mask :
  forall info : Info,
    List.Forall (fun t => transform t info = maskPhoneNumbers info)
                (transports logger)
    /\ List.Forall (fun t => transform t info = info)
                   (exceptionHandlers logger ++ rejectionHandlers logger).
Proof. intros info. split; repeat constructor. Qed.

(** ** Phone masking: what reaches the sinks *)

(** C5, evaluated on the code.  The transports of the exception and
    rejection handlers carry no format: the record of an uncaught
    exception or unhandled rejection is written as it is, the ten digits
    in the clear, to the console and to the exceptions and rejections
    files.  And on the two transports that do apply [maskPhoneNumbers],
    ten bare digits that follow a word character are not matched by
    [/\b\d{6}(\d{4})\b/]: the warning for the unknown user name
    [user_2125551234] is written unmasked to the console and to the
    application log file. *)
Theorem C5_phone_numbers_reach_sinks_unmasked :
  Logger.write Logger.logger Logger.UncaughtException Sample.crash
  = [ (Logger.Console, Sample.crash);
      (Logger.DailyRotateFile "exceptions-%DATE%.log", Sample.crash) ]
  /\ Logger.write Logger.logger Logger.UnhandledRejection Sample.crash
     = [ (Logger.Console, Sample.crash);
         (Logger.DailyRotateFile "rejections-%DATE%.log", Sample.crash) ]
  /\ Logger.mask (lit "user_2125551234") = lit "user_2125551234"
  /\ last_log (Auth.authorize Sample.rt
                 (login (lit "user_2125551234") (lit "password123"))
                 Sample.fresh)
     = (LWarn, lit "Login failed: user not found " ++ dash
               ++ lit " user_2125551234")
  /\ Logger.write Logger.logger Logger.Logged Sample.unknown_user_warning
     = [ (Logger.Console, Sample.unknown_user_warning);
         (Logger.DailyRotateFile "app-%DATE%.log", Sample.unknown_user_warning) ].
Proof. repeat split; vm_compute; reflexivity. Qed.

(** The same transports do mask the number when it stands alone. *)
Example logged_number_is_masked :
  Logger.write Logger.logger Logger.Logged
    [ ("level", VString (lit "info"));
      ("message", VString (lit "callback to (212) 555-1234 failed"));
      ("err", VString (lit "no answer from 212.555.1234"));
      ("elapsed", VNumber 12) ]
  = List.map
      (fun s => (s, [ ("level", VString (lit "info"));
                      ("message", VString (lit "callback to ***-***-1234 failed"));
                      ("err", VString (lit "no answer from ***-***-1234"));
                      ("elapsed", VNumber 12) ]))
      [ Logger.Console; Logger.DailyRotateFile "app-%DATE%.log" ].
Proof. vm_compute. reflexivity. Qed.

(** ** Session options *)

(** The session is a JWT whose lifetime NextAuth is told to be eight
    hours, in seconds; the middleware guards the two pages. *)
Lemma session_options :
  Auth.strategy (Auth.session Auth.authOptions) = "jwt"
  /\ Auth.maxAge (Auth.session Auth.authOptions) = (8 * 3600)%Z
  /\ Auth.matcher = ["/dnc-lookup"; "/dnc-history"].
Proof. repeat split. Qed.

(* ================================================================== *)
(** * Further properties                                               *)
(* ================================================================== *)

Import Further.

(** ** The mask of lib/logger.ts on short texts and on log lines *)

Lemma digits_length_cons :
  forall (x : N) (s : jsstring),
    (List.length (digits s) <= List.length (digits (x :: s)))%nat.
Proof.
  intros x s. unfold digits. cbn. destruct (is_digit x); cbn; lia.
Qed.

(** A match consumes at least as many digits as the pattern has items
    that accept digits only. *)
Lemma match_needs_digits :
  forall (pat : Pattern) (marks : list bool),
    digit_items pat marks ->
    forall (prev : option N) (s : jsstring) (ing : bool) (grp : list N)
           (n : nat) (r : jsstring * nat),
      match_here pat prev s ing grp n = Some r ->
      (demand marks <= List.length (digits s))%nat.
Proof.
  induction pat as [|it pat IH]; intros marks Hm prev s ing grp n r Hr.
  - destruct marks; [cbn; lia|contradiction].
  - destruct marks as [|m marks]; [contradiction|].
    destruct Hm as [Hit Hrest]. specialize (IH marks Hrest).
    assert (Hweak : forall s',
               (demand marks <= List.length (digits s'))%nat ->
               m = false ->
               (demand (m :: marks) <= List.length (digits s'))%nat).
    { intros s' H ->. exact H. }
    destruct it as [cls|cls| | |].
    + destruct s as [|x s]; [discriminate Hr|]. cbn in Hr.
      destruct (cls x) eqn:Hc; [|discriminate Hr].
      apply IH in Hr.
      destruct m.
      * destruct (Hit eq_refl) as (cls' & E & Hd). injection E as <-.
        unfold demand, digits in *. cbn. rewrite (Hd x Hc). cbn. lia.
      * apply Hweak; [|reflexivity].
        pose proof (digits_length_cons x s). lia.
    + assert (m = false) as ->.
      { destruct m; [|reflexivity].
        destruct (Hit eq_refl) as (cls' & E & _). discriminate E. }
      change (demand (false :: marks)) with (demand marks).
      revert prev ing grp n r Hr.
      induction s as [|x s IHs]; intros prev ing grp n r Hr.
      * cbn in Hr. apply IH in Hr. exact Hr.
      * cbn [match_here] in Hr. destruct (cls x).
        -- match type of Hr with
           | match ?m with _ => _ end = _ => destruct m as [r'|] eqn:Hm
           end.
           ++ apply IHs in Hm. pose proof (digits_length_cons x s). lia.
           ++ apply IH in Hr. exact Hr.
        -- apply IH in Hr. exact Hr.
    + assert (m = false) as ->.
      { destruct m; [|reflexivity].
        destruct (Hit eq_refl) as (cls' & E & _). discriminate E. }
      cbn [match_here] in Hr. destruct (xorb _ _); [|discriminate Hr].
      apply IH in Hr. exact Hr.
    + assert (m = false) as ->.
      { destruct m; [|reflexivity].
        destruct (Hit eq_refl) as (cls' & E & _). discriminate E. }
      cbn [match_here] in Hr. apply IH in Hr. exact Hr.
    + assert (m = false) as ->.
      { destruct m; [|reflexivity].
        destruct (Hit eq_refl) as (cls' & E & _). discriminate E. }
      cbn [match_here] in Hr. apply IH in Hr. exact Hr.
Qed.

(** A text with fewer digits than the pattern needs is left as it is. *)
Lemma replace_needs_digits :
  forall (pat : Pattern) (marks : list bool) (repl : jsstring -> jsstring),
    digit_items pat marks ->
    forall (s : jsstring) (prev : option N),
      (List.length (digits s) < demand marks)%nat ->
      replace_from pat repl prev s 0 = s.
Proof.
  intros pat marks repl Hm.
  assert (E : forall prev s,
             (List.length (digits s) < demand marks)%nat ->
             exec pat prev s = None).
  { intros prev s Hs. unfold exec.
    destruct (match_here pat prev s false [] 0) as [r|] eqn:Hr; [|reflexivity].
    apply (match_needs_digits pat marks Hm) in Hr. lia. }
  induction s as [|x s IH]; intros prev Hs.
  - cbn. rewrite (E prev [] Hs). reflexivity.
  - cbn [replace_from]. rewrite (E prev (x :: s) Hs). f_equal.
    apply IH. pose proof (digits_length_cons x s). lia.
Qed.

Lemma patterns_need_ten_digits :
  digit_items re_formatted
    [false; true; true; true; false; false; true; true; true; false;
     false; true; true; true; true; false]
  /\ digit_items re_separated
       [true; true; true; false; true; true; true; false;
        false; true; true; true; true; false]
  /\ digit_items re_raw
       [false; true; true; true; true; true; true;
        false; true; true; true; true; false; false].
Proof.
  repeat split; try discriminate;
    intros _; eexists; (split; [reflexivity|auto]).
Qed.

(** X2.  A text that holds fewer than ten digit characters in total
    goes through [mask] unchanged. *)
Theorem mask_leaves_short_text :
  forall s : jsstring,
    (List.length (digits s) < 10)%nat -> mask s = s.
Proof.
  intros s Hs. destruct patterns_need_ten_digits as (F & S & R).
  unfold mask, replace_all.
  rewrite (replace_needs_digits _ _ stars F s None) by exact Hs.
  rewrite (replace_needs_digits _ _ stars S s None) by exact Hs.
  apply (replace_needs_digits _ _ stars R s None). exact Hs.
Qed.

(** The theorem on a line with a date and a row count, nine digits in
    all. *)
Lemma mask_leaves_short_text_witness :
  mask (lit "2024-01-15: 3 row(s)") = lit "2024-01-15: 3 row(s)".
Proof.
  apply mask_leaves_short_text. vm_compute. lia.
Defined.

(** Masking a template with digits placed in it. *)
Lemma mask_template :
  forall (ds : list N) (t masked : jsstring),
    List.Forall (fun x => is_digit x = true) ds ->
    mask t = masked ->
    mask (List.map (place ds) t) = List.map (place ds) masked.
Proof. intros ds t masked Hds <-. apply mask_place. exact Hds. Qed.

(** ** Scanning a line *)

Lemma replace_from_skip :
  forall (pat : Pattern) (repl : jsstring -> jsstring) (m R : jsstring)
         (prev : option N),
    replace_from pat repl prev (m ++ R) (List.length m)
    = replace_from pat repl (prev_after prev m) R 0.
Proof.
  induction m as [|x m IH]; intros R prev; [reflexivity|].
  cbn. apply IH.
Qed.

Lemma replace_from_match :
  forall (pat : Pattern) (repl : jsstring -> jsstring) (x : N)
         (m R g : jsstring) (prev : option N),
    exec pat prev (x :: m ++ R) = Some (g, S (List.length m)) ->
    replace_from pat repl prev ((x :: m) ++ R) 0
    = repl g ++ replace_from pat repl (prev_after prev (x :: m)) R 0.
Proof.
  intros pat repl x m R g prev H.
  cbn [List.app replace_from]. rewrite H. f_equal.
  exact (replace_from_skip pat repl m R (Some x)).
Qed.

Lemma replace_from_unmatched :
  forall (pat : Pattern) (repl : jsstring -> jsstring) (P R : jsstring)
         (prev : option N),
    unmatched pat P R ->
    replace_from pat repl prev (P ++ R) 0
    = P ++ replace_from pat repl (prev_after prev P) R 0.
Proof.
  induction P as [|x P IH]; intros R prev H; [reflexivity|].
  destruct H as [Hx HP].
  cbn [List.app replace_from]. rewrite Hx. f_equal.
  exact (IH R (Some x) HP).
Qed.

(** ** The classes of a separator and of a space *)

Lemma sep_classes :
  forall x : N,
    is_sep x = true ->
    is_digit x = false /\ is_char 40 x = false /\ is_char 41 x = false.
Proof.
  intros x H. repeat split.
  - destruct (is_digit x) eqn:E; [|reflexivity].
    destruct (digit_classes x E) as (_ & _ & S & _). congruence.
  - unfold is_char. destruct (N.eqb_spec x 40) as [->|]; [|reflexivity].
    discriminate H.
  - unfold is_char. destruct (N.eqb_spec x 41) as [->|]; [|reflexivity].
    discriminate H.
Qed.

Lemma space_classes :
  forall x : N, is_space x = true -> is_digit x = false.
Proof.
  intros x H. destruct (is_digit x) eqn:E; [|reflexivity].
  destruct (digit_classes x E) as (_ & S & _). congruence.
Qed.

Lemma not_digit_false :
  forall x : N, not_digit x = true -> is_digit x = false.
Proof. intros x H. unfold not_digit in H. destruct (is_digit x); [discriminate H|reflexivity]. Qed.

(** Bring what is known of the classes of each code unit into the
    context. *)
Ltac classes :=
  repeat match goal with
         | H : not_digit ?x = true |- _ => apply not_digit_false in H
         | H : is_digit ?x = true |- _ =>
             lazymatch goal with
             | _ : is_word x = true |- _ => fail
             | _ => destruct (digit_classes x H) as (? & ? & ? & ? & ? & ?)
             end
         | H : is_sep ?x = true |- _ =>
             lazymatch goal with
             | _ : is_char 41 x = false |- _ => fail
             | _ => destruct (sep_classes x H) as (? & ? & ?)
             end
         | H : is_space ?x = true |- _ =>
             lazymatch goal with
             | _ : is_digit x = false |- _ => fail
             | _ => pose proof (space_classes x H)
             end
         end.

Ltac known :=
  repeat match goal with
         | |- context [is_digit (N.pos ?p)] =>
             let v := eval vm_compute in (is_digit (N.pos p)) in
             change (is_digit (N.pos p)) with v
         | |- context [is_sep (N.pos ?p)] =>
             let v := eval vm_compute in (is_sep (N.pos p)) in
             change (is_sep (N.pos p)) with v
         | |- context [is_space (N.pos ?p)] =>
             let v := eval vm_compute in (is_space (N.pos p)) in
             change (is_space (N.pos p)) with v
         | |- context [is_word (N.pos ?p)] =>
             let v := eval vm_compute in (is_word (N.pos p)) in
             change (is_word (N.pos p)) with v
         | |- context [is_char ?k (N.pos ?p)] =>
             let v := eval vm_compute in (is_char k (N.pos p)) in
             change (is_char k (N.pos p)) with v
         | H : word_at ?x = _ |- context [word_at ?x] => rewrite H
         | H : is_digit ?x = _ |- context [is_digit ?x] => rewrite H
         | H : is_sep ?x = _ |- context [is_sep ?x] => rewrite H
         | H : is_space ?x = _ |- context [is_space ?x] => rewrite H
         | H : is_word ?x = _ |- context [is_word ?x] => rewrite H
         | H : is_char ?k ?x = _ |- context [is_char ?k ?x] => rewrite H
         end.

(** Evaluate a match on a text whose code units are known by their
    classes. *)
Ltac reduce :=
  repeat (progress
            (known;
             cbn [match_here word_at List.hd_error xorb negb List.rev List.app];
             known)).

Ltac evaluate :=
  unfold exec, re_formatted, re_separated, re_raw, times;
  cbn [List.repeat List.app];
  reduce;
  repeat (match goal with
          | |- (if ?c then _ else _) = _ => destruct c eqn:?
          end; reduce);
  try reflexivity.

(** Name the ten digits of a number. *)
Ltac ten_named Hd :=
  cbn [List.forallb] in Hd;
  repeat (apply andb_true_iff in Hd; let H := fresh "Hd" in destruct Hd as [H Hd]).

Ltac gap_cases R HR :=
  let x := fresh "x" in
  let y := fresh "y" in
  destruct R as [|x [|y R]]; cbn [gap] in HR;
  try (apply andb_true_iff in HR; destruct HR as [? ?]).

(** ** The three patterns on the parts of a line *)

Lemma formatted_needs_parenthesis :
  forall P R : jsstring,
    List.forallb (fun x => negb (is_char 40 x)) P = true ->
    unmatched re_formatted P R.
Proof.
  induction P as [|x P IH]; intros R H; [exact I|].
  cbn [List.forallb] in H. apply andb_true_iff in H. destruct H as [Hx HP].
  apply negb_true_iff in Hx.
  split; [|apply IH; exact HP].
  intros prev. evaluate.
Qed.

Lemma formatted_on_text :
  forall c R : jsstring,
    List.forallb not_digit c = true ->
    (forall prev, exec re_formatted prev (40 :: R) = None) ->
    unmatched re_formatted c R.
Proof.
  induction c as [|x c IH]; intros R H HR; [exact I|].
  cbn [List.forallb] in H. apply andb_true_iff in H. destruct H as [Hx Hc].
  split; [|apply IH; assumption].
  intros prev.
  destruct (is_char 40 x) eqn:E; [|evaluate].
  unfold is_char in E. apply N.eqb_eq in E. subst x.
  destruct c as [|y c]; [apply HR|].
  cbn [List.forallb] in Hc. apply andb_true_iff in Hc. destruct Hc as [Hy _].
  classes. evaluate.
Qed.

Lemma separated_on_text :
  forall c R : jsstring,
    List.forallb not_digit c = true -> unmatched re_separated c R.
Proof.
  induction c as [|x c IH]; intros R H; [exact I|].
  cbn [List.forallb] in H. apply andb_true_iff in H. destruct H as [Hx Hc].
  split; [|apply IH; assumption].
  intros prev. classes. evaluate.
Qed.

Lemma raw_on_text :
  forall c R : jsstring,
    List.forallb not_digit c = true -> unmatched re_raw c R.
Proof.
  induction c as [|x c IH]; intros R H; [exact I|].
  cbn [List.forallb] in H. apply andb_true_iff in H. destruct H as [Hx Hc].
  split; [|apply IH; assumption].
  intros prev. classes. evaluate.
Qed.

Lemma separated_on_bare :
  forall a b c d e f g h i j R,
    List.forallb is_digit [a; b; c; d; e; f; g; h; i; j] = true ->
    gap R = true ->
    unmatched re_separated [a; b; c; d; e; f; g; h; i; j] R.
Proof.
  intros a b c d e f g h i j R Hd HR. ten_named Hd. gap_cases R HR;
    classes; cbn [unmatched]; repeat split; intros prev; evaluate.
Qed.

Lemma separated_on_stars :
  forall g h i j R,
    List.forallb is_digit [g; h; i; j] = true ->
    gap R = true ->
    unmatched re_separated (stars [g; h; i; j]) R.
Proof.
  intros g h i j R Hd HR. ten_named Hd.
  change (stars [g; h; i; j])
    with [42; 42; 42; 45; 42; 42; 42; 45; g; h; i; j].
  gap_cases R HR;
    classes; cbn [unmatched]; repeat split; intros prev; evaluate.
Qed.

Lemma raw_on_stars :
  forall g h i j R,
    List.forallb is_digit [g; h; i; j] = true ->
    gap R = true ->
    unmatched re_raw (stars [g; h; i; j]) R.
Proof.
  intros g h i j R Hd HR. ten_named Hd.
  change (stars [g; h; i; j])
    with [42; 42; 42; 45; 42; 42; 42; 45; g; h; i; j].
  gap_cases R HR;
    classes; cbn [unmatched]; repeat split; intros prev; evaluate.
Qed.

Lemma one_step :
  forall (cls : N -> bool) (pat : Pattern) (prev : option N) (x : N)
         (s : jsstring) (ing : bool) (grp : list N) (n : nat),
    cls x = true ->
    match_here (One cls :: pat) prev (x :: s) ing grp n
    = match_here pat (Some x) s ing (if ing then x :: grp else grp) (S n).
Proof. intros cls pat prev x s ing grp n H. cbn [match_here]. rewrite H. reflexivity. Qed.

(** The star over white space takes all of it when what follows is no
    white space and the rest of the pattern matches there. *)
Lemma many_spaces :
  forall (pat : Pattern) (ws : jsstring) (d : N) (s : jsstring)
         (prev : option N) (grp : list N) (n : nat) (r : jsstring * nat),
    List.forallb is_space ws = true ->
    is_space d = false ->
    match_here pat (prev_after prev ws) (d :: s) false grp
               (List.length ws + n) = Some r ->
    match_here (Many is_space :: pat) prev (ws ++ d :: s) false grp n = Some r.
Proof.
  intros pat ws d s.
  induction ws as [|x ws IH]; intros prev grp n r Hws Hd H.
  - cbn [match_here List.app]. rewrite Hd. exact H.
  - cbn [List.forallb] in Hws. apply andb_true_iff in Hws.
    destruct Hws as [Hx Hws].
    specialize (IH (Some x) grp (S n) r Hws Hd).
    cbn [match_here] in IH. cbn [match_here List.app]. rewrite Hx.
    rewrite IH; [reflexivity|].
    cbn [List.length] in H. rewrite Nat.add_succ_r. exact H.
Qed.

Lemma formatted_matches :
  forall a b c d e f g h i j ws R prev,
    List.forallb is_digit [a; b; c; d; e; f; g; h; i; j] = true ->
    List.forallb is_space ws = true ->
    exec re_formatted prev
         (40 :: ([a; b; c; 41] ++ ws ++ [d; e; f; 45; g; h; i; j]) ++ R)
    = Some ([g; h; i; j],
            S (List.length ([a; b; c; 41] ++ ws ++ [d; e; f; 45; g; h; i; j]))).
Proof.
  intros a b c d e f g h i j ws R prev Hd Hws. ten_named Hd. classes.
  cbn [List.app]. rewrite <- List.app_assoc. cbn [List.app].
  unfold exec, re_formatted, times. cbn [List.repeat List.app].
  do 5 (rewrite one_step by (assumption || reflexivity)).
  apply many_spaces; [exact Hws|assumption|].
  cbn [match_here]. known. cbn [List.rev List.app].
  cbn [List.length]. rewrite List.length_app. cbn [List.length].
  do 2 f_equal. lia.
Qed.

Lemma separated_matches :
  forall a b c d e f g h i j s1 s2 R prev,
    List.forallb is_digit [a; b; c; d; e; f; g; h; i; j] = true ->
    is_sep s1 = true -> is_sep s2 = true ->
    exec re_separated prev
         (a :: [b; c; s1; d; e; f; s2; g; h; i; j] ++ R)
    = Some ([g; h; i; j], 12%nat).
Proof.
  intros a b c d e f g h i j s1 s2 R prev Hd H1 H2. ten_named Hd. classes.
  evaluate.
Qed.

Lemma raw_matches :
  forall a b c d e f g h i j R prev,
    List.forallb is_digit [a; b; c; d; e; f; g; h; i; j] = true ->
    word_at prev = false -> word_at (List.hd_error R) = false ->
    exec re_raw prev (a :: [b; c; d; e; f; g; h; i; j] ++ R)
    = Some ([g; h; i; j], 10%nat).
Proof.
  intros a b c d e f g h i j R prev Hd Hp Hn. ten_named Hd. classes.
  evaluate.
Qed.

(** ** One replacement on a line *)

Lemma line_ext :
  forall (f g : Entry -> jsstring) (es : list Entry) (tail : jsstring),
    (forall e, f e = g e) -> line f es tail = line g es tail.
Proof.
  intros f g es tail H. induction es as [|e es IH]; [reflexivity|].
  cbn [line]. rewrite H, IH. reflexivity.
Qed.

Lemma sound_number :
  forall e : Entry,
    sound e = true ->
    exists a b c d e' f g h i j,
      number e = [a; b; c; d; e'; f; g; h; i; j]
      /\ List.forallb is_digit [a; b; c; d; e'; f; g; h; i; j] = true
      /\ well_written (form e) = true.
Proof.
  intros [t w ds] H. unfold sound in H. cbn [number form] in *.
  apply andb_true_iff in H. destruct H as [H Hw].
  apply andb_true_iff in H. destruct H as [Hl Hd].
  apply Nat.eqb_eq in Hl.
  do 10 (destruct ds as [|? ds]; [discriminate Hl|]).
  destruct ds; [|discriminate Hl].
  repeat eexists; [exact Hd|exact Hw].
Qed.

(** Unfold an entry into its text, its form and its ten digits. *)
Ltac entry e He :=
  let Hn := fresh "Hn" in
  let Hd := fresh "Hd" in
  let Hw := fresh "Hw" in
  destruct (sound_number e He) as (a & b & c & d & e' & f & g & h & i & j
                                   & Hn & Hd & Hw);
  destruct e as [t w ds]; cbn [number form before] in *; subst ds;
  destruct w as [|ws|s1 s2]; cbn [well_written] in Hw;
  unfold shown, as_written, as_masked;
  cbn [pass_of form number before Nat.leb written List.firstn List.skipn].

Lemma formatted_not_before :
  forall (e : Entry) (R : jsstring) (prev : option N),
    sound e = true ->
    exec re_formatted prev (40 :: shown 0 e ++ R) = None.
Proof.
  intros e R prev He. entry e He; ten_named Hd.
  - classes. evaluate.
  - evaluate.
  - apply andb_true_iff in Hw. destruct Hw as [H1 H2]. classes. evaluate.
Qed.

Lemma formatted_piece :
  forall (e : Entry) (R : jsstring) (prev : option N),
    sound e = true ->
    replace_from re_formatted stars prev (shown 0 e ++ R) 0
    = shown 1 e
      ++ replace_from re_formatted stars (prev_after prev (shown 0 e)) R 0.
Proof.
  intros e R prev He. entry e He.
  - apply replace_from_unmatched. apply formatted_needs_parenthesis.
    ten_named Hd. classes. cbn [List.forallb]. known. reflexivity.
  - exact (replace_from_match re_formatted stars 40 _ R [g; h; i; j] prev
             (formatted_matches a b c d e' f g h i j ws R prev Hd Hw)).
  - apply replace_from_unmatched. apply formatted_needs_parenthesis.
    apply andb_true_iff in Hw. destruct Hw as [H1 H2].
    ten_named Hd. classes. cbn [List.forallb List.app]. known. reflexivity.
Qed.

Lemma separated_piece :
  forall (e : Entry) (R : jsstring) (prev : option N),
    sound e = true -> gap R = true ->
    replace_from re_separated stars prev (shown 1 e ++ R) 0
    = shown 2 e
      ++ replace_from re_separated stars (prev_after prev (shown 1 e)) R 0.
Proof.
  intros e R prev He HR. entry e He.
  - apply replace_from_unmatched. apply separated_on_bare; assumption.
  - apply replace_from_unmatched. apply separated_on_stars; [|assumption].
    ten_named Hd. cbn [List.forallb]. known. reflexivity.
  - apply andb_true_iff in Hw. destruct Hw as [H1 H2].
    exact (replace_from_match re_separated stars a _ R [g; h; i; j] prev
             (separated_matches a b c d e' f g h i j s1 s2 R prev Hd H1 H2)).
Qed.

Lemma raw_piece :
  forall (e : Entry) (R : jsstring) (prev : option N),
    sound e = true -> gap R = true ->
    (form e = Bare ->
     word_at prev = false /\ word_at (List.hd_error R) = false) ->
    replace_from re_raw stars prev (shown 2 e ++ R) 0
    = shown 3 e
      ++ replace_from re_raw stars (prev_after prev (shown 2 e)) R 0.
Proof.
  intros e R prev He HR Hb. entry e He.
  - destruct (Hb eq_refl) as [Hp Hn].
    exact (replace_from_match re_raw stars a _ R [g; h; i; j] prev
             (raw_matches a b c d e' f g h i j R prev Hd Hp Hn)).
  - apply replace_from_unmatched. apply raw_on_stars; [|assumption].
    ten_named Hd. cbn [List.forallb]. known. reflexivity.
  - apply replace_from_unmatched. apply raw_on_stars; [|assumption].
    ten_named Hd. cbn [List.forallb]. known. reflexivity.
Qed.

(** ** The three replacements on a line *)

Lemma gap_text :
  forall t : jsstring, List.forallb not_digit t = true -> gap t = true.
Proof.
  intros [|x [|y t]] H; cbn in *; [reflexivity| |].
  - rewrite andb_true_r in H. exact H.
  - apply andb_true_iff in H. destruct H as [Hx H].
    apply andb_true_iff in H. destruct H as [Hy _].
    rewrite Hx, Hy. reflexivity.
Qed.

(** What [placed] says of the first number of a line. *)
Lemma placed_cons :
  forall (show : Entry -> jsstring) (e : Entry) (es : list Entry)
         (tail : jsstring),
    placed (e :: es) tail = true ->
    List.forallb not_digit (before e) = true
    /\ sound e = true
    /\ (form e = Bare ->
        word_at (last_of (before e)) = false
        /\ word_at (List.hd_error (line show es tail)) = false)
    /\ gap (line show es tail) = true
    /\ match es with [] => True | e' :: _ => before e' <> [] end
    /\ placed es tail = true.
Proof.
  intros show e es tail H. cbn [placed] in H.
  repeat (apply andb_true_iff in H; let K := fresh "K" in destruct H as [H K]).
  assert (Hgap : gap (line show es tail) = true
                 /\ match es with [] => True | e' :: _ => before e' <> [] end
                 /\ List.hd_error (line show es tail)
                    = List.hd_error
                        match es with [] => tail | e' :: _ => before e' end).
  { destruct es as [|e' es'].
    - cbn [line placed] in *. split; [apply gap_text; exact K|].
      split; [exact I|reflexivity].
    - cbn [line]. cbn [placed] in K.
      repeat (apply andb_true_iff in K; let L := fresh "L" in destruct K as [K L]).
      destruct (before e') as [|x [|y t]]; [discriminate K0|discriminate K0|].
      cbn [List.forallb] in K.
      apply andb_true_iff in K. destruct K as [Hx K].
      apply andb_true_iff in K. destruct K as [Hy _].
      cbn [List.app gap]. rewrite Hx, Hy.
      split; [reflexivity|]. split; [discriminate|reflexivity]. }
  destruct Hgap as (Hg & Hne & Hhd).
  split; [exact H|]. split; [exact K2|].
  split; [|split; [exact Hg|split; [exact Hne|exact K]]].
  intros Hf. rewrite Hf in K1. rewrite Hhd.
  apply andb_true_iff in K1. destruct K1 as [Hl Hn].
  apply negb_true_iff in Hl, Hn. split; assumption.
Qed.

Lemma at_end :
  forall (pat : Pattern) (prev : option N),
    pat = re_formatted \/ pat = re_separated \/ pat = re_raw ->
    exec pat prev [] = None.
Proof.
  intros pat prev [E|[E|E]]; subst pat; evaluate.
Qed.

Lemma pass_formatted :
  forall (tail : jsstring) (es : list Entry) (prev : option N),
    placed es tail = true ->
    replace_from re_formatted stars prev (line (shown 0) es tail) 0
    = line (shown 1) es tail.
Proof.
  intros tail. induction es as [|e es IH]; intros prev H.
  - cbn [line placed] in *. rewrite <- (List.app_nil_r tail) at 1.
    rewrite replace_from_unmatched
      by (apply formatted_on_text; [exact H|intros p; evaluate]).
    cbn [replace_from]. rewrite at_end by auto.
    apply List.app_nil_r.
  - destruct (placed_cons (shown 0) e es tail H)
      as (Ht & He & _ & _ & _ & Hes).
    cbn [line].
    rewrite replace_from_unmatched
      by (apply formatted_on_text;
          [exact Ht|intros p; apply formatted_not_before; exact He]).
    f_equal. rewrite (formatted_piece e _ _ He). f_equal.
    apply IH. exact Hes.
Qed.

Lemma pass_separated :
  forall (tail : jsstring) (es : list Entry) (prev : option N),
    placed es tail = true ->
    replace_from re_separated stars prev (line (shown 1) es tail) 0
    = line (shown 2) es tail.
Proof.
  intros tail. induction es as [|e es IH]; intros prev H.
  - cbn [line placed] in *. rewrite <- (List.app_nil_r tail) at 1.
    rewrite replace_from_unmatched by (apply separated_on_text; exact H).
    cbn [replace_from]. rewrite at_end by auto.
    apply List.app_nil_r.
  - destruct (placed_cons (shown 1) e es tail H)
      as (Ht & He & _ & Hg & _ & Hes).
    cbn [line].
    rewrite replace_from_unmatched by (apply separated_on_text; exact Ht).
    f_equal. rewrite (separated_piece e _ _ He Hg). f_equal.
    apply IH. exact Hes.
Qed.

Lemma prev_after_text :
  forall (t : jsstring) (prev : option N),
    t <> [] -> prev_after prev t = last_of t.
Proof. intros [|x t] prev H; [contradiction|reflexivity]. Qed.

Lemma pass_raw :
  forall (tail : jsstring) (es : list Entry) (prev : option N),
    placed es tail = true ->
    match es with
    | e :: _ => before e = [] -> word_at prev = false
    | [] => True
    end ->
    replace_from re_raw stars prev (line (shown 2) es tail) 0
    = line (shown 3) es tail.
Proof.
  intros tail. induction es as [|e es IH]; intros prev H Hp.
  - cbn [line placed] in *. rewrite <- (List.app_nil_r tail) at 1.
    rewrite replace_from_unmatched by (apply raw_on_text; exact H).
    cbn [replace_from]. rewrite at_end by auto.
    apply List.app_nil_r.
  - destruct (placed_cons (shown 2) e es tail H)
      as (Ht & He & Hb & Hg & Hne & Hes).
    cbn [line].
    rewrite replace_from_unmatched by (apply raw_on_text; exact Ht).
    f_equal. rewrite (raw_piece e _ _ He Hg).
    + f_equal. apply IH; [exact Hes|].
      destruct es as [|e2 es]; [exact I|]. intros E. contradiction.
    + intros Hf. destruct (Hb Hf) as [Hl Hn]. split; [|exact Hn].
      destruct (before e) as [|x t] eqn:E; [apply Hp; reflexivity|].
      exact Hl.
Qed.

(** X1.  [mask] stars every telephone number of a log line.  The line
    is any text without digits in which 10-digit numbers stand, each
    written bare ([2125551234]), with the area code in parentheses and
    any white space after them ([(212) 555-1234]), or with two
    separators, each a dash, a dot or a white-space character
    ([212-555-1234], [212.555 1234]); a bare number has no word
    character next to it, and two numbers are at least two code units
    apart.  The result is the same line with every number replaced by
    ["***-***-"] and its last four digits, and the text around the
    numbers as it was. *)
Theorem mask_stars_every_number_of_a_line :
  forall (es : list Entry) (tail : jsstring),
    placed es tail = true ->
    mask (line as_written es tail) = line as_masked es tail.
Proof.
  intros es tail H. unfold mask, replace_all.
  rewrite (line_ext as_written (shown 0))
    by (intros e; unfold shown; destruct (form e); reflexivity).
  rewrite (pass_formatted tail es None H).
  rewrite (pass_separated tail es None H).
  rewrite (pass_raw tail es None H)
    by (destruct es; [exact I|reflexivity]).
  apply line_ext. intros e. unfold shown. destruct (form e); reflexivity.
Qed.

(** The theorem on a line with four numbers. *)
Lemma mask_line_witness :
  mask (lit "fax (2125551234) or (312) 555-0000, 415.555 9999; (415)555-9999!")
  = lit "fax (***-***-1234) or ***-***-0000, ***-***-9999; ***-***-9999!".
Proof.
  exact (mask_stars_every_number_of_a_line
           [ {| before := lit "fax ("; form := Bare;
                number := lit "2125551234" |};
             {| before := lit ") or "; form := Paren (lit " ");
                number := lit "3125550000" |};
             {| before := lit ", "; form := Separated 46 32;
                number := lit "4155559999" |};
             {| before := lit "; "; form := Paren [];
                number := lit "4155559999" |} ]
           (lit "!") eq_refl).
Defined.

(** X4.  The masked phone the two lookup handlers build by hand,
    ["***-***-"] and [rawPhone.slice(-4)], is what the logger's [mask]
    makes of the raw number, and [mask] leaves it as it is: the handlers'
    log lines show the same text whether or not the logger rewrites
    them. *)
Theorem maskedPhone_agrees_with_mask :
  forall rawPhone : jsstring,
    List.length rawPhone = 10%nat ->
    List.Forall (fun x => is_digit x = true) rawPhone ->
    maskedPhone_of rawPhone = mask rawPhone
    /\ mask (maskedPhone_of rawPhone) = maskedPhone_of rawPhone.
Proof.
  intros raw Hlen Hds.
  destruct raw as [|a [|b [|c [|d [|e [|f [|g [|h [|i [|j [|k raw]]]]]]]]]]];
    try discriminate Hlen.
  split.
  - symmetry.
    change [a; b; c; d; e; f; g; h; i; j]
      with (List.map (place [a; b; c; d; e; f; g; h; i; j]) (lit "0123456789")).
    rewrite (mask_template _ _ (lit "***-***-6789") Hds) by (vm_compute; reflexivity).
    reflexivity.
  - apply mask_leaves_short_text.
    unfold maskedPhone_of, digits.
    rewrite List.filter_app, List.length_app.
    replace (List.filter is_digit (lit "***-***-")) with (@nil N)
      by (vm_compute; reflexivity).
    change (slice_last 4 [a; b; c; d; e; f; g; h; i; j]) with [g; h; i; j].
    pose proof (List.filter_length_le is_digit [g; h; i; j]) as L.
    cbn [List.length] in *. lia.
Qed.

(** The theorem on 2125551234. *)
Lemma maskedPhone_agrees_witness :
  maskedPhone_of (lit "2125551234") = mask (lit "2125551234")
  /\ mask (maskedPhone_of (lit "2125551234")) = maskedPhone_of (lit "2125551234").
Proof.
  apply maskedPhone_agrees_with_mask.
  - reflexivity.
  - repeat constructor.
Defined.

(** ** What the two transports write *)

(** X3.  A record whose keys are distinct is written to the console and
    to the application log file as the same record: same keys in the
    same order, every string value masked, every other value as it
    was. *)
Theorem logged_record_is_masked_on_both_transports :
  forall info : Info,
    List.NoDup (keys info) ->
    write logger Logged info
    = [ (Console, List.map (fun kv => (fst kv, mask_value (snd kv))) info);
        (DailyRotateFile "app-%DATE%.log",
         List.map (fun kv => (fst kv, mask_value (snd kv))) info) ].
Proof.
  intros info Hnd. unfold write. cbn.
  unfold transform. cbn.
  rewrite (maskPhoneNumbers_all_fields info Hnd). reflexivity.
Qed.

(** The theorem on an error record with two metadata fields. *)
Lemma logged_record_witness :
  write logger Logged
    [ ("level", VString (lit "error"));
      ("message", VString (lit "lookup failed for 212-555-1234"));
      ("err", VString (lit "timeout calling 6465550000"));
      ("elapsed", VNumber 2125551234) ]
  = [ (Console,
       [ ("level", VString (lit "error"));
         ("message", VString (lit "lookup failed for ***-***-1234"));
         ("err", VString (lit "timeout calling ***-***-0000"));
         ("elapsed", VNumber 2125551234) ]);
      (DailyRotateFile "app-%DATE%.log",
       [ ("level", VString (lit "error"));
         ("message", VString (lit "lookup failed for ***-***-1234"));
         ("err", VString (lit "timeout calling ***-***-0000"));
         ("elapsed", VNumber 2125551234) ]) ].
Proof.
  rewrite logged_record_is_masked_on_both_transports.
  - vm_compute. reflexivity.
  - repeat constructor; cbn; intuition discriminate.
Defined.

(** ** lib/db.ts: configuration and the pool singleton *)

Lemma connections_snoc_getPool :
  forall tr : list Event, connections (tr ++ [EvGetPool]) = connections tr.
Proof.
  intros tr. unfold connections. rewrite List.flat_map_app. cbn.
  apply List.app_nil_r.
Qed.

(** X6.  The pool is a singleton: the pool a successful [getPool]
    returns is connected and stored, and the next call returns that same
    pool without opening a connection; it only records the call. *)
Theorem getPool_reuses_the_pool :
  forall (rt : Runtime) (st st1 : State) (pool : ConnectionPool),
    Db.getPool rt st = (inr pool, st1) ->
    connected pool = true
    /\ active_pool rt st1 = Some pool
    /\ exists st2 : State,
        Db.getPool rt st1 = (inr pool, st2)
        /\ trace st2 = trace st1 ++ [EvGetPool]
        /\ connections (trace st2) = connections (trace st1)
        /\ prodPool st2 = prodPool st1
        /\ globalPool st2 = globalPool st1.
Proof.
  intros rt st st1 pool H.
  assert (K : connected pool = true /\ active_pool rt st1 = Some pool).
  { revert H. unfold active_pool. run_getPool.
    destruct (Db.development (env rt));
      [destruct (globalPool st) as [p|] eqn:Hp
      |destruct (prodPool st) as [p|] eqn:Hp];
      try destruct (connected p) eqn:Hc;
      try (destruct (Db.buildConfig (env rt)) as [e|cfg]; cbn;
           [|destruct (sql_connect rt cfg)]);
      cbn; intros H; inversion H; subst; cbn; auto. }
  destruct K as [Hc Ha]. split; [exact Hc|]. split; [exact Ha|].
  unfold active_pool in Ha. run_getPool.
  destruct (Db.development (env rt)); rewrite Ha, Hc;
    eexists; (split; [reflexivity|]); cbn;
    rewrite connections_snoc_getPool; auto.
Qed.

(** The theorem on the first call of a fresh process. *)
Lemma getPool_reuse_witness :
  exists (pool : ConnectionPool) (st1 st2 : State),
    Db.getPool Sample.rt Sample.fresh = (inr pool, st1)
    /\ Db.getPool Sample.rt st1 = (inr pool, st2)
    /\ List.length (connections (trace st2)) = 1%nat.
Proof.
  destruct (Db.getPool Sample.rt Sample.fresh) as [[e|pool] st1] eqn:H.
  - vm_compute in H. discriminate H.
  - destruct (getPool_reuses_the_pool Sample.rt Sample.fresh st1 pool H)
      as (_ & _ & st2 & H2 & _ & Hconn & _).
    exists pool, st1, st2. split; [reflexivity|]. split; [exact H2|].
    rewrite Hconn. vm_compute in H. inversion H. reflexivity.
Defined.

(** X7.  The ["error"] listener of a pool logs the error; in production
    it also clears [_prodPool], so the next [getPool] opens a new
    connection instead of handing out the broken pool.  In development
    the listener leaves [global._mssqlPool] in place. *)
Theorem pool_error_forces_reconnect :
  forall (rt : Runtime) (st : State) (err : JsError),
    let st1 := snd (Db.on_pool_error rt err st) in
    error_logs (trace st1)
    = error_logs (trace st) ++ [[("err", VString (err_message err))]]
    /\ (Db.development (env rt) = true ->
        globalPool st1 = globalPool st /\ prodPool st1 = prodPool st)
    /\ (Db.development (env rt) = false ->
        prodPool st1 = None
        /\ forall cfg : Config,
            Db.buildConfig (env rt) = inr cfg ->
            sql_connect rt cfg = None ->
            exists st2 : State,
              Db.getPool rt st1
              = (inr {| connected := true; pool_config := cfg |}, st2)
              /\ connections (trace st2) = connections (trace st1) ++ [cfg]).
Proof.
  intros rt st err st1. subst st1.
  unfold Db.on_pool_error, logger_error, logger_log, bind, emit,
    set_prodPool, ret.
  destruct (Db.development (env rt)) eqn:Hdev; cbn.
  - split; [|split; [auto|discriminate]].
    unfold error_logs. rewrite List.flat_map_app. reflexivity.
  - split; [|split; [discriminate|]].
    + unfold error_logs. rewrite List.flat_map_app. reflexivity.
    + intros _. split; [reflexivity|].
      intros cfg Hcfg Hconn. run_getPool. rewrite Hdev. cbn.
      rewrite Hcfg. cbn. rewrite Hconn. cbn.
      eexists. split; [reflexivity|]. cbn.
      unfold connections. rewrite !List.flat_map_app. cbn.
      rewrite !List.app_nil_r. reflexivity.
Qed.

(** The theorem in production, after one request has created the pool. *)
Lemma pool_error_witness :
  prodPool (snd (Db.on_pool_error Sample.rt (Error (lit "ECONNRESET"))
                   (snd (Db.getPool Sample.rt Sample.fresh)))) = None.
Proof.
  apply (proj2 (proj2 (pool_error_forces_reconnect Sample.rt
                         (snd (Db.getPool Sample.rt Sample.fresh))
                         (Error (lit "ECONNRESET"))))).
  reflexivity.
Defined.

(** ** lib/auth.ts: [authorize] and the callbacks *)

Lemma pool_events_quiet :
  forall evs : list Event,
    List.Forall pool_event evs ->
    comparisons evs = 0%nat /\ hashings evs = 0%nat
    /\ statements evs = [] /\ error_logs evs = [] /\ executions evs = [].
Proof.
  induction evs as [|ev evs IH]; intros H; [repeat split|].
  inversion H as [|? ? Hev Hrest]; subst.
  destruct (IH Hrest) as (A & B & C & D & E).
  unfold comparisons, hashings, statements, error_logs, executions in *.
  destruct ev as [[| |] ? ?| | | | | | |]; cbn in Hev; try contradiction;
    cbn; auto.
Qed.

(** Every outcome of [getPool] appends pool events only and leaves
    table and clock alone. *)
Lemma getPool_steps :
  forall (rt : Runtime) (st st' : State) (r : JsError + ConnectionPool),
    Db.getPool rt st = (r, st') ->
    exists evs : list Event,
      trace st' = trace st ++ evs
      /\ List.Forall pool_event evs
      /\ users st' = users st /\ clock st' = clock st.
Proof.
  intros rt st st' r. run_getPool.
  destruct (Db.development (env rt));
    [destruct (globalPool st) as [p|] | destruct (prodPool st) as [p|]];
    try destruct (connected p);
    try (destruct (Db.buildConfig (env rt)) as [e|cfg]; cbn;
         [|destruct (sql_connect rt cfg)]);
    cbn; intros H; inversion H; subst; cbn;
    eexists; repeat rewrite <- List.app_assoc;
    (split; [reflexivity|]); repeat split; repeat constructor.
Qed.

Arguments Further.comparisons : simpl never.

Lemma comparisons_app :
  forall a b : list Event, comparisons (a ++ b) = (comparisons a + comparisons b)%nat.
Proof.
  intros a b. unfold comparisons. rewrite List.filter_app, List.length_app.
  reflexivity.
Qed.

(** What [authorize] returns and how often it calls bcrypt, when the
    database answers. *)
Lemma authorize_run :
  forall (rt : Runtime) (st : State) (u p : jsstring),
    u <> [] -> p <> [] ->
    pool_ready rt st = true -> sql_fault rt = None ->
    let run := Auth.authorize rt (login u p) st in
    fst run
    = inr (match user_named rt st u with
           | Some row =>
               if is_active row
               then match bcrypt_compare rt p (password_hash row) with
                    | inr true => Some (identity_of row)
                    | _ => None
                    end
               else None
           | None => None
           end)
    /\ comparisons (trace (snd run))
       = (comparisons (trace st)
          + match user_named rt st u with
            | Some row => if is_active row then 1 else 0
            | None => 0
            end)%nat.
Proof.
  intros rt st u p Hu Hp Hready Hfault. cbv zeta.
  unfold Auth.authorize, login.
  destruct u as [|u0 u']; [congruence|].
  destruct p as [|p0 p']; [congruence|].
  run.
  match goal with
  | |- context [Db.getPool rt ?st1] =>
      destruct (getPool_ready rt st1 Hready) as (pool & st2 & Hget & _);
      rewrite Hget;
      destruct (getPool_steps rt st1 st2 _ Hget) as (evs & Ht & Hev & Husers & _)
  end.
  cbn in Ht, Husers.
  destruct (pool_events_quiet evs Hev) as (Hcmp & _).
  unfold Db.query_user_by_username. run. rewrite Hfault. cbn.
  rewrite Husers. unfold user_named.
  destruct (List.hd_error _) as [row|]; cbn.
  - destruct (is_active row); cbn.
    + destruct (bcrypt_compare rt (p0 :: p') (password_hash row)) as [e|[|]];
        cbn; (split; [reflexivity|]); rewrite Ht;
        rewrite !comparisons_app, Hcmp; unfold comparisons; cbn; lia.
    + split; [reflexivity|]. rewrite Ht.
      rewrite !comparisons_app, Hcmp; unfold comparisons; cbn; lia.
  - split; [reflexivity|]. rewrite Ht.
    rewrite !comparisons_app, Hcmp; unfold comparisons; cbn; lia.
Qed.

(** X8.  When the database answers, [authorize] returns an identity
    exactly for the credentials of an active account: the first row whose
    user name equals the trimmed input is active and bcrypt accepts the
    password against its digest.  The identity is the row's id as a
    string, its user name and its e-mail address. *)
Theorem authorize_accepts_exactly_valid_credentials :
  forall (rt : Runtime) (st : State) (u p : jsstring) (who : Auth.Identity),
    u <> [] -> p <> [] ->
    pool_ready rt st = true -> sql_fault rt = None ->
    (fst (Auth.authorize rt (login u p) st) = inr (Some who)
     <-> exists row : User,
          user_named rt st u = Some row
          /\ is_active row = true
          /\ bcrypt_compare rt p (password_hash row) = inr true
          /\ who = identity_of row).
Proof.
  intros rt st u p who Hu Hp Hready Hfault.
  destruct (authorize_run rt st u p Hu Hp Hready Hfault) as [Hrun _].
  rewrite Hrun. split.
  - intros H. destruct (user_named rt st u) as [row|]; [|discriminate H].
    destruct (is_active row) eqn:Hactive; [|discriminate H].
    destruct (bcrypt_compare rt p (password_hash row)) as [e|[|]] eqn:Hcmp;
      try discriminate H.
    injection H as <-. exists row. auto.
  - intros (row & -> & -> & -> & ->). reflexivity.
Qed.

(** The theorem on [alice] with her password. *)
Lemma authorize_accepts_witness :
  fst (Auth.authorize Sample.rt (login (lit "alice") (lit "password123"))
                      Sample.fresh)
  = inr (Some (identity_of Sample.alice)).
Proof.
  apply (authorize_accepts_exactly_valid_credentials
           Sample.rt Sample.fresh (lit "alice") (lit "password123")).
  - discriminate.
  - discriminate.
  - reflexivity.
  - reflexivity.
  - exists Sample.alice. repeat split; vm_compute; reflexivity.
Defined.

(** X9.  [authorize] runs [bcrypt.compare] only after it has found an
    active account: once for an active row, whatever the password, and
    not at all for an unknown user name or an inactive account. *)
Theorem authorize_compares_only_for_active_accounts :
  forall (rt : Runtime) (st : State) (u p : jsstring),
    u <> [] -> p <> [] ->
    pool_ready rt st = true -> sql_fault rt = None ->
    comparisons (trace (snd (Auth.authorize rt (login u p) st)))
    = (comparisons (trace st)
       + match user_named rt st u with
         | Some row => if is_active row then 1 else 0
         | None => 0
         end)%nat.
Proof.
  intros rt st u p Hu Hp Hready Hfault.
  apply (authorize_run rt st u p Hu Hp Hready Hfault).
Qed.

(** The theorem on the unknown [mallory]: no comparison. *)
Lemma authorize_compares_witness :
  comparisons (trace (snd (Auth.authorize Sample.rt
                             (login (lit "mallory") (lit "password123"))
                             Sample.fresh)))
  = 0%nat.
Proof.
  rewrite (authorize_compares_only_for_active_accounts
             Sample.rt Sample.fresh (lit "mallory") (lit "password123"));
    try discriminate; reflexivity.
Defined.

(** X10.  [authorize] fails closed: when the pool cannot be had or the
    query fails, it returns [null] for every credentials, correct ones
    included, without calling bcrypt; with both fields present the error
    is what the last log line reports. *)
Theorem authorize_fails_closed :
  forall (rt : Runtime) (st : State) (credentials : option Auth.Credentials),
    pool_ready rt st = false \/ sql_fault rt <> None ->
    let run := Auth.authorize rt credentials st in
    fst run = inr None
    /\ comparisons (trace (snd run)) = comparisons (trace st)
    /\ (forall u p : jsstring,
           credentials = login u p -> u <> [] -> p <> [] ->
           last_log run = (LError, lit "Database error during authentication")).
Proof.
  intros rt st credentials Hdown. cbv zeta.
  unfold Auth.authorize, last_log.
  destruct credentials as [[[[|u0 u']|] [[|p0 p']|]]|];
    try (run; rewrite comparisons_app; unfold comparisons; cbn;
         repeat split; [lia|];
         intros u p E Hu Hp; unfold login in E; inversion E; subst;
         congruence).
  run.
  match goal with
  | |- context [Db.getPool rt ?st1] =>
      destruct (Db.getPool rt st1) as [[err|pool] st2] eqn:Hget;
      destruct (getPool_steps rt st1 st2 _ Hget) as (evs & Ht & Hev & _ & _)
  end; cbn in Ht; destruct (pool_events_quiet evs Hev) as (Hcmp & _).
  - cbn. rewrite Ht. rewrite !comparisons_app, Hcmp, logs_snoc.
    unfold comparisons. cbn.
    repeat split; [lia|]. intros. apply List.last_last.
  - destruct Hdown as [Hdown|Hdown].
    + match type of Hget with
      | Db.getPool rt ?st1 = _ =>
          destruct (getPool_not_ready rt st1 Hdown) as (e & st3 & Hn & _)
      end.
      congruence.
    + unfold Db.query_user_by_username. run.
      destruct (sql_fault rt) as [e|]; [|congruence]. cbn.
      rewrite Ht. rewrite !comparisons_app, Hcmp, logs_snoc.
      unfold comparisons. cbn.
      repeat split; [lia|]. intros. apply List.last_last.
Qed.

(** The theorem on [alice] with her password and no database variable
    set. *)
Lemma authorize_fails_closed_witness :
  fst (Auth.authorize (Sample.platform Sample.no_environment)
         (login (lit "alice") (lit "password123")) Sample.fresh)
  = inr None.
Proof.
  apply (authorize_fails_closed (Sample.platform Sample.no_environment)
           Sample.fresh (login (lit "alice") (lit "password123"))).
  left. reflexivity.
Defined.

Lemma of_Z_nonempty : forall z : Z, of_Z z <> [].
Proof.
  intros z. unfold of_Z, lit, NilZero.string_of_int.
  destruct (Z.to_int z) as [d|d].
  - unfold NilZero.string_of_uint. destruct d; discriminate.
  - discriminate.
Qed.

Lemma refreshed_same :
  forall (n : nat) (token : Callbacks.JWT), Callbacks.refreshed n token = token.
Proof. induction n as [|n IH]; intros token; [reflexivity|apply IH]. Qed.

(** X11.  After a sign-in that [authorize] accepted, the [jwt] callback
    stores the account's id in the token and the [session] callback hands
    it to the client as [session.user.id]: the decimal text of the row's
    id, also after any number of later [jwt] calls without a user.  The
    other fields of the session are left as they were. *)
Theorem session_exposes_the_account_id :
  forall (rt : Runtime) (st : State) (u p : jsstring) (who : Auth.Identity)
         (token : Callbacks.JWT) (s : Callbacks.ClientSession) (n : nat),
    fst (Auth.authorize rt (login u p) st) = inr (Some who) ->
    exists row : User,
      user_named rt st u = Some row
      /\ Callbacks.session s
           (Callbacks.refreshed n (Callbacks.jwt token (Some who)))
         = {| Callbacks.user :=
                {| Callbacks.user_id := Some (of_Z (id row));
                   Callbacks.user_name := Callbacks.user_name (Callbacks.user s);
                   Callbacks.user_email := Callbacks.user_email (Callbacks.user s) |};
              Callbacks.expires := Callbacks.expires s |}.
Proof.
  intros rt st u p who token s n H.
  destruct (authorize_sound rt st u p) as (r & Hr & Hsound).
  rewrite Hr in H. injection H as ->.
  destruct (Hsound who eq_refl) as (row & Hrow & _ & _ & ->).
  exists row. split; [exact Hrow|].
  rewrite refreshed_same. unfold Callbacks.jwt, Callbacks.session.
  cbn [Auth.identity_id].
  pose proof (of_Z_nonempty (id row)) as Hne.
  destruct (of_Z (id row)) as [|c cs] eqn:E; [congruence|].
  reflexivity.
Qed.

(** The theorem on [alice], whose row has id 1. *)
Lemma session_exposes_witness :
  exists row : User,
    user_named Sample.rt Sample.fresh (lit "alice") = Some row
    /\ Callbacks.session
         {| Callbacks.user := {| Callbacks.user_id := None;
                                 Callbacks.user_name := Some (lit "alice");
                                 Callbacks.user_email := Some (lit "alice@x.com") |};
            Callbacks.expires := lit "2026-01-01T08:00:00.000Z" |}
         (Callbacks.refreshed 3
            (Callbacks.jwt {| Callbacks.token_id := None;
                              Callbacks.token_name := Some (lit "alice");
                              Callbacks.token_email := Some (lit "alice@x.com") |}
                           (Some (identity_of Sample.alice))))
       = {| Callbacks.user := {| Callbacks.user_id := Some (of_Z (id row));
                                 Callbacks.user_name := Some (lit "alice");
                                 Callbacks.user_email := Some (lit "alice@x.com") |};
            Callbacks.expires := lit "2026-01-01T08:00:00.000Z" |}.
Proof.
  apply (session_exposes_the_account_id Sample.rt Sample.fresh
           (lit "alice") (lit "password123")).
  vm_compute. reflexivity.
Defined.

(** ** app/api/register/route.ts *)

Arguments Further.hashings : simpl never.
Arguments Further.statements : simpl never.

(** A pool once returned stays available. *)
Lemma getPool_stays_ready :
  forall (rt : Runtime) (st st' : State) (pool : ConnectionPool),
    Db.getPool rt st = (inr pool, st') -> pool_ready rt st' = true.
Proof.
  intros rt st st' pool. unfold pool_ready, Db.usable. run_getPool.
  destruct (Db.development (env rt));
    [destruct (globalPool st) as [q|] eqn:Hq
    |destruct (prodPool st) as [q|] eqn:Hq];
    try destruct (connected q) eqn:Hc;
    try (destruct (Db.buildConfig (env rt)) as [e|cfg]; cbn;
         [|destruct (sql_connect rt cfg)]);
    cbn; intros H; inversion H; subst; cbn; try rewrite Hq; try rewrite Hc;
    reflexivity.
Qed.

Lemma existsb_false_filter :
  forall (A : Type) (f : A -> bool) (l : list A),
    List.existsb f l = false -> List.filter f l = [].
Proof.
  intros A f l. induction l as [|a l IH]; intros H; [reflexivity|].
  cbn in H. apply Bool.orb_false_iff in H. destruct H as [Ha Hl].
  cbn. rewrite Ha. apply IH, Hl.
Qed.

(** The run of a registration that passes validation and meets no row
    with its user name or e-mail address. *)
Lemma register_run :
  forall (rt : Runtime) (st : State) (o : option Session) (u e p : jsstring),
    acceptable rt u e p ->
    pool_ready rt st = true -> sql_fault rt = None ->
    username_taken rt st u = false -> email_taken rt st e = false ->
    let run := Register.POST rt (register_request o u e p) st in
    fst run = inr created
    /\ users (snd run) = users st ++ [new_row rt st u e p]
    /\ pool_ready rt (snd run) = true.
Proof.
  intros rt st o u e p Hacc Hready Hfault Hnu Hne. cbv zeta.
  unfold new_row, username_taken, email_taken in *.
  validated u e p Hacc.
  match goal with
  | |- context [Db.getPool rt ?st1] =>
      destruct (getPool_ready rt st1 Hready) as (pool & st2 & Hget & _);
      rewrite Hget;
      destruct (getPool_steps rt st1 st2 _ Hget) as (evs & Ht & Hev & Husers & _);
      pose proof (getPool_stays_ready rt st1 st2 pool Hget) as Hstay
  end.
  cbn in Husers.
  unfold Db.query_insert_user. run. rewrite Hfault. cbn.
  rewrite Husers, Hnu, Hne. cbn.
  repeat split. exact Hstay.
Qed.

(** X12.  A registration that passes validation, reaches a database
    that answers and collides with no row is answered 201
    [{success: true}] and adds exactly one row: the trimmed user name, the
    trimmed and lower-cased e-mail address, the bcrypt digest (cost 12) of
    the password as typed, active. *)
Theorem register_creates_the_account :
  forall (rt : Runtime) (st : State) (o : option Session) (u e p : jsstring),
    acceptable rt u e p ->
    pool_ready rt st = true -> sql_fault rt = None ->
    username_taken rt st u = false -> email_taken rt st e = false ->
    let run := Register.POST rt (register_request o u e p) st in
    fst run = inr created
    /\ exists row : User,
        users (snd run) = users st ++ [row]
        /\ username row = trim u
        /\ email row = toLowerCase rt (trim e)
        /\ password_hash row = bcrypt_hash rt p 12
        /\ is_active row = true.
Proof.
  intros rt st o u e p Hacc Hready Hfault Hnu Hne. cbv zeta.
  destruct (register_run rt st o u e p Hacc Hready Hfault Hnu Hne)
    as (A & B & _).
  split; [exact A|]. exists (new_row rt st u e p).
  split; [exact B|]. repeat split.
Qed.

(** The theorem on a new user [ Bob ] whose address is typed in capitals. *)
Lemma register_creates_witness :
  exists row : User,
    users (snd (Register.POST Sample.rt
                  (register_request None (lit "  Bob ") (lit "BOB@X.COM ")
                                    (lit "hunter2hunter2"))
                  Sample.fresh))
    = users Sample.fresh ++ [row]
    /\ username row = lit "Bob"
    /\ email row = lit "bob@x.com".
Proof.
  destruct (register_creates_the_account Sample.rt Sample.fresh None
              (lit "  Bob ") (lit "BOB@X.COM ") (lit "hunter2hunter2"))
    as (_ & row & A & B & C & _); try reflexivity.
  - vm_compute. repeat split; (discriminate || lia).
  - exists row. split; [exact A|]. split; [exact B|exact C].
Defined.

(** X13.  Register, then log in.  With a collation that equates a
    string with itself and a bcrypt that accepts a password against its
    own digest, the credentials of a successful registration are accepted
    by [authorize] right away, with the user name typed the same way
    (both sides trim it), and the identity carries the stored name and
    address. *)
Theorem register_then_login :
  forall (rt : Runtime) (st : State) (o : option Session) (u e p : jsstring),
    acceptable rt u e p ->
    pool_ready rt st = true -> sql_fault rt = None ->
    username_taken rt st u = false -> email_taken rt st e = false ->
    sql_equal rt (trim u) (trim u) = true ->
    bcrypt_compare rt p (bcrypt_hash rt p 12) = inr true ->
    exists who : Auth.Identity,
      fst (Auth.authorize rt (login u p)
             (snd (Register.POST rt (register_request o u e p) st)))
      = inr (Some who)
      /\ Auth.identity_name who = trim u
      /\ Auth.identity_email who = toLowerCase rt (trim e).
Proof.
  intros rt st o u e p Hacc Hready Hfault Hnu Hne Hrefl Hbcrypt.
  destruct (register_run rt st o u e p Hacc Hready Hfault Hnu Hne)
    as (_ & Husers & Hstay).
  assert (Hu : u <> []) by apply Hacc.
  assert (Hp : p <> []) by apply Hacc.
  destruct (authorize_run rt _ u p Hu Hp Hstay Hfault) as [Hrun _].
  rewrite Hrun. unfold user_named. rewrite Husers, List.filter_app.
  unfold username_taken in Hnu.
  rewrite (existsb_false_filter _ _ _ Hnu). cbn.
  rewrite Hrefl. cbn. rewrite Hbcrypt.
  eexists. split; [reflexivity|]. split; reflexivity.
Qed.

(** The theorem on the new user [ Bob ]. *)
Lemma register_then_login_witness :
  exists who : Auth.Identity,
    fst (Auth.authorize Sample.rt
           (login (lit "  Bob ") (lit "hunter2hunter2"))
           (snd (Register.POST Sample.rt
                   (register_request None (lit "  Bob ") (lit "BOB@X.COM ")
                                     (lit "hunter2hunter2"))
                   Sample.fresh)))
    = inr (Some who)
    /\ Auth.identity_name who = lit "Bob"
    /\ Auth.identity_email who = lit "bob@x.com".
Proof.
  apply (register_then_login Sample.rt Sample.fresh None
           (lit "  Bob ") (lit "BOB@X.COM ") (lit "hunter2hunter2"));
    try reflexivity.
  vm_compute. repeat split; (discriminate || lia).
Defined.

(** Close a branch of [Register.POST] that ends without a row. *)
Ltac no_row Hsame :=
  cbn;
  repeat match goal with
         | |- context [match err_number ?e with _ => _ end] =>
             destruct (err_number e) as [?n|]; cbn
         | |- context [Z.eqb ?n 2627 || Z.eqb ?n 2601] =>
             destruct (Z.eqb n 2627 || Z.eqb n 2601); cbn
         end;
  eexists; (split; [reflexivity|]); right;
  (split; [discriminate|first [reflexivity|exact Hsame]]).

(** X14.  Whatever the request, the platform and the table,
    [Register.POST] resolves with a response, and it writes to
    [dbo].[users] exactly when it answers 201: then one row has been
    appended; under every other answer (400, 409, 500) the table is as it
    was. *)
Theorem register_writes_exactly_on_201 :
  forall (rt : Runtime) (st : State) (req : Request Register.Body),
    exists resp : Response,
      fst (Register.POST rt req st) = inr resp
      /\ ((status resp = 201%Z
           /\ exists row : User,
               users (snd (Register.POST rt req st)) = users st ++ [row])
          \/ (status resp <> 201%Z
              /\ users (snd (Register.POST rt req st)) = users st)).
Proof.
  intros rt st req. unfold Register.POST.
  destruct (req_json req) as [b|]; [|run; no_row (eq_refl (users st))].
  destruct (Register.username b) as [[|u0 u']|];
    try (run; no_row (eq_refl (users st))).
  destruct (Register.email b) as [[|e0 e']|];
    try (run; no_row (eq_refl (users st))).
  destruct (Register.password b) as [[|p0 p']|];
    try (run; no_row (eq_refl (users st))).
  destruct (Nat.ltb (List.length (trim (u0 :: u')))
                    Register.MIN_USERNAME_LENGTH);
    [run; no_row (eq_refl (users st))|].
  destruct (Nat.ltb Register.MAX_USERNAME_LENGTH
                    (List.length (trim (u0 :: u'))));
    [run; no_row (eq_refl (users st))|].
  destruct (negb (includes 64 (toLowerCase rt (trim (e0 :: e'))))
            || negb (includes 46 (toLowerCase rt (trim (e0 :: e')))));
    [run; no_row (eq_refl (users st))|].
  destruct (Nat.ltb (List.length (p0 :: p')) Register.MIN_PASSWORD_LENGTH);
    [run; no_row (eq_refl (users st))|].
  run.
  match goal with
  | |- context [Db.getPool rt ?st1] =>
      destruct (Db.getPool rt st1) as [[err|pool] st2] eqn:Hget;
      destruct (getPool_steps rt st1 st2 _ Hget) as (evs & _ & _ & Husers & _)
  end; cbn in Husers; [no_row Husers|].
  unfold Db.query_insert_user. run.
  destruct (sql_fault rt) as [fault|]; [no_row Husers|]. cbn.
  destruct (List.existsb _ (users st2));
    [unfold Db.duplicate; no_row Husers|].
  destruct (List.existsb _ (users st2));
    [unfold Db.duplicate; no_row Husers|].
  cbn. eexists. split; [reflexivity|]. left.
  split; [reflexivity|]. rewrite Husers. eexists. reflexivity.
Qed.

(** X15.  A registration with a field missing or empty, a user name of
    fewer than 3 or more than 100 characters after trimming, an e-mail
    address without [@] or without a dot, or a password of fewer than 8
    characters is answered 400, and the run ends there: the final state
    is the initial one with the clock read once, so no bcrypt hash was
    computed, no pool was asked for and no statement was sent. *)
Theorem register_rejects_invalid_input_before_any_work :
  forall (rt : Runtime) (st : State) (o : option Session),
    (forall b : Register.Body,
        truthy (Register.username b) = false
        \/ truthy (Register.email b) = false
        \/ truthy (Register.password b) = false ->
        Register.POST rt {| req_session := o; req_json := Some b |} st
        = (inr (failure 400 "Username, email, and password are required"),
           ticked st))
    /\ (forall u e p : jsstring,
           ~ acceptable rt u e p ->
           exists msg : string,
             Register.POST rt (register_request o u e p) st
             = (inr (failure 400 msg), ticked st))
    /\ trace (ticked st) = trace st
    /\ users (ticked st) = users st.
Proof.
  intros rt st o. split; [|split; [|split; reflexivity]].
  - intros b H. unfold Register.POST. cbn [req_json].
    destruct (Register.username b) as [[|u0 u']|];
      destruct (Register.email b) as [[|e0 e']|];
      destruct (Register.password b) as [[|p0 p']|];
      try reflexivity.
    cbn in H. destruct H as [H|[H|H]]; discriminate H.
  - intros u e p Hno. unfold Register.POST, register_request.
    cbn [req_json Register.username Register.email Register.password].
    destruct u as [|u0 u']; [eexists; reflexivity|].
    destruct e as [|e0 e']; [eexists; reflexivity|].
    destruct p as [|p0 p']; [eexists; reflexivity|].
    destruct (Nat.ltb (List.length (trim (u0 :: u')))
                      Register.MIN_USERNAME_LENGTH) eqn:Hmin;
      [eexists; reflexivity|].
    destruct (Nat.ltb Register.MAX_USERNAME_LENGTH
                      (List.length (trim (u0 :: u')))) eqn:Hmax;
      [eexists; reflexivity|].
    destruct (includes 64 (toLowerCase rt (trim (e0 :: e')))) eqn:Hat;
      [|eexists; reflexivity].
    destruct (includes 46 (toLowerCase rt (trim (e0 :: e')))) eqn:Hdot;
      [|eexists; reflexivity].
    destruct (Nat.ltb (List.length (p0 :: p')) Register.MIN_PASSWORD_LENGTH)
      eqn:Hlen; [eexists; reflexivity|].
    exfalso. apply Hno.
    unfold Register.MIN_USERNAME_LENGTH, Register.MAX_USERNAME_LENGTH,
      Register.MIN_PASSWORD_LENGTH in *.
    apply Nat.ltb_ge in Hmin, Hmax, Hlen.
    unfold acceptable. repeat split; try discriminate; assumption.
Qed.

(** The theorem on a body without an e-mail address and on a user name
    that is two letters between blanks. *)
Lemma register_rejects_witness :
  Register.POST Sample.rt
    {| req_session := None;
       req_json := Some {| Register.username := Some (lit "dave");
                           Register.email := None;
                           Register.password := Some (lit "password123") |} |}
    Sample.fresh
  = (inr (failure 400 "Username, email, and password are required"),
     ticked Sample.fresh)
  /\ exists msg : string,
      Register.POST Sample.rt
        (register_request None (lit "  al  ") (lit "al@x.com")
                          (lit "password123"))
        Sample.fresh
      = (inr (failure 400 msg), ticked Sample.fresh).
Proof.
  destruct (register_rejects_invalid_input_before_any_work
              Sample.rt Sample.fresh None) as (A & B & _).
  split.
  - apply A. right. left. reflexivity.
  - apply B. intros (_ & _ & _ & [Hmin _] & _). vm_compute in Hmin. lia.
Defined.

(** ** app/api/forgot-password/route.ts *)

Lemma statements_app :
  forall a b : list Event, statements (a ++ b) = statements a ++ statements b.
Proof. intros a b. unfold statements. apply List.flat_map_app. Qed.

Lemma hashings_app :
  forall a b : list Event, hashings (a ++ b) = (hashings a + hashings b)%nat.
Proof.
  intros a b. unfold hashings. rewrite List.filter_app, List.length_app.
  reflexivity.
Qed.

(** X16.  [ForgotPassword.POST] only reads.  For every body that parsed
    (its [email] a string or absent), every table and every behaviour of
    the database, it resolves with 200 or 400, never 500; it leaves
    [dbo].[users] as it was, calls bcrypt neither way, and sends at most
    one statement, the SELECT of the active account by e-mail address. *)
Theorem forgot_password_only_reads :
  forall (rt : Runtime) (st : State) (req : Request ForgotPassword.Body),
    let run := ForgotPassword.POST rt req st in
    (exists resp : Response,
        fst run = inr resp /\ (status resp = 200%Z \/ status resp = 400%Z))
    /\ users (snd run) = users st
    /\ hashings (trace (snd run)) = hashings (trace st)
    /\ comparisons (trace (snd run)) = comparisons (trace st)
    /\ (statements (trace (snd run)) = statements (trace st)
        \/ statements (trace (snd run))
           = statements (trace st) ++ [SelectActiveUserByEmail]).
Proof.
  intros rt st req. cbv zeta. unfold ForgotPassword.POST.
  destruct (req_json req) as [b|];
    [|run; split; [eexists; split; [reflexivity|right; reflexivity]|auto]].
  destruct (ForgotPassword.email b) as [e|]; cbn [option_map];
    [|run; split; [eexists; split; [reflexivity|right; reflexivity]|auto]].
  destruct (toLowerCase rt (trim e)) as [|m0 m'] eqn:Hmail;
    [run; split; [eexists; split; [reflexivity|right; reflexivity]|auto]|].
  destruct (negb (includes 64 (m0 :: m')) || negb (includes 46 (m0 :: m')));
    [run; split; [eexists; split; [reflexivity|right; reflexivity]|auto]|].
  run.
  match goal with
  | |- context [Db.getPool rt ?st1] =>
      destruct (Db.getPool rt st1) as [[err|pool] st2] eqn:Hget;
      destruct (getPool_steps rt st1 st2 _ Hget) as (evs & Ht & Hev & Husers & _)
  end; cbn in Husers, Ht;
    destruct (pool_events_quiet evs Hev) as (Hc & Hh & Hs & _).
  - cbn. rewrite Ht.
    rewrite !hashings_app, !comparisons_app, !statements_app, Hc, Hh, Hs.
    unfold hashings, comparisons, statements; cbn.
    rewrite !Nat.add_0_r, !List.app_nil_r.
    split; [eexists; split; [reflexivity|left; reflexivity]|auto].
  - unfold Db.query_active_user_by_email. run.
    destruct (sql_fault rt) as [fault|]; cbn.
    + rewrite Ht.
      rewrite !hashings_app, !comparisons_app, !statements_app, Hc, Hh, Hs.
      unfold hashings, comparisons, statements; cbn.
      rewrite !Nat.add_0_r, !List.app_nil_r.
      split; [eexists; split; [reflexivity|left; reflexivity]|auto].
    + destruct (List.hd_error _) as [row|]; cbn; rewrite Ht;
        rewrite !hashings_app, !comparisons_app, !statements_app, Hc, Hh, Hs;
        unfold hashings, comparisons, statements; cbn;
        rewrite !Nat.add_0_r, !List.app_nil_r;
        (split; [eexists; split; [reflexivity|left; reflexivity]|auto]).
Qed.

(** ** app/api/dnc-history/route.ts and app/api/dnc-lookup/route.ts *)

Arguments Further.error_logs : simpl never.

Lemma error_logs_app :
  forall a b : list Event, error_logs (a ++ b) = error_logs a ++ error_logs b.
Proof. intros a b. unfold error_logs. apply List.flat_map_app. Qed.

Lemma logged_errors_snoc :
  forall (tr : list Event) (msg : jsstring) (meta : list (string * Value)),
    logged_errors (tr ++ [EvLog LError msg meta])
    = logged_errors tr ++ match meta with
                          | (_, v) :: _ => [v]
                          | [] => []
                          end.
Proof.
  intros tr msg meta. unfold logged_errors.
  rewrite error_logs_app, List.flat_map_app. unfold error_logs at 2. cbn.
  rewrite List.app_nil_r. reflexivity.
Qed.

Lemma logged_errors_quiet :
  forall (tr evs : list Event),
    error_logs evs = [] -> logged_errors (tr ++ evs) = logged_errors tr.
Proof.
  intros tr evs H. unfold logged_errors.
  rewrite error_logs_app, H, List.app_nil_r. reflexivity.
Qed.

(** Enter one of the two handlers with a phone number of ten digits. *)
Ltac ten_digits Hlen :=
  run; rewrite rawPhone_of_digits; cbn [or_empty]; rewrite Hlen; cbn.

(** X17.  With a session, ten digits in the phone number (and, for
    lookup, a date the engine accepts) and a database that answers, the
    handler calls its procedure once, with the digits (and the parsed
    date), and answers 200 with the rows of the procedure as they are;
    [logger.error] is not called. *)
Theorem dnc_handlers_return_the_procedure_rows :
  forall (rt : Runtime) (st : State) (s : Session) (phone date : jsstring)
         (t : Z),
    List.length (digits phone) = 10%nat ->
    date <> [] -> Date_parse rt (DncLookup.date_text date) = Some t ->
    pool_ready rt st = true -> sql_fault rt = None ->
    let history := DncHistory.POST rt (history_request s phone) st in
    let lookup := DncLookup.POST rt (lookup_request s phone date) st in
    fst history = inr (ok (Rows (sp_dnc_history rt (digits phone))))
    /\ error_logs (trace (snd history)) = error_logs (trace st)
    /\ fst lookup = inr (ok (Rows (sp_dnc_lookup rt (digits phone) t)))
    /\ executions (trace (snd lookup))
       = executions (trace st) ++ [lookup_call (digits phone) t]
    /\ error_logs (trace (snd lookup)) = error_logs (trace st).
Proof.
  intros rt st s phone date t Hlen Hdate Hparse Hready Hfault. cbv zeta.
  split; [|split; [|split; [|split]]].
  - unfold DncHistory.POST, history_request. ten_digits Hlen.
    pool_is_ready rt Hready pool st2 Hstep.
    unfold Db.execute_sp_dnc_history. run. rewrite Hfault. reflexivity.
  - unfold DncHistory.POST, history_request. ten_digits Hlen.
    match goal with
    | |- context [Db.getPool rt ?st1] =>
        destruct (getPool_ready rt st1 Hready) as (pool & st2 & Hget & _);
        rewrite Hget;
        destruct (getPool_steps rt st1 st2 _ Hget) as (evs & Ht & Hev & _ & _)
    end.
    cbn in Ht. destruct (pool_events_quiet evs Hev) as (_ & _ & _ & He & _).
    unfold Db.execute_sp_dnc_history. run. rewrite Hfault. cbn.
    rewrite Ht. rewrite !error_logs_app, He. unfold error_logs. cbn.
    rewrite !List.app_nil_r. reflexivity.
  - unfold DncLookup.POST, lookup_request. ten_digits Hlen.
    destruct date as [|d0 d']; [congruence|]. rewrite Hparse. run.
    pool_is_ready rt Hready pool st2 Hstep.
    unfold Db.execute_sp_dnc_lookup. run. rewrite Hfault. reflexivity.
  - unfold DncLookup.POST, lookup_request. ten_digits Hlen.
    destruct date as [|d0 d']; [congruence|]. rewrite Hparse. run.
    pool_is_ready rt Hready pool st2 Hstep.
    destruct Hstep as (evs & Ht & Hx & _). cbn in Ht.
    unfold Db.execute_sp_dnc_lookup. run. rewrite Hfault. cbn.
    rewrite Ht. rewrite !executions_app, Hx. cbn.
    rewrite !List.app_nil_r. reflexivity.
  - unfold DncLookup.POST, lookup_request. ten_digits Hlen.
    destruct date as [|d0 d']; [congruence|]. rewrite Hparse. run.
    match goal with
    | |- context [Db.getPool rt ?st1] =>
        destruct (getPool_ready rt st1 Hready) as (pool & st2 & Hget & _);
        rewrite Hget;
        destruct (getPool_steps rt st1 st2 _ Hget) as (evs & Ht & Hev & _ & _)
    end.
    cbn in Ht. destruct (pool_events_quiet evs Hev) as (_ & _ & _ & He & _).
    unfold Db.execute_sp_dnc_lookup. run. rewrite Hfault. cbn.
    rewrite Ht. rewrite !error_logs_app, He. unfold error_logs. cbn.
    rewrite !List.app_nil_r. reflexivity.
Qed.

(** The theorem on one number and the date 01/15/2024. *)
Lemma dnc_handlers_rows_witness :
  fst (DncHistory.POST Sample.rt
         (history_request Sample.session (lit "(212) 555-1234")) Sample.fresh)
  = inr (ok (Rows (sp_dnc_history Sample.rt (lit "2125551234"))))
  /\ exists t : Z,
      Date_parse Sample.rt (lit "2024-01-15") = Some t
      /\ fst (DncLookup.POST Sample.rt
                (lookup_request Sample.session (lit "(212) 555-1234")
                                (lit "01/15/2024"))
                Sample.fresh)
         = inr (ok (Rows (sp_dnc_lookup Sample.rt (lit "2125551234") t))).
Proof.
  destruct (Date_parse Sample.rt (DncLookup.date_text (lit "01/15/2024")))
    as [t|] eqn:Hparse; [|vm_compute in Hparse; discriminate Hparse].
  destruct (dnc_handlers_return_the_procedure_rows
              Sample.rt Sample.fresh Sample.session
              (lit "(212) 555-1234") (lit "01/15/2024") t)
    as (A & _ & B & _); try reflexivity; try discriminate; try exact Hparse.
  split; [exact A|]. exists t. split; [exact Hparse|exact B].
Defined.

(** The outcome [Hget] of [getPool] contradicts what [lemma] says it is. *)
Ltac contradict_pool Hget lemma Hready :=
  match type of Hget with
  | Db.getPool ?rt ?st1 = _ =>
      let Hg := fresh "Hg" in
      destruct (lemma rt st1 Hready) as (? & ? & Hg & _);
      rewrite Hg in Hget; discriminate Hget
  end.

(** X18.  With a session and valid input, a database that fails is
    answered 500 with the handler's one fixed message, whatever the
    error: the one [getPool] throws when no pool can be had, or the one
    the procedure call rejects with.  The message of that error is
    recorded by one [logger.error] call, under [err], and is no part of
    the response. *)
Theorem dnc_handlers_hide_database_errors :
  forall (rt : Runtime) (st : State) (s : Session) (phone date : jsstring)
         (t : Z) (err : JsError),
    List.length (digits phone) = 10%nat ->
    date <> [] -> Date_parse rt (DncLookup.date_text date) = Some t ->
    (pool_ready rt st = false /\ connect_error rt = Some err)
    \/ (pool_ready rt st = true /\ sql_fault rt = Some err) ->
    let history := DncHistory.POST rt (history_request s phone) st in
    let lookup := DncLookup.POST rt (lookup_request s phone date) st in
    fst history = inr (failure 500 "History lookup failed. Please try again.")
    /\ fst lookup = inr (failure 500 "Lookup failed. Please try again.")
    /\ logged_errors (trace (snd history))
       = logged_errors (trace st) ++ [VString (err_message err)]
    /\ logged_errors (trace (snd lookup))
       = logged_errors (trace st) ++ [VString (err_message err)].
Proof.
  intros rt st s phone date t err Hlen Hdate Hparse Hdown. cbv zeta.
  unfold DncHistory.POST, DncLookup.POST, history_request, lookup_request.
  ten_digits Hlen.
  destruct date as [|d0 d']; [congruence|]. rewrite Hparse. cbn.
  repeat match goal with
  | |- context [Db.getPool rt ?st1] =>
      let r := fresh "r" in
      let st2 := fresh "st2" in
      let Hget := fresh "Hget" in
      let evs := fresh "evs" in
      let Ht := fresh "Ht" in
      let Hev := fresh "Hev" in
      let He := fresh "He" in
      destruct (Db.getPool rt st1) as [r st2] eqn:Hget;
      destruct (getPool_steps rt st1 st2 _ Hget) as (evs & Ht & Hev & _ & _);
      cbn in Ht;
      destruct (pool_events_quiet evs Hev) as (_ & _ & _ & He & _)
  end.
  assert (Quiet :
            forall (tr more : list Event) (ev : Event),
              error_logs more = [] -> error_logs [ev] = [] ->
              logged_errors ((tr ++ [ev]) ++ more) = logged_errors tr).
  { intros tr more ev H1 H2. rewrite <- List.app_assoc.
    apply logged_errors_quiet. rewrite error_logs_app, H1, H2. reflexivity. }
  destruct Hdown as [[Hready Herr]|[Hready Hfault]].
  - destruct r as [e1|pool1]; [|contradict_pool Hget getPool_not_ready Hready].
    destruct r0 as [e2|pool2];
      [|contradict_pool Hget0 getPool_not_ready Hready].
    assert (E1 : e1 = err).
    { match type of Hget with
      | Db.getPool rt ?st1 = _ =>
          destruct (getPool_throws rt st1 Hready) as (e & st3 & He3 & Hg3)
      end.
      congruence. }
    assert (E2 : e2 = err).
    { match type of Hget0 with
      | Db.getPool rt ?st1 = _ =>
          destruct (getPool_throws rt st1 Hready) as (e & st3 & He3 & Hg3)
      end.
      congruence. }
    subst e1 e2. cbn.
    split; [reflexivity|]. split; [reflexivity|].
    split; rewrite !logged_errors_snoc; cbn; f_equal.
    + rewrite Ht. apply Quiet; [exact He|reflexivity].
    + rewrite Ht0. apply Quiet; [exact He0|reflexivity].
  - destruct r as [e1|pool1]; [contradict_pool Hget getPool_ready Hready|].
    destruct r0 as [e2|pool2];
      [contradict_pool Hget0 getPool_ready Hready|].
    unfold Db.execute_sp_dnc_history, Db.execute_sp_dnc_lookup. run.
    rewrite Hfault. cbn.
    split; [reflexivity|]. split; [reflexivity|].
    split; rewrite !logged_errors_snoc; cbn; f_equal.
    + rewrite Ht. rewrite <- !List.app_assoc. apply logged_errors_quiet.
      rewrite !error_logs_app, He. reflexivity.
    + rewrite Ht0. rewrite <- !List.app_assoc. apply logged_errors_quiet.
      rewrite !error_logs_app, He0. reflexivity.
Qed.

(** The theorem with no database variable set: what is logged is the
    message of [buildConfig]. *)
Lemma dnc_handlers_hide_witness :
  fst (DncHistory.POST (Sample.platform Sample.no_environment)
         (history_request Sample.session (lit "2125551234")) Sample.fresh)
  = inr (failure 500 "History lookup failed. Please try again.")
  /\ logged_errors
       (trace (snd (DncHistory.POST (Sample.platform Sample.no_environment)
                      (history_request Sample.session (lit "2125551234"))
                      Sample.fresh)))
     = [VString (err_message missing_variables)].
Proof.
  destruct (Date_parse (Sample.platform Sample.no_environment)
              (DncLookup.date_text (lit "01/15/2024")))
    as [t|] eqn:Hparse; [|vm_compute in Hparse; discriminate Hparse].
  destruct (dnc_handlers_hide_database_errors
              (Sample.platform Sample.no_environment) Sample.fresh
              Sample.session (lit "2125551234") (lit "01/15/2024") t
              missing_variables)
    as (A & _ & B & _);
    [reflexivity|discriminate|exact Hparse|left; split; reflexivity|].
  split; [exact A|exact B].
Defined.

(** *** The date of a lookup *)

Lemma split_no_separator :
  forall (c : N) (s : jsstring), includes c s = false -> split c s = [s].
Proof.
  intros c s. induction s as [|x s IH]; intros H; [reflexivity|].
  unfold includes in *. cbn in H. apply Bool.orb_false_iff in H.
  destruct H as [Hx Hs]. cbn. rewrite N.eqb_sym, Hx, (IH Hs). reflexivity.
Qed.

Lemma split_at_separator :
  forall (c : N) (a b : jsstring),
    includes c a = false -> split c (a ++ c :: b) = a :: split c b.
Proof.
  intros c a b. induction a as [|x a IH]; intros H.
  - cbn. rewrite N.eqb_refl. reflexivity.
  - unfold includes in *. cbn in H. apply Bool.orb_false_iff in H.
    destruct H as [Hx Ha]. cbn. rewrite N.eqb_sym, Hx, (IH Ha). reflexivity.
Qed.

(** X19.  The lookup handler rebuilds the date it hands to [Date] from
    the first three [/]-separated parts of [lookupDate], as
    year-month-day: [MM/DD/YYYY] becomes [YYYY-MM-DD], whatever the three
    parts hold, and anything after a third [/] is dropped.  A text
    without [/], such as an ISO date, becomes
    [undefined-<text>-undefined]. *)
Theorem date_text_reassembles :
  forall month day year rest plain : jsstring,
    includes 47 month = false -> includes 47 day = false ->
    includes 47 year = false -> includes 47 plain = false ->
    DncLookup.date_text (month ++ lit "/" ++ day ++ lit "/" ++ year)
    = year ++ lit "-" ++ month ++ lit "-" ++ day
    /\ DncLookup.date_text
         (month ++ lit "/" ++ day ++ lit "/" ++ year ++ lit "/" ++ rest)
       = year ++ lit "-" ++ month ++ lit "-" ++ day
    /\ DncLookup.date_text plain
       = lit "undefined-" ++ plain ++ lit "-undefined".
Proof.
  intros month day year rest plain Hm Hd Hy Hp.
  unfold DncLookup.date_text.
  change (lit "/") with [47%N]. cbn [List.app].
  rewrite !(split_at_separator 47 month) by exact Hm.
  rewrite !(split_at_separator 47 day) by exact Hd.
  rewrite (split_at_separator 47 year) by exact Hy.
  rewrite (split_no_separator 47 year) by exact Hy.
  rewrite (split_no_separator 47 plain) by exact Hp.
  cbn [List.nth_error interpolate].
  repeat split.
Qed.

(** The theorem on 01/15/2024 and on the ISO spelling of that day. *)
Lemma date_text_witness :
  DncLookup.date_text (lit "01/15/2024") = lit "2024-01-15"
  /\ DncLookup.date_text (lit "01/15/2024/x") = lit "2024-01-15"
  /\ DncLookup.date_text (lit "2024-01-15") = lit "undefined-2024-01-15-undefined".
Proof.
  apply (date_text_reassembles (lit "01") (lit "15") (lit "2024") (lit "x")
                               (lit "2024-01-15"));
    reflexivity.
Defined.

(** ** The client pages against their handlers *)

Lemma includes_trim_start :
  forall (c : N) (s : jsstring),
    is_space c = false -> includes c (trim_start s) = includes c s.
Proof.
  intros c s Hc. induction s as [|x s IH]; [reflexivity|].
  cbn. destruct (is_space x) eqn:Hx; [|reflexivity].
  rewrite IH. unfold includes. cbn.
  destruct (N.eqb_spec c x) as [->|_]; [congruence|reflexivity].
Qed.

Lemma includes_rev :
  forall (c : N) (s : jsstring), includes c (List.rev s) = includes c s.
Proof.
  intros c s. unfold includes. induction s as [|x s IH]; [reflexivity|].
  cbn. rewrite List.existsb_app, IH. cbn.
  rewrite Bool.orb_false_r. apply Bool.orb_comm.
Qed.

Lemma includes_trim :
  forall (c : N) (s : jsstring),
    is_space c = false -> includes c (trim s) = includes c s.
Proof.
  intros c s Hc. unfold trim.
  rewrite includes_rev, includes_trim_start, includes_rev, includes_trim_start;
    auto.
Qed.

(** What the history handler answers to ten digits. *)
Lemma history_outcomes :
  forall (rt : Runtime) (st : State) (o : option Session) (phone : jsstring),
    List.length (digits phone) = 10%nat ->
    let run := DncHistory.POST rt
                 (history_body o (DncHistory.Json (Text phone))) st in
    fst run = inr (ok (Rows (sp_dnc_history rt (digits phone))))
    \/ fst run = inr (failure 401 "Unauthorized")
    \/ fst run = inr (failure 500 "History lookup failed. Please try again.").
Proof.
  intros rt st o phone Hlen. cbv zeta. unfold DncHistory.POST, history_body.
  cbn [req_session req_json].
  destruct o as [s|]; [|right; left; reflexivity].
  ten_digits Hlen.
  match goal with
  | |- context [Db.getPool rt ?st1] =>
      destruct (Db.getPool rt st1) as [[err|pool] st2]
  end; [right; right; reflexivity|].
  unfold Db.execute_sp_dnc_history. run.
  destruct (sql_fault rt); [right; right; reflexivity|left; reflexivity].
Qed.

(** What the lookup handler answers to ten digits and a date the engine
    accepts. *)
Lemma lookup_outcomes :
  forall (rt : Runtime) (st : State) (o : option Session)
         (phone date : jsstring) (t : Z),
    List.length (digits phone) = 10%nat ->
    truthy (Some date) = true ->
    Date_parse rt (DncLookup.date_text date) = Some t ->
    let run := DncLookup.POST rt
                 (lookup_body o (DncLookup.Json (Text phone) (Text date))) st in
    fst run = inr (ok (Rows (sp_dnc_lookup rt (digits phone) t)))
    \/ fst run = inr (failure 401 "Unauthorized")
    \/ fst run = inr (failure 500 "Lookup failed. Please try again.").
Proof.
  intros rt st o phone date t Hlen Hdate Hparse. cbv zeta.
  unfold DncLookup.POST, lookup_body. cbn [req_session req_json].
  destruct o as [s|]; [|right; left; reflexivity].
  ten_digits Hlen.
  destruct date as [|d0 d']; [discriminate Hdate|]. rewrite Hparse. run.
  match goal with
  | |- context [Db.getPool rt ?st1] =>
      destruct (Db.getPool rt st1) as [[err|pool] st2]
  end; [right; right; reflexivity|].
  unfold Db.execute_sp_dnc_lookup. run.
  destruct (sql_fault rt); [right; right; reflexivity|left; reflexivity].
Qed.

Lemma digits_of_digits : forall p : jsstring, digits (digits p) = digits p.
Proof.
  intros p. unfold digits. induction p as [|x p IH]; [reflexivity|].
  cbn. destruct (is_digit x) eqn:Hx; [|exact IH].
  cbn. rewrite Hx, IH. reflexivity.
Qed.

(** X20.  What the history and lookup pages send passes the handler's
    validation.  The body of the request carries the digits of what was
    typed and nothing else of it (and, for lookup, the date as typed).
    Once [validate] has accepted the form (for lookup, with a browser
    whose [Date] reads the re-assembled date as the server's does), the
    handler never answers 400: the page ends with the rows of the
    procedure for those digits and no message, or with no rows and the
    message "Unauthorized" or the handler's 500 message.  Both field
    messages are empty. *)
Theorem dnc_pages_pass_the_handler_validation :
  forall (browser : Browser) (rt : Runtime) (st : State) (o : option Session)
         (phone date : jsstring),
    HistoryPage.payload phone = DncHistory.Json (Text (digits phone))
    /\ LookupPage.payload phone date
       = DncLookup.Json (Text (digits phone)) (Text date)
    /\ (fst (HistoryPage.validate phone) = true ->
        exists view : HistoryPage.View,
          fst (HistoryPage.handleSubmit rt delivered o phone st) = inr view
          /\ HistoryPage.phoneError view = ""%string
          /\ ((HistoryPage.error view = ""%string
               /\ HistoryPage.results view
                  = Some (Rows (sp_dnc_history rt (digits phone))))
              \/ (HistoryPage.results view = None
                  /\ List.In (HistoryPage.error view)
                       ["Unauthorized"%string;
                        "History lookup failed. Please try again."%string])))
    /\ (b_Date_parse browser (DncLookup.date_text date)
        = Date_parse rt (DncLookup.date_text date) ->
        fst (fst (LookupPage.validate browser phone date)) = true ->
        exists view : LookupPage.View,
          fst (LookupPage.handleSubmit browser rt delivered o phone date st)
          = inr view
          /\ LookupPage.phoneError view = ""%string
          /\ LookupPage.dateError view = ""%string
          /\ ((LookupPage.error view = ""%string
               /\ exists t : Z,
                   Date_parse rt (DncLookup.date_text date) = Some t
                   /\ LookupPage.results view
                      = Some (Rows (sp_dnc_lookup rt (digits phone) t)))
              \/ (LookupPage.results view = None
                  /\ List.In (LookupPage.error view)
                       ["Unauthorized"%string;
                        "Lookup failed. Please try again."%string]))).
Proof.
  intros browser rt st o phone date.
  assert (Hpayload : HistoryPage.payload phone
                     = DncHistory.Json (Text (digits phone))).
  { unfold HistoryPage.payload. rewrite rawPhone_of_digits. reflexivity. }
  assert (Lpayload : LookupPage.payload phone date
                     = DncLookup.Json (Text (digits phone)) (Text date)).
  { unfold LookupPage.payload. rewrite rawPhone_of_digits. reflexivity. }
  split; [exact Hpayload|]. split; [exact Lpayload|]. split.
  - unfold HistoryPage.handleSubmit, HistoryPage.validate.
    rewrite Hpayload, rawPhone_of_digits. cbn [or_empty].
    destruct (Nat.eqb (List.length (digits phone)) 10) eqn:Hlen;
      cbn [negb fst]; [intros _|discriminate].
    apply Nat.eqb_eq in Hlen.
    assert (Hraw : List.length (digits (digits phone)) = 10%nat)
      by (rewrite digits_of_digits; exact Hlen).
    unfold bind.
    pose proof (history_outcomes rt st o (digits phone) Hraw) as H.
    cbv zeta in H. unfold history_body in H. rewrite digits_of_digits in H.
    destruct H as [H|[H|H]];
      destruct (DncHistory.POST rt _ st) as [r st2]; cbn [fst] in H;
      rewrite H; cbn; eexists; (split; [reflexivity|]); cbn;
      (split; [reflexivity|]).
    + left. split; reflexivity.
    + right. split; [reflexivity|]. left. reflexivity.
    + right. split; [reflexivity|]. right. left. reflexivity.
  - intros Hsame. unfold LookupPage.handleSubmit, LookupPage.validate.
    rewrite Lpayload, rawPhone_of_digits. cbn [or_empty].
    destruct (Nat.eqb (List.length (digits phone)) 10) eqn:Hlen;
      cbn [negb];
      destruct (negb (truthy (Some date))
                || Nat.ltb (List.length
                              (replace_all re_non_digit (fun _ => []) date)) 8)
        eqn:Hdate; cbn [fst]; try discriminate;
      rewrite Hsame;
      destruct (Date_parse rt (DncLookup.date_text date)) as [t|] eqn:Hparse;
      cbn [fst negb]; try discriminate.
    intros _.
    apply Nat.eqb_eq in Hlen.
    apply Bool.orb_false_iff in Hdate. destruct Hdate as [Htruthy _].
    apply Bool.negb_false_iff in Htruthy.
    assert (Hraw : List.length (digits (digits phone)) = 10%nat)
      by (rewrite digits_of_digits; exact Hlen).
    unfold bind.
    pose proof (lookup_outcomes rt st o (digits phone) date t
                                Hraw Htruthy Hparse) as H.
    cbv zeta in H. unfold lookup_body in H. rewrite digits_of_digits in H.
    destruct H as [H|[H|H]];
      destruct (DncLookup.POST rt _ st) as [r st2]; cbn [fst] in H;
      rewrite H; cbn; eexists; (split; [reflexivity|]); cbn;
      (split; [reflexivity|]); (split; [reflexivity|]).
    + left. split; [reflexivity|]. exists t. split; reflexivity.
    + right. split; [reflexivity|]. left. reflexivity.
    + right. split; [reflexivity|]. right. left. reflexivity.
Qed.

(** The theorem on one number typed with its mask and the date
    01/15/2024, sent with a session. *)
Lemma dnc_pages_witness :
  (exists view : HistoryPage.View,
      fst (HistoryPage.handleSubmit Sample.rt delivered (Some Sample.session)
             (lit "(212) 555-1234") Sample.fresh) = inr view
      /\ HistoryPage.phoneError view = ""%string)
  /\ (exists view : LookupPage.View,
         fst (LookupPage.handleSubmit (same_engine Sample.rt) Sample.rt
                delivered (Some Sample.session)
                (lit "(212) 555-1234") (lit "01/15/2024") Sample.fresh)
         = inr view
         /\ LookupPage.dateError view = ""%string).
Proof.
  destruct (dnc_pages_pass_the_handler_validation
              (same_engine Sample.rt) Sample.rt Sample.fresh
              (Some Sample.session) (lit "(212) 555-1234") (lit "01/15/2024"))
    as (_ & _ & H & L).
  split.
  - destruct (H eq_refl) as (view & A & B & _). exists view. split; assumption.
  - destruct (L eq_refl eq_refl) as (view & A & _ & B & _).
    exists view. split; assumption.
Defined.

(** What the register handler answers to fields that pass its
    validation. *)
Lemma register_outcomes :
  forall (rt : Runtime) (st : State) (o : option Session) (u e p : jsstring),
    acceptable rt u e p ->
    fst (Register.POST rt (register_request o u e p) st) = inr created
    \/ fst (Register.POST rt (register_request o u e p) st)
       = inr (failure 409 "Username or email already exists")
    \/ fst (Register.POST rt (register_request o u e p) st)
       = inr (failure 500 "Registration failed. Please try again.").
Proof.
  intros rt st o u e p Hacc.
  validated u e p Hacc.
  assert (Handled :
            forall (A : Type) (x y z : A) (c : bool),
              (if c then y else z) = x \/ (if c then y else z) = y
              \/ (if c then y else z) = z)
    by (intros A x y z [|]; auto).
  match goal with
  | |- context [Db.getPool rt ?st1] =>
      destruct (Db.getPool rt st1) as [[err|pool] st2]
  end.
  - cbn. destruct (err_number err) as [k|]; cbn;
      [destruct (Z.eqb k 2627 || Z.eqb k 2601)|]; cbn; auto.
  - unfold Db.query_insert_user. run.
    destruct (sql_fault rt) as [fault|]; cbn.
    + destruct (err_number fault) as [k|]; cbn;
        [destruct (Z.eqb k 2627 || Z.eqb k 2601)|]; cbn; auto.
    + destruct (List.existsb _ (users st2)); cbn;
        [destruct (Z.eqb _ 2627 || Z.eqb _ 2601); cbn; auto|].
      destruct (List.existsb _ (users st2)); cbn;
        [destruct (Z.eqb _ 2627 || Z.eqb _ 2601); cbn; auto|].
      left. reflexivity.
Qed.

(** X21.  What the register page sends passes the handler's validation.
    With a [toLowerCase] that neither adds nor removes [@] or a dot, in
    the browser and on the server, a form [validate] finds no fault with
    is sent as fields the handler accepts, so the handler answers 201,
    409 or 500 and never 400: the page either goes to
    [/login?registered=1] or shows "Username or email already exists" or
    "Registration failed. Please try again.". *)
Theorem register_page_passes_the_handler_validation :
  forall (browser : Browser) (rt : Runtime) (st : State) (o : option Session)
         (u e p c : jsstring),
    keeps_marks (b_toLowerCase browser) ->
    keeps_marks (toLowerCase rt) ->
    RegisterPage.has_keys (RegisterPage.validate u e p c) = false ->
    acceptable rt (trim u) (b_toLowerCase browser (trim e)) p
    /\ Js.eqb p c = true
    /\ exists view : RegisterPage.View,
        fst (RegisterPage.handleSubmit browser rt delivered o u e p c st)
        = inr view
        /\ ((RegisterPage.pushed view = Some "/login?registered=1"%string
             /\ RegisterPage.serverError view = ""%string)
            \/ (RegisterPage.pushed view = None
                /\ List.In (RegisterPage.serverError view)
                     ["Username or email already exists"%string;
                      "Registration failed. Please try again."%string])).
Proof.
  intros browser rt st o u e p c Hb Hs Hvalid.
  assert (Hfields :
            trim u <> []
            /\ (3 <= List.length (trim u) <= 100)%nat
            /\ trim e <> []
            /\ includes 64 e = true /\ includes 46 e = true
            /\ p <> [] /\ (8 <= List.length p)%nat
            /\ Js.eqb p c = true).
  { unfold RegisterPage.has_keys, RegisterPage.validate in Hvalid.
    cbn [RegisterPage.username RegisterPage.email RegisterPage.password
         RegisterPage.confirmPassword] in Hvalid.
    destruct (trim u) as [|u0 u'] eqn:Hu; [discriminate Hvalid|].
    destruct (Nat.ltb (List.length (u0 :: u')) 3) eqn:Hmin;
      [discriminate Hvalid|].
    destruct (Nat.ltb 100 (List.length (u0 :: u'))) eqn:Hmax;
      [discriminate Hvalid|].
    destruct (trim e) as [|e0 e'] eqn:He; [discriminate Hvalid|].
    destruct (includes 64 e) eqn:Hat; [|discriminate Hvalid].
    destruct (includes 46 e) eqn:Hdot; [|discriminate Hvalid].
    cbn [negb orb] in Hvalid.
    destruct p as [|p0 p']; [discriminate Hvalid|].
    destruct (Nat.ltb (List.length (p0 :: p')) 8) eqn:Hlen;
      [discriminate Hvalid|].
    destruct c as [|c0 c']; [discriminate Hvalid|].
    destruct (Js.eqb (p0 :: p') (c0 :: c')) eqn:Hsame;
      [|discriminate Hvalid].
    apply Nat.ltb_ge in Hmin, Hmax, Hlen.
    repeat split; try discriminate; assumption. }
  destruct Hfields as (Hu & Hulen & He & Hat & Hdot & Hp & Hplen & Hsame).
  assert (Hacc : acceptable rt (trim u) (b_toLowerCase browser (trim e)) p).
  { assert (Hmail :
              forall k : N,
                is_space k = false ->
                includes k e = true ->
                (forall s, includes k (b_toLowerCase browser s) = includes k s) ->
                (forall s, includes k (toLowerCase rt s) = includes k s) ->
                includes k (toLowerCase rt
                              (trim (b_toLowerCase browser (trim e)))) = true).
    { intros k Hk Hin Hkb Hks.
      rewrite Hks, includes_trim, Hkb, includes_trim by exact Hk.
      exact Hin. }
    unfold acceptable. rewrite trim_idempotent.
    split; [exact Hu|]. split.
    { apply (includes_nonempty 64).
      rewrite (proj1 (Hb _)), includes_trim by reflexivity. exact Hat. }
    split; [exact Hp|]. split; [exact Hulen|]. split.
    { apply Hmail; [reflexivity|exact Hat| |]; intros s;
        [apply (Hb s)|apply (Hs s)]. }
    split; [|exact Hplen].
    apply Hmail; [reflexivity|exact Hdot| |]; intros s;
      [apply (Hb s)|apply (Hs s)]. }
  split; [exact Hacc|]. split; [exact Hsame|].
  unfold RegisterPage.handleSubmit. rewrite Hvalid. unfold bind.
  fold (register_request o (trim u) (b_toLowerCase browser (trim e)) p).
  destruct (register_outcomes rt st o _ _ _ Hacc) as [H|[H|H]];
    destruct (Register.POST rt _ st) as [r st2]; cbn [fst] in H;
    rewrite H; cbn; eexists; (split; [reflexivity|]); cbn.
  - left. split; reflexivity.
  - right. split; [reflexivity|]. left. reflexivity.
  - right. split; [reflexivity|]. right. left. reflexivity.
Qed.

Lemma ascii_lower_keeps :
  forall (k : N) (s : jsstring),
    (k < 65 \/ 122 < k)%N ->
    includes k (Sample.ascii_lower s) = includes k s.
Proof.
  intros k s Hk. unfold includes, Sample.ascii_lower.
  induction s as [|x s IH]; [reflexivity|].
  cbn [List.map List.existsb]. rewrite IH. f_equal.
  destruct ((65 <=? x)%N && (x <=? 90)%N) eqn:Hx; [|reflexivity].
  apply Bool.andb_true_iff in Hx. destruct Hx as [Hlo Hhi].
  apply N.leb_le in Hlo, Hhi.
  destruct (N.eqb_spec k (x + 32)); destruct (N.eqb_spec k x);
    try reflexivity; lia.
Qed.

Lemma ascii_lower_keeps_marks : keeps_marks Sample.ascii_lower.
Proof.
  intros s. split; apply ascii_lower_keeps; left; reflexivity.
Qed.

(** The theorem on a new user [ Bob ] whose address is typed in capitals. *)
Lemma register_page_witness :
  acceptable Sample.rt (trim (lit "  Bob "))
             (Sample.ascii_lower (trim (lit "BOB@X.COM "))) (lit "hunter2hunter2")
  /\ exists view : RegisterPage.View,
      fst (RegisterPage.handleSubmit (same_engine Sample.rt) Sample.rt
             delivered None (lit "  Bob ") (lit "BOB@X.COM ")
             (lit "hunter2hunter2") (lit "hunter2hunter2") Sample.fresh)
      = inr view.
Proof.
  destruct (register_page_passes_the_handler_validation
              (same_engine Sample.rt) Sample.rt Sample.fresh None
              (lit "  Bob ") (lit "BOB@X.COM ")
              (lit "hunter2hunter2") (lit "hunter2hunter2")
              ascii_lower_keeps_marks ascii_lower_keeps_marks eq_refl)
    as (A & _ & view & B & _).
  split; [exact A|]. exists view. exact B.
Defined.

(** What the forgot-password handler answers to an address that passes
    its check. *)
Lemma forgot_outcome :
  forall (rt : Runtime) (st : State) (o : option Session) (e : jsstring),
    plausible_email rt e ->
    fst (ForgotPassword.POST rt (forgot_request o e) st)
    = inr (ok (Message ForgotPassword.confirmation)).
Proof.
  intros rt st o e [Hat Hdot].
  pose proof (includes_nonempty _ _ Hat) as Hne.
  unfold ForgotPassword.POST, forgot_request.
  cbn [req_json ForgotPassword.email option_map].
  destruct (toLowerCase rt (trim e)) as [|c m] eqn:Hm; [congruence|].
  rewrite Hat, Hdot. cbn [negb orb].
  run.
  match goal with
  | |- context [Db.getPool rt ?st1] =>
      destruct (Db.getPool rt st1) as [[err|pool] st2]
  end; [reflexivity|].
  unfold Db.query_active_user_by_email. run.
  destruct (sql_fault rt); cbn; [reflexivity|].
  destruct (List.hd_error _); reflexivity.
Qed.

(** X22.  The forgot-password page cannot be used to tell whether an
    address has an account.  With a server [toLowerCase] that neither
    adds nor removes [@] or a dot, every address [validate] accepts ends
    in the "submitted" state with no message, for every table and every
    behaviour of the database; the page sends the trimmed address and
    the handler never answers it 400 or 500. *)
Theorem forgot_page_always_ends_submitted :
  forall (rt : Runtime) (st : State) (o : option Session)
         (before : ForgotPasswordPage.PageState) (e : jsstring),
    keeps_marks (toLowerCase rt) ->
    fst (ForgotPasswordPage.validate e) = true ->
    fst (ForgotPasswordPage.handleSubmit rt delivered o before e st)
    = inr {| ForgotPasswordPage.emailError := "";
             ForgotPasswordPage.serverError := "";
             ForgotPasswordPage.pageState := ForgotPasswordPage.submitted;
             ForgotPasswordPage.loading := false |}.
Proof.
  intros rt st o before e Hs.
  unfold ForgotPasswordPage.handleSubmit, ForgotPasswordPage.validate.
  destruct (trim e) as [|e0 e'] eqn:He; [discriminate|].
  destruct (includes 64 e) eqn:Hat; [|discriminate].
  destruct (includes 46 e) eqn:Hdot; [|discriminate].
  cbn [negb orb fst]. intros _.
  assert (Hplausible : plausible_email rt (trim e)).
  { unfold plausible_email. rewrite trim_idempotent.
    rewrite (proj1 (Hs _)), (proj2 (Hs _)), !includes_trim by reflexivity.
    split; assumption. }
  pose proof (forgot_outcome rt st o (trim e) Hplausible) as H.
  unfold forgot_request in H. rewrite He in H.
  unfold bind.
  destruct (ForgotPassword.POST rt _ st) as [r st2]. cbn [fst] in H.
  rewrite H. reflexivity.
Qed.

(** The theorem on an address that has no account, typed with blanks. *)
Lemma forgot_page_witness :
  fst (ForgotPasswordPage.handleSubmit Sample.rt delivered None
         ForgotPasswordPage.form (lit " Nobody@Nowhere.org ") Sample.fresh)
  = inr {| ForgotPasswordPage.emailError := "";
           ForgotPasswordPage.serverError := "";
           ForgotPasswordPage.pageState := ForgotPasswordPage.submitted;
           ForgotPasswordPage.loading := false |}.
Proof.
  apply (forgot_page_always_ends_submitted Sample.rt Sample.fresh None
           ForgotPasswordPage.form (lit " Nobody@Nowhere.org ")).
  - exact ascii_lower_keeps_marks.
  - reflexivity.
Defined.

